(** * The retrieval pipeline of the code assistant: chunking, embedding, indexing

    A shallow embedding of
      - [code_assistant/core/types.py]              (module [Types]),
      - [code_assistant/embeddings/chunker.py]      (module [Chunker]),
      - [code_assistant/core/exceptions.py] and
        [code_assistant/embeddings/embedder.py]     (module [Embedder]),
      - [code_assistant/embeddings/vector_store.py] (module [VectorStore]),
    then the vocabulary of the statements and the sample data they are
    evaluated on, then the properties proved, component by component.

    Conventions.  Python [int] is [Z]; [str] is [string] (one character per
    byte); [dict] is [gmap]; [Optional[T]] is [option T]; code that may raise
    returns [result].  Python [float] is the binary64 [float] of the kernel
    for embedding vectors, whose arithmetic rounds, overflows and underflows
    as the code's does; distances, scores and complexity, which the code only
    compares and subtracts, are exact rationals [Q]. *)

From Stdlib Require Import Floats.
From Stdlib Require Import ZArith QArith Qabs Lia String Ascii List.
From stdpp Require Import base option list strings gmap fin_maps pretty sorting.

Set Warnings "-register-all".
Local Open Scope string_scope.
Local Open Scope list_scope.
Local Open Scope Z_scope.

(* ================================================================== *)
(** * Python values, exceptions and built-ins *)
(* ================================================================== *)

Module Py.

(** The exceptions that occur in the modelled code.  [ExternalError] stands
    for whatever a collaborator outside the repository raises (the file
    system, a parser, the embedding service, the vector backend). *)
Inductive exn : Type :=
| TypeError (msg : string)
| ValueError (msg : string)
| KeyError (key : string)
| ValidationError (field : string)
| EmbeddingError (message : string) (model_name : option string)
| VectorStoreError (message : string)
| ExternalError (msg : string).

Inductive result (A : Type) : Type :=
| Ok (a : A)
| Raise (e : exn).
Arguments Ok {A} a.
Arguments Raise {A} e.

Definition bind {A B} (m : result A) (k : A -> result B) : result B :=
  match m with
  | Ok a => k a
  | Raise e => Raise e
  end.

(** [try: body except Exception as e: handler e] *)
Definition try_except {A} (body : result A) (handler : exn -> result A) : result A :=
  match body with
  | Ok a => Ok a
  | Raise e => handler e
  end.

Fixpoint mapM {A B} (f : A -> result B) (l : list A) : result (list B) :=
  match l with
  | [] => Ok []
  | x :: xs => bind (f x) (fun y => bind (mapM f xs) (fun ys => Ok (y :: ys)))
  end.

(** [str(e)] of an exception: [CodeAssistantError.__str__] prefixes the error
    code, built-in exceptions print their message. *)
Definition exn_str (e : exn) : string :=
  match e with
  | TypeError m | ValueError m | ExternalError m => m
  | KeyError k => "'" +:+ k +:+ "'"
  | ValidationError f => "validation error for " +:+ f
  | EmbeddingError m _ => "[EMBEDDING_ERROR] " +:+ m
  | VectorStoreError m => "[VECTOR_STORE_ERROR] " +:+ m
  end.

(** Values that occur in metadata dictionaries ([Dict[str, Any]]).  [VOther]
    is an object of any other class, known by its truth value and its
    [str()]. *)
Inductive PyValue : Type :=
| VNone
| VBool (b : bool)
| VInt (z : Z)
| VFloat (q : Q)
| VStr (s : string)
| VList (l : list PyValue)
| VDict (d : list (string * PyValue))
| VOther (truth : bool) (shown : string).

(** [bool(v)] *)
Definition truthy (v : PyValue) : bool :=
  match v with
  | VNone => false
  | VBool b => b
  | VInt z => negb (z =? 0)
  | VFloat q => negb (Qeq_bool q 0)
  | VStr s => negb (String.eqb s "")
  | VList l => match l with [] => false | _ => true end
  | VDict d => match d with [] => false | _ => true end
  | VOther t _ => t
  end.

(** [isinstance(v, (str, int, float, bool))] *)
Definition is_scalar (v : PyValue) : bool :=
  match v with
  | VBool _ | VInt _ | VFloat _ | VStr _ => true
  | _ => false
  end.

(** [x or default] on optional strings: [None] and [""] are both falsy. *)
Definition str_or (x : option string) (default : string) : string :=
  match x with
  | Some s => if String.eqb s "" then default else s
  | None => default
  end.

Definition opt_str_truthy (x : option string) : bool :=
  match x with
  | Some s => negb (String.eqb s "")
  | None => false
  end.

(** Built-ins whose definition is not part of the repository: [str()] of a
    value, [uuid.uuid5(uuid.NAMESPACE_DNS, name)], [hash()] of a string, and
    [list(set(xs))] for strings [xs]: the distinct elements in the order of
    the hash table, which differs from one run to the next. *)
Class Builtins : Type := {
  py_str : PyValue -> string;
  uuid5 : string -> string;
  py_hash : string -> Z;
  list_of_set : list string -> list string
}.

(** [str(v)]: a string is its own [str()], an object of another class shows
    as its [__str__] says; the rest is the built-in's business. *)
Definition str_of `{Builtins} (v : PyValue) : string :=
  match v with
  | VStr s => s
  | VOther _ shown => shown
  | _ => py_str v
  end.

(** ** Sequences *)

Definition newline : ascii := "010"%char.
Definition nl : string := String newline "".

(** [s.split('\n')] *)
Fixpoint split_lines (s : string) : list string :=
  match s with
  | EmptyString => [""]
  | String c rest =>
      if Ascii.eqb c newline then "" :: split_lines rest
      else match split_lines rest with
           | [] => [String c ""]
           | l :: ls => String c l :: ls
           end
  end.

(** [sep.join(parts)] *)
Definition join (sep : string) (parts : list string) : string :=
  String.concat sep parts.

(** [s.count('\n')] *)
Fixpoint count_newlines (s : string) : Z :=
  match s with
  | EmptyString => 0
  | String c rest => (if Ascii.eqb c newline then 1 else 0) + count_newlines rest
  end.

Definition len (s : string) : Z := Z.of_nat (String.length s).
Definition llen {A} (l : list A) : Z := Z.of_nat (length l).

(** A slice bound [i] of a sequence of length [n], as Python normalises it:
    negative bounds count from the end, and all bounds are clamped. *)
Definition slice_bound (n i : Z) : Z :=
  if i <? 0 then Z.max 0 (n + i) else Z.min i n.

(** [l[lo:hi]] *)
Definition slice {A} (l : list A) (lo hi : Z) : list A :=
  let n := llen l in
  let lo' := slice_bound n lo in
  let hi' := slice_bound n hi in
  take (Z.to_nat (hi' - lo')) (drop (Z.to_nat lo') l).

(** [l[lo:]] *)
Definition slice_from {A} (l : list A) (lo : Z) : list A :=
  drop (Z.to_nat (slice_bound (llen l) lo)) l.

(** [s[:hi]] on strings *)
Definition str_prefix (s : string) (hi : Z) : string :=
  string_of_list_ascii (slice (list_ascii_of_string s) 0 hi).

(** [s.startswith(p)] *)
Definition startswith (s p : string) : bool := String.prefix p s.

(** [x in l] for strings *)
Definition str_in (x : string) (l : list string) : bool :=
  bool_decide (x ∈ l).

(** [min(...)] and [max(...)] of a non-empty sequence of integers . *)
Definition min_of (x : Z) (xs : list Z) : Z := foldl Z.min x xs.
Definition max_of (x : Z) (xs : list Z) : Z := foldl Z.max x xs.

(** [enumerate(l, start)] *)
Fixpoint enumerate {A} (start : Z) (l : list A) : list (Z * A) :=
  match l with
  | [] => []
  | x :: xs => (start, x) :: enumerate (start + 1) xs
  end.

End Py.
Export Py.

#[global] Instance result_ret : MRet result := @Ok.
#[global] Instance result_bind : MBind result := fun A B k m => Py.bind m k.

(* ================================================================== *)
(** * core/types.py *)
(* ================================================================== *)

Module Types.

Inductive LanguageType : Type :=
| PYTHON | JAVASCRIPT | TYPESCRIPT | JAVA | GO | RUST | CPP | C | CSHARP | PHP.

Definition language_value (l : LanguageType) : string :=
  match l with
  | PYTHON => "python" | JAVASCRIPT => "javascript" | TYPESCRIPT => "typescript"
  | JAVA => "java" | GO => "go" | RUST => "rust" | CPP => "cpp" | C => "c"
  | CSHARP => "csharp" | PHP => "php"
  end.

Definition all_languages : list LanguageType :=
  [PYTHON; JAVASCRIPT; TYPESCRIPT; JAVA; GO; RUST; CPP; C; CSHARP; PHP].

Inductive CodeElementType : Type :=
| FUNCTION | CLASS | METHOD | VARIABLE | CONSTANT | IMPORT | MODULE
| INTERFACE | ENUM | STRUCT | NAMESPACE | DECORATOR | COMMENT | DOCSTRING.

Definition element_type_value (t : CodeElementType) : string :=
  match t with
  | FUNCTION => "function" | CLASS => "class" | METHOD => "method"
  | VARIABLE => "variable" | CONSTANT => "constant" | IMPORT => "import"
  | MODULE => "module" | INTERFACE => "interface" | ENUM => "enum"
  | STRUCT => "struct" | NAMESPACE => "namespace" | DECORATOR => "decorator"
  | COMMENT => "comment" | DOCSTRING => "docstring"
  end.

Definition all_element_types : list CodeElementType :=
  [FUNCTION; CLASS; METHOD; VARIABLE; CONSTANT; IMPORT; MODULE;
   INTERFACE; ENUM; STRUCT; NAMESPACE; DECORATOR; COMMENT; DOCSTRING].

#[global] Instance LanguageType_eq_dec : EqDecision LanguageType.
Proof. solve_decision. Defined.
#[global] Instance CodeElementType_eq_dec : EqDecision CodeElementType.
Proof. solve_decision. Defined.

(** [Literal["code", "comment", "docstring", "documentation"]] *)
Inductive ChunkType : Type :=
| CT_code | CT_comment | CT_docstring | CT_documentation.

Definition chunk_type_value (t : ChunkType) : string :=
  match t with
  | CT_code => "code" | CT_comment => "comment"
  | CT_docstring => "docstring" | CT_documentation => "documentation"
  end.

Definition all_chunk_types : list ChunkType :=
  [CT_code; CT_comment; CT_docstring; CT_documentation].

(** Validation of an enum field from its string value (pydantic). *)
Definition parse_enum {A} (value : A -> string) (all : list A) (s : string) : option A :=
  find (fun a => String.eqb (value a) s) all.

Record CodeElement : Type := {
  ce_name : string;
  ce_element_type : CodeElementType;
  ce_language : LanguageType;
  ce_file_path : string;
  ce_start_line : Z;
  ce_end_line : Z;
  ce_content : string;
  ce_docstring : option string;
  ce_parameters : list PyValue;
  ce_return_type : option string;
  ce_decorators : list string;
  ce_parent_element : option string;
  ce_children : list string;
  ce_dependencies : list string;
  ce_complexity_score : option Q
}.

(** The fields of [AnalysisResult] (and of its [file_info]) that the
    pipeline reads. *)
Record AnalysisResult : Type := {
  file_info_language : option LanguageType;
  success : bool;
  error_message : option string;
  code_elements : list CodeElement
}.

Record DocumentChunk : Type := {
  content : string;
  chunk_type : ChunkType;
  language : option LanguageType;
  file_path : string;
  start_line : Z;
  end_line : Z;
  element_name : option string;
  element_type : option CodeElementType;
  metadata : gmap string PyValue
}.

Record EmbeddingResult : Type := {
  chunk : DocumentChunk;
  embedding : list float;
  model_name : string;
  embedding_dimension : Z
}.

Record SearchQuery : Type := {
  query : string;
  q_language : option LanguageType;
  element_types : list CodeElementType;
  file_patterns : list string;
  max_results : Z;
  similarity_threshold : Q;
  (** not a declared field: [search] looks for it with [hasattr] *)
  q_embedding : option (list float)
}.

Record SearchResult : Type := {
  sr_chunk : DocumentChunk;
  similarity_score : Q;
  rank : Z
}.

End Types.
Export Types.

(* ================================================================== *)
(** * embeddings/chunker.py *)
(* ================================================================== *)

Module Chunker.

Inductive ChunkingStrategy : Type :=
| FUNCTION_BASED | CLASS_BASED | SEMANTIC_BLOCKS | SLIDING_WINDOW | HYBRID.

Record ChunkingConfig : Type := {
  strategy : ChunkingStrategy;
  max_chunk_size : Z;
  min_chunk_size : Z;
  overlap_size : Z;
  include_context : bool;
  preserve_functions : bool;
  preserve_classes : bool;
  include_imports : bool;
  include_docstrings : bool;
  merge_small_functions : bool
}.

Definition default_config : ChunkingConfig := {|
  strategy := HYBRID;
  max_chunk_size := 1000;
  min_chunk_size := 100;
  overlap_size := 100;
  include_context := true;
  preserve_functions := true;
  preserve_classes := true;
  include_imports := true;
  include_docstrings := true;
  merge_small_functions := true
|}.

(** The collaborators of [chunk_file]: the parser that the factory returns
    for a path (if any), and the file system read by the fallback. *)
Record Parser : Type := {
  parse_file : string -> result AnalysisResult;
  read_file_content : string -> result string
}.

Record World : Type := {
  create_parser_from_file : string -> option Parser;
  (** [open(file_path, 'r', encoding='utf-8').read()] *)
  read_text : string -> result string
}.

Definition opt_str_value (o : option string) : PyValue :=
  match o with Some s => VStr s | None => VNone end.

Definition opt_float_value (o : option Q) : PyValue :=
  match o with Some q => VFloat q | None => VNone end.

Definition str_list_value (l : list string) : PyValue := VList (VStr <$> l).

Definition has_type (ts : list CodeElementType) (e : CodeElement) : bool :=
  bool_decide (ce_element_type e ∈ ts).

Definition Qlt_bool (a b : Q) : bool := negb (Qle_bool b a).

Definition _extract_element_content (element : CodeElement) (lines : list string) : string :=
  let start_idx := Z.max 0 (ce_start_line element - 1) in
  let end_idx := Z.min (llen lines) (ce_end_line element) in
  join nl (slice lines start_idx end_idx).

(** The source lines of an element: [lines[e.start_line-1:e.end_line]]. *)
Definition element_lines (e : CodeElement) (lines : list string) : list string :=
  slice lines (ce_start_line e - 1) (ce_end_line e).

Definition _add_context (cfg : ChunkingConfig) (element : CodeElement)
    (lines : list string) (result : AnalysisResult) : string :=
  let context_lines := 3 in
  let start_idx := Z.max 0 (ce_start_line element - 1 - context_lines) in
  let end_idx := Z.min (llen lines) (ce_end_line element + context_lines) in
  let body := join nl (slice lines start_idx end_idx) in
  if include_imports cfg then
    let imports := filter (fun e => has_type [IMPORT] e = true) (code_elements result) in
    let import_lines :=
      flat_map (fun imp =>
                  if existsb (fun dep => str_in dep (ce_dependencies element))
                             (ce_dependencies imp)
                  then element_lines imp lines else [])
               imports in
    match import_lines with
    | [] => body
    | _ => join nl import_lines +:+ nl +:+ nl +:+ body
    end
  else body.

Definition docstring_chunk (cfg : ChunkingConfig) (result : AnalysisResult)
    (file_path : string) (e : CodeElement) (name_key kind : string) : list DocumentChunk :=
  match ce_docstring e with
  | Some doc =>
      if include_docstrings cfg && negb (String.eqb doc "") then
        [{| content := doc;
            chunk_type := CT_docstring;
            language := file_info_language result;
            file_path := file_path;
            start_line := ce_start_line e;
            end_line := ce_start_line e + count_newlines doc;
            element_name := Some (ce_name e);
            element_type := Some (ce_element_type e);
            metadata := list_to_map [(name_key, VStr (ce_name e));
                                     ("docstring_type", VStr kind)] |}]
      else []
  | None => []
  end.

Definition function_chunk (cfg : ChunkingConfig) (result : AnalysisResult)
    (lines : list string) (file_path : string) (func : CodeElement) : DocumentChunk :=
  {| content := if include_context cfg then _add_context cfg func lines result
                else _extract_element_content func lines;
     chunk_type := CT_code;
     language := file_info_language result;
     file_path := file_path;
     start_line := ce_start_line func;
     end_line := ce_end_line func;
     element_name := Some (ce_name func);
     element_type := Some (ce_element_type func);
     metadata := list_to_map
       [("function_name", VStr (ce_name func));
        ("complexity_score", opt_float_value (ce_complexity_score func));
        ("parameters", VList (ce_parameters func));
        ("return_type", opt_str_value (ce_return_type func));
        ("docstring", opt_str_value (ce_docstring func));
        ("decorators", str_list_value (ce_decorators func));
        ("parent_class", opt_str_value (ce_parent_element func))] |}.

Definition _chunk_by_functions (cfg : ChunkingConfig) (result : AnalysisResult)
    (content : string) (file_path : string) : list DocumentChunk :=
  let lines := split_lines content in
  let functions := filter (fun e => has_type [FUNCTION; METHOD] e = true)
                          (code_elements result) in
  flat_map (fun func =>
              function_chunk cfg result lines file_path func
              :: docstring_chunk cfg result file_path func "function_name" "function_docstring")
           functions.

Definition class_chunk (result : AnalysisResult) (lines : list string)
    (file_path : string) (cls : CodeElement) : DocumentChunk :=
  {| content := _extract_element_content cls lines;
     chunk_type := CT_code;
     language := file_info_language result;
     file_path := file_path;
     start_line := ce_start_line cls;
     end_line := ce_end_line cls;
     element_name := Some (ce_name cls);
     element_type := Some (ce_element_type cls);
     metadata := list_to_map
       [("class_name", VStr (ce_name cls));
        ("inheritance", str_list_value (ce_dependencies cls));
        ("methods", str_list_value (ce_children cls));
        ("decorators", str_list_value (ce_decorators cls));
        ("complexity_score", opt_float_value (ce_complexity_score cls))] |}.

Definition _chunk_by_classes (cfg : ChunkingConfig) (result : AnalysisResult)
    (content : string) (file_path : string) : list DocumentChunk :=
  let lines := split_lines content in
  let classes := filter (fun e => has_type [CLASS] e = true) (code_elements result) in
  flat_map (fun cls =>
              class_chunk result lines file_path cls
              :: docstring_chunk cfg result file_path cls "class_name" "class_docstring")
           classes.

Definition _are_semantically_related (elem1 elem2 : CodeElement) : bool :=
  (opt_str_truthy (ce_parent_element elem1)
   && bool_decide (ce_parent_element elem1 = ce_parent_element elem2))
  || (startswith (ce_name elem1) (str_prefix (ce_name elem2) 3)
      || startswith (ce_name elem2) (str_prefix (ce_name elem1) 3))
  || (Z.abs (ce_start_line elem1 - ce_end_line elem2) <=? 10)
  || (str_in (ce_name elem2) (ce_dependencies elem1)
      || str_in (ce_name elem1) (ce_dependencies elem2)).

(** The inner loop of [_group_semantic_elements]: the group of [element] and
    the names used so far. *)
Definition related_step (element : CodeElement)
    (st : list CodeElement * gset string) (other : CodeElement)
  : list CodeElement * gset string :=
  if bool_decide (ce_name other ∈ st.2) then st
  else if _are_semantically_related element other
       then (st.1 ++ [other], {[ce_name other]} ∪ st.2)
       else st.

Definition group_step (elements : list CodeElement)
    (st : list (list CodeElement) * gset string) (element : CodeElement)
  : list (list CodeElement) * gset string :=
  if bool_decide (ce_name element ∈ st.2) then st
  else
    let inner := foldl (related_step element)
                       ([element], {[ce_name element]} ∪ st.2) elements in
    if (1 <? llen inner.1) || has_type [CLASS; FUNCTION] element
    then (st.1 ++ [inner.1], inner.2)
    else (st.1, inner.2).

Definition _group_semantic_elements (elements : list CodeElement)
  : list (list CodeElement) :=
  (foldl (group_step elements) ([], ∅) elements).1.

Definition semantic_chunk (result : AnalysisResult) (lines : list string)
    (file_path : string) (group : list CodeElement) : list DocumentChunk :=
  match group with
  | [] => []
  | e :: es =>
      let start_line := min_of (ce_start_line e) (ce_start_line <$> es) in
      let end_line := max_of (ce_end_line e) (ce_end_line <$> es) in
      [{| content := join nl (slice lines (start_line - 1) end_line);
          chunk_type := CT_code;
          language := file_info_language result;
          file_path := file_path;
          start_line := start_line;
          end_line := end_line;
          element_name := Some ("semantic_block_" +:+ pretty start_line
                                +:+ "_" +:+ pretty end_line);
          element_type := None;
          metadata := list_to_map
            [("semantic_group", VBool true);
             ("elements",
              VList ((fun x => VDict
                        [("name", VStr (ce_name x));
                         ("type", VStr (element_type_value (ce_element_type x)))])
                     <$> group));
             ("group_size", VInt (llen group))] |}]
  end.

Definition _chunk_semantic_blocks (result : AnalysisResult)
    (content : string) (file_path : string) : list DocumentChunk :=
  let lines := split_lines content in
  flat_map (semantic_chunk result lines file_path)
           (_group_semantic_elements (code_elements result)).

(** ** Sliding window *)

Record Window : Type := {
  chunks : list DocumentChunk;
  current_chunk : list string;
  current_size : Z;
  chunk_start_line : Z
}.

Definition window_chunk (file_path : string) (current_chunk : list string)
    (first last : Z) : DocumentChunk :=
  {| content := join nl current_chunk;
     chunk_type := CT_code;
     language := None;
     file_path := file_path;
     start_line := first;
     end_line := last;
     element_name := Some ("chunk_" +:+ pretty first +:+ "_" +:+ pretty last);
     element_type := None;
     metadata := {["chunking_method" := VStr "sliding_window"]} |}.

Definition lines_size (ls : list string) : Z :=
  foldr (fun line acc => len line + 1 + acc) 0 ls.

(** One turn of [for i, line in enumerate(lines, 1)]. *)
Definition window_step (cfg : ChunkingConfig) (file_path : string)
    (w : Window) (il : Z * string) : Window :=
  let current_chunk := current_chunk w ++ [il.2] in
  let current_size := current_size w + (len il.2 + 1) in
  if current_size >=? max_chunk_size cfg then
    let overlap_lines := Z.max 1 (overlap_size cfg `div` 50) in
    let kept := slice_from current_chunk (- overlap_lines) in
    {| chunks := chunks w ++ [window_chunk file_path current_chunk (chunk_start_line w) il.1];
       current_chunk := kept;
       current_size := lines_size kept;
       chunk_start_line := il.1 - overlap_lines + 1 |}
  else
    {| chunks := chunks w;
       current_chunk := current_chunk;
       current_size := current_size;
       chunk_start_line := chunk_start_line w |}.

Definition _sliding_window_chunking (cfg : ChunkingConfig)
    (content : string) (file_path : string) : list DocumentChunk :=
  let lines := split_lines content in
  let w := foldl (window_step cfg file_path)
                 {| chunks := []; current_chunk := [];
                    current_size := 0; chunk_start_line := 1 |}
                 (enumerate 1 lines) in
  match current_chunk w with
  | [] => chunks w
  | _ => chunks w ++ [window_chunk file_path (current_chunk w)
                                   (chunk_start_line w) (llen lines)]
  end.

(** ** Hybrid *)

Definition is_complex (c : CodeElement) : bool :=
  match ce_complexity_score c with
  | Some q => negb (Qeq_bool q 0) && Qlt_bool 10 q
  | None => false
  end.

Definition complex_class_chunk (result : AnalysisResult) (lines : list string)
    (file_path : string) (cls : CodeElement) : DocumentChunk :=
  {| content := _extract_element_content cls lines;
     chunk_type := CT_code;
     language := file_info_language result;
     file_path := file_path;
     start_line := ce_start_line cls;
     end_line := ce_end_line cls;
     element_name := Some (ce_name cls);
     element_type := Some (ce_element_type cls);
     metadata := list_to_map
       [("class_name", VStr (ce_name cls));
        ("chunking_reason", VStr "complex_class");
        ("complexity_score", opt_float_value (ce_complexity_score cls))] |}.

Definition imports_chunk (result : AnalysisResult) (lines : list string)
    (file_path : string) : list DocumentChunk :=
  let imports := filter (fun e => has_type [IMPORT] e = true) (code_elements result) in
  let import_lines := flat_map (fun imp => element_lines imp lines) imports in
  match imports, import_lines with
  | _ :: _, _ :: _ =>
      [{| content := join nl import_lines;
          chunk_type := CT_code;
          language := file_info_language result;
          file_path := file_path;
          start_line := 1;
          end_line := llen import_lines;
          element_name := Some "imports";
          element_type := Some IMPORT;
          metadata := list_to_map [("chunk_type", VStr "imports");
                                   ("import_count", VInt (llen imports))] |}]
  | _, _ => []
  end.

Definition _hybrid_chunking (cfg : ChunkingConfig) (result : AnalysisResult)
    (content : string) (file_path : string) : list DocumentChunk :=
  let lines := split_lines content in
  (if preserve_functions cfg then _chunk_by_functions cfg result content file_path else [])
  ++ (if preserve_classes cfg then
        let classes := filter (fun e => has_type [CLASS] e = true) (code_elements result) in
        let complex_classes := filter (fun c => is_complex c = true) classes in
        complex_class_chunk result lines file_path <$> complex_classes
      else [])
  ++ (if include_imports cfg then imports_chunk result lines file_path else []).

(** ** Post-processing *)

Definition _trim_chunk (cfg : ChunkingConfig) (chunk : DocumentChunk) : DocumentChunk :=
  let lines := split_lines (content chunk) in
  let target_lines := max_chunk_size cfg `quot` 50 in
  if llen lines >? target_lines then
    let trimmed_lines := slice lines 0 target_lines in
    {| content := join nl trimmed_lines;
       chunk_type := chunk_type chunk;
       language := language chunk;
       file_path := file_path chunk;
       start_line := start_line chunk;
       end_line := start_line chunk + llen trimmed_lines - 1;
       element_name := element_name chunk;
       element_type := element_type chunk;
       metadata := <["original_lines" := VInt (llen lines)]>
                   (<["trimmed" := VBool true]> (metadata chunk)) |}
  else chunk.

Definition _create_merged_chunk `{Builtins} (chunks : list DocumentChunk)
  : result DocumentChunk :=
  match chunks with
  | [] => Raise (ValueError "Cannot merge empty chunk list")
  | c0 :: cs =>
      let combined_content := join (nl +:+ nl) (content <$> chunks) in
      let start_line := min_of (start_line c0) (start_line <$> cs) in
      let end_line := max_of (end_line c0) (end_line <$> cs) in
      Ok {| content := combined_content;
            chunk_type := CT_code;
            language := language c0;
            file_path := file_path c0;
            start_line := start_line;
            end_line := end_line;
            element_name := Some ("merged_" +:+ pretty start_line
                                  +:+ "_" +:+ pretty end_line);
            element_type := None;
            metadata := list_to_map
              [("merged_chunk", VBool true);
               ("original_chunks", VInt (llen chunks));
               ("element_names",
                VList (VStr <$> omap (fun c => if opt_str_truthy (element_name c)
                                               then element_name c else None) chunks));
               ("element_types",
                VList (VStr <$> list_of_set
                         (omap (fun c => element_type_value <$> element_type c) chunks)))] |}
  end.

(** What happens to the group of small chunks collected so far. *)
Definition flush_group `{Builtins} (merged_chunks current_group : list DocumentChunk)
  : result (list DocumentChunk) :=
  match current_group with
  | [] => Ok merged_chunks
  | [c] => Ok (merged_chunks ++ [c])
  | _ => merged_chunk ← _create_merged_chunk current_group;
         Ok (merged_chunks ++ [merged_chunk])
  end.

Definition is_small (cfg : ChunkingConfig) (chunk : DocumentChunk) : bool :=
  len (content chunk) <? min_chunk_size cfg * 2.

Fixpoint merge_loop `{Builtins} (cfg : ChunkingConfig)
    (chunks merged_chunks current_group : list DocumentChunk)
  : result (list DocumentChunk) :=
  match chunks with
  | [] => flush_group merged_chunks current_group
  | chunk :: rest =>
      if is_small cfg chunk
      then merge_loop cfg rest merged_chunks (current_group ++ [chunk])
      else merged_chunks ← flush_group merged_chunks current_group;
           merge_loop cfg rest (merged_chunks ++ [chunk]) []
  end.

Definition _merge_small_chunks `{Builtins} (cfg : ChunkingConfig) (chunks : list DocumentChunk)
  : result (list DocumentChunk) :=
  merge_loop cfg chunks [] [].

(** One turn of the first loop of [_post_process_chunks]: nothing for a chunk
    that is skipped, the chunk (trimmed if too large) otherwise. *)
Definition size_stage (cfg : ChunkingConfig) (chunk : DocumentChunk) : list DocumentChunk :=
  if (len (content chunk) <? min_chunk_size cfg)
     && negb (bool_decide (element_type chunk ∈ [Some CLASS; Some FUNCTION]))
  then []
  else [if len (content chunk) >? max_chunk_size cfg then _trim_chunk cfg chunk else chunk].

Definition _post_process_chunks `{Builtins} (cfg : ChunkingConfig) (chunks : list DocumentChunk)
  : result (list DocumentChunk) :=
  let processed_chunks := flat_map (size_stage cfg) chunks in
  if merge_small_functions cfg then _merge_small_chunks cfg processed_chunks
  else Ok processed_chunks.

(** ** [chunk_file] *)

Definition _fallback_chunking (cfg : ChunkingConfig) (w : World) (file_path : string)
  : result (list DocumentChunk) :=
  try_except
    (content ← read_text w file_path;
     Ok (_sliding_window_chunking cfg content file_path))
    (fun _ => Ok []).

Definition apply_strategy (cfg : ChunkingConfig) (result : AnalysisResult)
    (content : string) (file_path : string) : list DocumentChunk :=
  match strategy cfg with
  | FUNCTION_BASED => _chunk_by_functions cfg result content file_path
  | CLASS_BASED => _chunk_by_classes cfg result content file_path
  | SEMANTIC_BLOCKS => _chunk_semantic_blocks result content file_path
  | SLIDING_WINDOW => _sliding_window_chunking cfg content file_path
  | HYBRID => _hybrid_chunking cfg result content file_path
  end.

Definition chunk_file `{Builtins} (cfg : ChunkingConfig) (w : World) (file_path : string)
  : result (list DocumentChunk) :=
  try_except
    (match create_parser_from_file w file_path with
     | None => _fallback_chunking cfg w file_path
     | Some parser =>
         result ← parse_file parser file_path;
         if negb (success result) then _fallback_chunking cfg w file_path
         else
           content ← read_file_content parser file_path;
           _post_process_chunks cfg (apply_strategy cfg result content file_path)
     end)
    (fun _ => _fallback_chunking cfg w file_path).

(** ** [chunk_repository]

    [walk] is what iterating [repo_path.rglob("*")] yields and [walk_end] the
    exception that ends the iteration, if one does; [is_file] is the test of
    the file system, which may raise as well ([PermissionError]), and
    [is_supported_file] that of the parser factory.  Neither loop has a
    handler. *)
Fixpoint find_supported (is_file : string -> result bool)
    (is_supported_file : string -> bool) (walk : list string) : result (list string) :=
  match walk with
  | [] => Ok []
  | file_path :: rest =>
      a_file ← is_file file_path;
      supported_files ← find_supported is_file is_supported_file rest;
      Ok (if a_file && is_supported_file file_path
          then file_path :: supported_files else supported_files)
  end.

Definition chunk_repository `{Builtins} (cfg : ChunkingConfig) (w : World) (walk : list string)
    (walk_end : option exn) (is_file : string -> result bool)
    (is_supported_file : string -> bool) : result (list DocumentChunk) :=
  supported_files ← find_supported is_file is_supported_file walk;
  _ ← match walk_end with
      | Some e => Raise e
      | None => Ok tt
      end;
  chunks ← mapM (chunk_file cfg w) supported_files;
  Ok (concat chunks).

End Chunker.

(* ================================================================== *)
(** * core/exceptions.py and embeddings/embedder.py *)
(* ================================================================== *)

Module Embedder.

Inductive EmbeddingModel : Type :=
| GOOGLE_EMBEDDING | CODEBERT | SENTENCE_TRANSFORMER | CODET5 | UNIXCODER.

Record EmbeddingConfig : Type := {
  model : EmbeddingModel;
  batch_size : Z;
  max_retries : Z;
  retry_delay : Q;
  normalize_embeddings : bool;
  include_metadata : bool;
  cache_embeddings : bool;
  context_window : Z
}.

Definition default_config : EmbeddingConfig := {|
  model := GOOGLE_EMBEDDING;
  batch_size := 32;
  max_retries := 3;
  retry_delay := 1;
  normalize_embeddings := true;
  include_metadata := true;
  cache_embeddings := true;
  context_window := 512
|}.

(** The embedding services behind [_generate_embedding]. *)
Record ModelService : Type := {
  (** [genai.embed_content(model=..., content=text, ...)['embedding']] *)
  genai_embed_content : string -> result (list float);
  (** [self.model.encode([text], convert_to_numpy=True)[0].tolist()] *)
  transformer_encode : string -> result (list float)
}.

(** The attributes of a [CodeEmbedder] that [embed_chunk] reads and writes. *)
Record CodeEmbedder : Type := {
  self_model_name : string;
  self_embedding_dimension : Z;
  _cache : gmap string EmbeddingResult
}.

(** [_initialize_model]: the model named by the configuration, or the
    sentence transformer when its initialisation fails. *)
Definition _initialize_model (cfg : EmbeddingConfig) (init_fails : bool) : CodeEmbedder :=
  let named name dim :=
    {| self_model_name := name; self_embedding_dimension := dim; _cache := ∅ |} in
  if init_fails then named "all-MiniLM-L6-v2" 384
  else match model cfg with
       | GOOGLE_EMBEDDING => named "models/text-embedding-004" 768
       | CODEBERT => named "microsoft/codebert-base" 768
       | SENTENCE_TRANSFORMER => named "all-MiniLM-L6-v2" 384
       | CODET5 => named "Salesforce/codet5-base" 768
       | UNIXCODER => named "microsoft/unixcoder-base" 768
       end.

(** [EmbeddingError(message, **kwargs)].  The class declares
    [__init__(self, message, model_name=None)]: any other keyword makes the
    call itself raise [TypeError]. *)
Definition EmbeddingError_new (message : string) (kwargs : list (string * string))
  : result exn :=
  match filter (fun kv => kv.1 ≠ "model_name") kwargs with
  | kv :: _ =>
      Raise (TypeError ("EmbeddingError.__init__() got an unexpected keyword argument '"
                        +:+ kv.1 +:+ "'"))
  | [] => Ok (EmbeddingError message (snd <$> head kwargs))
  end.

(** [raise E(...)]: the exception is built first, then raised. *)
Definition raise_new {A} (e : result exn) : result A :=
  match e with
  | Ok e => Raise e
  | Raise e' => Raise e'
  end.

(** [f"{x}"] of an optional string *)
Definition fmt_opt (o : option string) : string :=
  match o with Some s => s | None => "None" end.

(** [for x in v] *)
Definition py_iter (v : PyValue) : result (list PyValue) :=
  match v with
  | VList l => Ok l
  | VDict d => Ok (VStr <$> d.*1)
  | VStr s => Ok ((fun c => VStr (String c "")) <$> list_ascii_of_string s)
  | _ => Raise (TypeError "object is not iterable")
  end.

(** [sep.join(items)]: every item must be a string. *)
Definition py_join (sep : string) (items : list PyValue) : result string :=
  parts ← mapM (fun v => match v with
                         | VStr s => Ok s
                         | _ => Raise (TypeError "sequence item: expected str instance")
                         end) items;
  Ok (join sep parts).

(** [[p.get('name', '') for p in params if isinstance(p, dict)]] *)
Definition param_names (params : list PyValue) : list PyValue :=
  omap (fun p => match p with
                 | VDict d => Some (default (VStr "") (snd <$> find (fun kv => String.eqb kv.1 "name") d))
                 | _ => None
                 end) params.

(** [key in md and md[key]] *)
Definition present (md : gmap string PyValue) (key : string) : option PyValue :=
  match md !! key with
  | Some v => if truthy v then Some v else None
  | None => None
  end.

Definition function_metadata_parts `{Builtins} (md : gmap string PyValue) : result (list string) :=
  p1 ← match present md "parameters" with
       | Some params =>
           items ← py_iter params;
           names ← py_join ", " (param_names items);
           Ok ["Parameters: " +:+ names]
       | None => Ok []
       end;
  let p2 := match present md "return_type" with
            | Some v => ["Returns: " +:+ str_of v]
            | None => []
            end in
  let p3 := match present md "complexity_score" with
            | Some v => ["Complexity: " +:+ str_of v]
            | None => []
            end in
  Ok (p1 ++ p2 ++ p3).

Definition class_metadata_parts (md : gmap string PyValue) : result (list string) :=
  let joined label key :=
    match present md key with
    | Some v => items ← py_iter v; s ← py_join ", " items; Ok [label +:+ s]
    | None => Ok []
    end in
  p1 ← joined "Inherits: " "inheritance";
  p2 ← joined "Methods: " "methods";
  Ok (p1 ++ p2).

Definition _prepare_text_for_embedding `{Builtins} (cfg : EmbeddingConfig)
    (chunk : DocumentChunk) : result string :=
  let head_parts :=
    match language chunk with Some l => ["Language: " +:+ language_value l] | None => [] end
    ++ match element_type chunk with
       | Some t => ["Type: " +:+ element_type_value t]
       | None => []
       end
    ++ (if opt_str_truthy (element_name chunk)
        then ["Name: " +:+ fmt_opt (element_name chunk)] else []) in
  metadata_parts ←
    (if include_metadata cfg && negb (bool_decide (metadata chunk = ∅)) then
       match element_type chunk with
       | Some FUNCTION | Some METHOD => function_metadata_parts (metadata chunk)
       | Some CLASS => class_metadata_parts (metadata chunk)
       | _ => Ok []
       end
     else Ok []);
  let full_text := join nl (head_parts ++ metadata_parts ++ ["Code:"; content chunk]) in
  let max_chars := context_window cfg * 4 in
  Ok (if len full_text >? max_chars then str_prefix full_text max_chars +:+ "..."
      else full_text).

Definition _generate_embedding (cfg : EmbeddingConfig) (svc : ModelService)
    (text : string) : result (list float) :=
  match model cfg with
  | GOOGLE_EMBEDDING => genai_embed_content svc text
  | _ => transformer_encode svc text
  end.

(** [np.linalg.norm] of a vector of [float64]: the square root of the sum of
    the squares, each operation rounded.  (The sum is taken from left to
    right; the library may add in another order, which can change the last
    digits of the result and nothing in the statements below.) *)
Definition l2_norm (v : list float) : float :=
  PrimFloat.sqrt (foldl (fun acc x => (acc + x * x)%float) 0%float v).

(** [norm > 0] is false of a norm that is zero and of one that is not a
    number. *)
Definition _normalize_embedding (embedding : list float) : list float :=
  let norm := l2_norm embedding in
  if PrimFloat.ltb 0%float norm then (fun x => (x / norm)%float) <$> embedding
  else embedding.

Definition _get_cache_key `{Builtins} (self : CodeEmbedder) (chunk : DocumentChunk) : string :=
  join "|" [file_path chunk; pretty (start_line chunk); pretty (end_line chunk);
            str_or (element_name chunk) ""; self_model_name self;
            pretty (py_hash (content chunk))].

Definition with_cache (self : CodeEmbedder) (cache : gmap string EmbeddingResult)
  : CodeEmbedder :=
  {| self_model_name := self_model_name self;
     self_embedding_dimension := self_embedding_dimension self;
     _cache := cache |}.

(** The [try] block of [embed_chunk]: its outcome and the embedder after it. *)
Definition embed_chunk_body `{Builtins} (cfg : EmbeddingConfig) (svc : ModelService)
    (self : CodeEmbedder) (chunk : DocumentChunk)
  : result EmbeddingResult * CodeEmbedder :=
  let cache_key := _get_cache_key self chunk in
  match (if cache_embeddings cfg then _cache self !! cache_key else None) with
  | Some cached_result => (Ok cached_result, self)
  | None =>
      match (embedding_text ← _prepare_text_for_embedding cfg chunk;
             embedding ← _generate_embedding cfg svc embedding_text;
             Ok (if normalize_embeddings cfg then _normalize_embedding embedding
                 else embedding)) with
      | Raise e => (Raise e, self)
      | Ok embedding =>
          let result := {| chunk := chunk;
                           embedding := embedding;
                           model_name := self_model_name self;
                           embedding_dimension := llen embedding |} in
          (Ok result,
           if cache_embeddings cfg
           then with_cache self (<[cache_key := result]> (_cache self))
           else self)
      end
  end.

(** [embed_chunk]: the [except Exception] clause builds an [EmbeddingError]
    with the keyword [chunk_info] and raises it. *)
Definition embed_chunk `{Builtins} (cfg : EmbeddingConfig) (svc : ModelService)
    (self : CodeEmbedder) (chunk : DocumentChunk)
  : result EmbeddingResult * CodeEmbedder :=
  match embed_chunk_body cfg svc self chunk with
  | (Ok result, self') => (Ok result, self')
  | (Raise _, self') =>
      (raise_new (EmbeddingError_new
                    ("Failed to generate embedding for chunk "
                     +:+ fmt_opt (element_name chunk))
                    [("chunk_info", file_path chunk)]),
       self')
  end.

(** ** The batch path of the Google model *)

(** The embedding service as [_process_google_batch] sees it: a call may
    answer differently each time it is made, so the service carries a state.
    [embed_content st text] is
    [genai.embed_content(model=..., content=text, ...)['embedding']]. *)
Record RemoteService (S : Type) : Type := {
  embed_content : S -> string -> result (list float) * S
}.
Arguments embed_content {S} _ _ _.

(** One turn of the [while retries < max_retries] loop: the [try] block. *)
Definition google_attempt `{Builtins} {S} (cfg : EmbeddingConfig) (self : CodeEmbedder)
    (svc : RemoteService S) (st : S) (chunk : DocumentChunk)
  : result EmbeddingResult * S :=
  match _prepare_text_for_embedding cfg chunk with
  | Raise e => (Raise e, st)
  | Ok embedding_text =>
      let response := embed_content svc st embedding_text in
      match response.1 with
      | Raise e => (Raise e, response.2)
      | Ok embedding =>
          let embedding := if normalize_embeddings cfg
                           then _normalize_embedding embedding else embedding in
          (Ok {| chunk := chunk;
                 embedding := embedding;
                 model_name := self_model_name self;
                 embedding_dimension := llen embedding |},
           response.2)
      end
  end.

(** [time.sleep(secs)]: a negative length is refused. *)
Definition time_sleep (secs : Q) : result unit :=
  if Qle_bool 0 secs then Ok tt
  else Raise (ValueError "sleep length must be non-negative").

(** The loop [while retries < max_retries] for one chunk, with
    [attempts_left = max_retries - retries] turns to go.  It ends with the
    first attempt that succeeds, or when no attempt is left.  After a failed
    attempt that is not the last, the handler pauses for
    [retry_delay * retries]; what the pause raises is raised by the handler,
    hence by the function. *)
Fixpoint google_retry `{Builtins} {S} (attempts_left : nat) (retries : Z)
    (cfg : EmbeddingConfig) (self : CodeEmbedder) (svc : RemoteService S)
    (st : S) (chunk : DocumentChunk) : result (option EmbeddingResult) * S :=
  match attempts_left with
  | O => (Ok None, st)
  | Datatypes.S n =>
      let outcome := google_attempt cfg self svc st chunk in
      match outcome.1 with
      | Ok result => (Ok (Some result), outcome.2)
      | Raise _ =>
          let retries := retries + 1 in
          if retries <? max_retries cfg then
            match time_sleep (retry_delay cfg * inject_Z retries) with
            | Ok _ => google_retry n retries cfg self svc outcome.2 chunk
            | Raise e => (Raise e, outcome.2)
            end
          else (Ok None, outcome.2)
      end
  end.

(** [for chunk in batch], with the results so far: an exception ends the
    loop, and the function, without a result. *)
Fixpoint google_loop `{Builtins} {S} (cfg : EmbeddingConfig) (self : CodeEmbedder)
    (svc : RemoteService S) (results : list EmbeddingResult) (st : S)
    (batch : list DocumentChunk) : result (list EmbeddingResult) * S :=
  match batch with
  | [] => (Ok results, st)
  | chunk :: rest =>
      let outcome := google_retry (Z.to_nat (max_retries cfg)) 0 cfg self svc st chunk in
      match outcome.1 with
      | Ok (Some result) => google_loop cfg self svc (results ++ [result]) outcome.2 rest
      | Ok None => google_loop cfg self svc results outcome.2 rest
      | Raise e => (Raise e, outcome.2)
      end
  end.

(** [_process_google_batch]: the results, or the exception of a pause, and
    the state of the service afterwards. *)
Definition _process_google_batch `{Builtins} {S} (cfg : EmbeddingConfig)
    (self : CodeEmbedder) (svc : RemoteService S) (st : S) (batch : list DocumentChunk)
  : result (list EmbeddingResult) * S :=
  google_loop cfg self svc [] st batch.

(** ** [embed_chunks_batch] *)






(** ** [save_embeddings] and [load_embeddings]

    What [save_embeddings] pickles, and the files that hold such data.
    ([pickle.load] gives back what [pickle.dump] was given; files of other
    origin are not modelled.) *)
Record SavedItem : Type := {
  si_file_path : string;
  si_element_name : option string;
  si_start_line : Z;
  si_end_line : Z;
  si_embedding : list float;
  si_metadata : gmap string PyValue
}.

Record EmbeddingData : Type := {
  ed_model_name : string;
  ed_embedding_dimension : Z;
  ed_embeddings : list SavedItem
}.

(** [save_embeddings]: the files afterwards.  [writable] tells whether
    opening and writing the file succeeds; a failure is logged and leaves the
    files as they are. *)
Definition save_embeddings (self : CodeEmbedder) (results : list EmbeddingResult)
    (output_path : string) (writable : bool) (files : gmap string EmbeddingData)
  : gmap string EmbeddingData :=
  let embedding_data :=
    {| ed_model_name := self_model_name self;
       ed_embedding_dimension := self_embedding_dimension self;
       ed_embeddings :=
         (fun result =>
            {| si_file_path := file_path (chunk result);
               si_element_name := element_name (chunk result);
               si_start_line := start_line (chunk result);
               si_end_line := end_line (chunk result);
               si_embedding := embedding result;
               si_metadata := metadata (chunk result) |}) <$> results |} in
  if writable then <[output_path := embedding_data]> files else files.

(** [load_embeddings]: a file that cannot be opened gives the empty list. *)
Definition load_embeddings (input_path : string) (files : gmap string EmbeddingData)
  : list EmbeddingResult :=
  match files !! input_path with
  | None => []
  | Some embedding_data =>
      (fun item =>
         {| chunk := {| content := "";
                        chunk_type := CT_code;
                        language := None;
                        file_path := si_file_path item;
                        start_line := si_start_line item;
                        end_line := si_end_line item;
                        element_name := si_element_name item;
                        element_type := None;
                        metadata := si_metadata item |};
            embedding := si_embedding item;
            model_name := ed_model_name embedding_data;
            embedding_dimension := ed_embedding_dimension embedding_data |})
      <$> ed_embeddings embedding_data
  end.

(** [clear_cache] *)
Definition clear_cache (self : CodeEmbedder) : CodeEmbedder := with_cache self ∅.

End Embedder.

(* ================================================================== *)
(** * embeddings/vector_store.py *)
(* ================================================================== *)

Module VectorStore.

Record VectorStoreConfig : Type := {
  collection_name : string;
  persist_directory : string;
  distance_metric : string;
  vs_max_results : Z;
  enable_persistence : bool;
  vs_embedding_dimension : option Z
}.

Definition default_config : VectorStoreConfig := {|
  collection_name := "code_embeddings";
  persist_directory := "./chroma_db";
  distance_metric := "cosine";
  vs_max_results := 50;
  enable_persistence := true;
  vs_embedding_dimension := None
|}.

(** ** The backend collection

    The store delegates to a ChromaDB collection, which is a library outside
    the repository.  The collection is modelled after the library's
    documented behaviour.  It maps ids to records.  [Collection.add] and
    [Collection.update] refuse a batch that holds an empty vector, vectors of
    different lengths, or a vector whose length is not that of the vectors
    stored; what else the library refuses is left open ([accepts]).
    [Collection.add] also refuses a batch that repeats an id, and otherwise
    inserts the records whose id is new, leaving a record whose id is already
    present as it is.  (Earlier versions of the library refuse a batch with
    an id that is already present instead of passing over the id; that is
    one of the refusals [accepts] stands for.  The stored record is kept
    either way.)
    [Collection.update] gives the record of an id its new vector and document
    and merges the new metadata into the stored metadata, key by key.
    [Collection.query] returns the nearest matching records first, up to the
    requested number, unless it refuses the query ([answers]: a query vector
    of another length than the stored ones).  Distances are measured in the
    space of the collection, which the library reads from the key
    ["hnsw:space"] of the metadata the collection was created with, and
    which is ["l2"], the squared Euclidean distance, when that key is
    missing. *)

Record StoredRecord : Type := {
  rec_embedding : list float;
  rec_metadata : gmap string PyValue;
  rec_document : string
}.

Abbreviation Collection := (gmap string StoredRecord).

Class Backend : Type := {
  (** the metadata of the collection of the configured name that the client
      already holds, if it holds one *)
  existing_collection : option (gmap string PyValue);
  (** distance, in a space, of a stored record to a query text, which the
      collection embeds with its own embedding function *)
  text_distance : string -> string -> StoredRecord -> Q;
  (** distance, in a space, of a stored record to a query vector *)
  vector_distance : string -> list float -> StoredRecord -> Q;
  (** whether the library takes these records into this collection, as far
      as its further checks go *)
  accepts : gmap string StoredRecord -> list (string * StoredRecord) -> bool;
  (** whether the library answers a query by this vector ([None]: by a text) *)
  answers : gmap string StoredRecord -> option (list float) -> bool
}.

(** The vectors a collection can take: none is empty, and each has the
    length of the others and of the vectors stored. *)
Definition valid_vectors (c : Collection) (vectors : list (list float)) : bool :=
  forallb (fun v =>
             negb (Nat.eqb (length v) 0)
             && forallb (fun u => Nat.eqb (length u) (length v)) vectors
             && forallb (fun row => Nat.eqb (length (rec_embedding row.2)) (length v))
                        (map_to_list c))
          vectors.

Definition add_row (c : Collection) (row : string * StoredRecord) : Collection :=
  match c !! row.1 with
  | Some _ => c
  | None => <[row.1 := row.2]> c
  end.

(** Whether the collection takes a batch of records. *)
Definition takes `{Backend} (c : Collection) (rows : list (string * StoredRecord)) : bool :=
  valid_vectors c ((fun row => rec_embedding row.2) <$> rows) && accepts c rows.

(** [collection.add(ids=..., embeddings=..., metadatas=..., documents=...)] *)
Definition collection_add `{Backend} (rows : list (string * StoredRecord)) (c : Collection)
  : result Collection :=
  if negb (takes c rows)
  then Raise (ExternalError "InvalidArgumentError")
  else if bool_decide (NoDup rows.*1) then Ok (foldl add_row c rows)
       else Raise (ExternalError "DuplicateIDError").

(** [collection.update(ids=[i], embeddings=..., metadatas=..., documents=...)]:
    an id that is not present is passed over. *)
Definition collection_update `{Backend} (i : string) (r : StoredRecord) (c : Collection)
  : result Collection :=
  if negb (takes c [(i, r)])
  then Raise (ExternalError "InvalidArgumentError")
  else
    Ok (match c !! i with
        | Some old =>
            <[i := {| rec_embedding := rec_embedding r;
                      rec_metadata := rec_metadata r ∪ rec_metadata old;
                      rec_document := rec_document r |}]> c
        | None => c
        end).


Record Hit : Type := {
  hit_id : string;
  hit_metadata : gmap string PyValue;
  hit_document : string;
  hit_distance : Q
}.

Fixpoint insert_hit (h : Hit) (l : list Hit) : list Hit :=
  match l with
  | [] => [h]
  | x :: xs =>
      if Qle_bool (hit_distance h) (hit_distance x) then h :: x :: xs
      else x :: insert_hit h xs
  end.

Definition sort_hits (l : list Hit) : list Hit := foldr insert_hit [] l.

(** A [where={key: value}] predicate on a record's metadata. *)
Definition matches_where (w : option (string * string)) (r : StoredRecord) : bool :=
  match w with
  | None => true
  | Some (k, v) =>
      match rec_metadata r !! k with
      | Some (VStr s) => String.eqb s v
      | _ => false
      end
  end.

(** [collection.query(..., n_results=n, where=w, include=[...])]: the [n]
    matching records nearest to the query, nearest first.  The backend refuses
    a result count that is not positive. *)
Definition collection_query (dist : StoredRecord -> Q) (n : Z)
    (w : option (string * string)) (c : Collection) : result (list Hit) :=
  if n <=? 0 then Raise (TypeError "Number of requested results cannot be negative, or zero.")
  else
    let rows := filter (fun row => matches_where w row.2 = true) (map_to_list c) in
    let hits := map (fun row => {| hit_id := row.1;
                                   hit_metadata := rec_metadata row.2;
                                   hit_document := rec_document row.2;
                                   hit_distance := dist row.2 |}) rows in
    Ok (take (Z.to_nat n) (sort_hits hits)).

(** ** [ChromaVectorStore] *)

Definition _get_language_value (l : option LanguageType) : string :=
  match l with
  | None => "unknown"
  | Some l => language_value l
  end.

Definition id_string (file_path : string) (start_line end_line : Z)
    (element_name : option string) (element_type : option CodeElementType) : string :=
  join "|" [file_path; pretty start_line; pretty end_line;
            str_or element_name "unnamed";
            match element_type with
            | Some t => element_type_value t
            | None => "unknown"
            end].

Definition _generate_chunk_id `{Builtins} (chunk : DocumentChunk) : string :=
  uuid5 (id_string (file_path chunk) (start_line chunk) (end_line chunk)
                   (element_name chunk) (element_type chunk)).

Definition _sanitize_metadata_value `{Builtins} (value : PyValue) : PyValue :=
  match value with
  | VNone => VStr "null"
  | VStr _ | VInt _ | VFloat _ | VBool _ => value
  | VList l => if truthy value then VStr (str_of value) else VStr "[]"
  | VDict d => if truthy value then VStr (str_of value) else VStr "{}"
  | VOther _ _ => if truthy value then VStr (str_of value) else VStr "empty"
  end.

(** [v not in ["null", "[]", "{}", "empty"]]: only a string equals one. *)
Definition not_reserved (v : PyValue) : bool :=
  match v with
  | VStr s => negb (str_in s ["null"; "[]"; "{}"; "empty"])
  | _ => true
  end.

(** One turn of the loop over [chunk.metadata.items()] in [add_embeddings]. *)
Definition store_entry `{Builtins} (key : string) (value : PyValue)
    (metadata : gmap string PyValue) : gmap string PyValue :=
  if str_in key ["parameters"; "methods"; "dependencies"] && negb (truthy value)
  then metadata
  else
    let sanitized_value := _sanitize_metadata_value value in
    if truthy sanitized_value && not_reserved sanitized_value
    then <[key := sanitized_value]> metadata
    else metadata.

Definition base_metadata (result : EmbeddingResult) : gmap string PyValue :=
  let chunk := chunk result in
  <["embedding_dimension" := VInt (embedding_dimension result)]>
  (<["model_name" := VStr (model_name result)]>
  (<["language" := VStr (_get_language_value (language chunk))]>
  (<["chunk_type" := VStr (chunk_type_value (chunk_type chunk))]>
  (<["element_type" := VStr (match element_type chunk with
                             | Some t => element_type_value t
                             | None => ""
                             end)]>
  (<["element_name" := VStr (str_or (element_name chunk) "")]>
  (<["end_line" := VInt (end_line chunk)]>
  (<["start_line" := VInt (start_line chunk)]>
  (<["file_path" := VStr (file_path chunk)]> ∅)))))))).

(** The metadata [add_embeddings] stores for a result. *)
Definition add_metadata `{Builtins} (result : EmbeddingResult) : gmap string PyValue :=
  map_fold store_entry (base_metadata result) (metadata (chunk result)).

Definition add_document (chunk : DocumentChunk) : string :=
  if len (content chunk) >? 1000 then str_prefix (content chunk) 1000
  else content chunk.

Definition add_row_of `{Builtins} (result : EmbeddingResult) : string * StoredRecord :=
  (_generate_chunk_id (chunk result),
   {| rec_embedding := embedding result;
      rec_metadata := add_metadata result;
      rec_document := add_document (chunk result) |}).

(** [add_embeddings]: the success flag and the collection afterwards. *)
Definition add_embeddings `{Builtins} `{Backend} (results : list EmbeddingResult)
    (c : Collection) : bool * Collection :=
  match results with
  | [] => (true, c)
  | _ =>
      match collection_add (map add_row_of results) c with
      | Ok c' => (true, c')
      | Raise _ => (false, c)
      end
  end.

(** [_prepare_metadata], used by [update_embeddings]: every value is stored. *)
Definition _prepare_metadata `{Builtins} (result : EmbeddingResult) : gmap string PyValue :=
  map_fold (fun key value md => <[key := _sanitize_metadata_value value]> md)
           (base_metadata result) (metadata (chunk result)).

(** The record that [update_embeddings] hands to [collection.update]. *)
Definition update_row_of `{Builtins} (result : EmbeddingResult) : StoredRecord :=
  {| rec_embedding := embedding result;
     rec_metadata := _prepare_metadata result;
     rec_document := str_prefix (content (chunk result)) 1000 |}.

(** The loop of [update_embeddings]: a refused update ends it, with the
    updates made so far in place; a refused add does not. *)
Fixpoint update_loop `{Builtins} `{Backend} (results : list EmbeddingResult)
    (c : Collection) : bool * Collection :=
  match results with
  | [] => (true, c)
  | result :: rest =>
      let chunk_id := _generate_chunk_id (chunk result) in
      match c !! chunk_id with
      | Some _ =>
          match collection_update chunk_id (update_row_of result) c with
          | Ok c' => update_loop rest c'
          | Raise _ => (false, c)
          end
      | None => update_loop rest (add_embeddings [result] c).2
      end
  end.

Definition update_embeddings `{Builtins} `{Backend} (results : list EmbeddingResult)
    (c : Collection) : bool * Collection :=
  update_loop results c.

(** The metadata [_initialize_client] creates a collection with. *)
Definition created_metadata (cfg : VectorStoreConfig) : gmap string PyValue :=
  <["distance_metric" := VStr (distance_metric cfg)]>
  (<["description" := VStr "Code embeddings for semantic search"]> ∅).

(** [_initialize_client]: the metadata of the collection the store works on,
    which is the collection of that name when the client has one, and a
    collection created with [created_metadata] otherwise. *)
Definition _initialize_client `{Backend} (cfg : VectorStoreConfig) : gmap string PyValue :=
  match existing_collection with
  | Some md => md
  | None => created_metadata cfg
  end.

(** The space in which the library measures the distances of a collection. *)
Definition space_of (md : gmap string PyValue) : string :=
  match md !! "hnsw:space" with
  | Some (VStr space) => space
  | _ => "l2"
  end.

Definition collection_space `{Backend} (cfg : VectorStoreConfig) : string :=
  space_of (_initialize_client cfg).

(** The single predicate sent to the backend. *)
Definition where_clause (q : SearchQuery) : option (string * string) :=
  match element_types q with
  | [t] => Some ("element_type", element_type_value t)
  | _ =>
      match q_language q with
      | Some l => Some ("language", language_value l)
      | None => None
      end
  end.

Definition n_results (cfg : VectorStoreConfig) (q : SearchQuery) : Z :=
  Z.min (max_results q) (vs_max_results cfg).

(** The vector of a query that has one ([query.embedding], when truthy). *)
Definition query_vector (q : SearchQuery) : option (list float) :=
  match q_embedding q with
  | Some (x :: v) => Some (x :: v)
  | _ => None
  end.

Definition query_distance `{Backend} (space : string) (q : SearchQuery)
  : StoredRecord -> Q :=
  match query_vector q with
  | Some v => vector_distance space v
  | None => text_distance space (query q)
  end.

(** [1.0 - distance if distance else 1.0] *)
Definition score_of_distance (distance : Q) : Q :=
  if negb (Qeq_bool distance 0) then 1 - distance else 1.

(** An optional string field read with [metadata.get(key)]. *)
Definition get_opt_str (md : gmap string PyValue) (key : string) : result (option string) :=
  match md !! key with
  | None | Some VNone => Ok None
  | Some (VStr s) => Ok (Some s)
  | Some _ => Raise (ValidationError key)
  end.

Definition get_int (md : gmap string PyValue) (key : string) : result Z :=
  match md !! key with
  | None => Raise (KeyError key)
  | Some (VInt z) => Ok z
  | Some _ => Raise (ValidationError key)
  end.

Definition get_enum {A} (value : A -> string) (all : list A) (optional : bool)
    (md : gmap string PyValue) (key : string) (default : option string)
  : result (option A) :=
  let validate s :=
    match parse_enum value all s with
    | Some a => Ok (Some a)
    | None => Raise (ValidationError key)
    end in
  match md !! key with
  | None =>
      match default with
      | Some s => validate s
      | None => if optional then Ok None else Raise (ValidationError key)
      end
  | Some (VStr s) => validate s
  | Some VNone => if optional then Ok None else Raise (ValidationError key)
  | Some _ => Raise (ValidationError key)
  end.

(** The [DocumentChunk(...)] that [search] rebuilds from a hit.  The
    constructor validates its fields: the enumerated ones must carry one of
    their values.  Integers and paths are accepted as stored by
    [add_embeddings]; other coercions of the validator are not modelled and
    count as a validation error. *)
Definition rebuild_chunk (h : Hit) : result DocumentChunk :=
  let md := hit_metadata h in
  ct ← get_enum chunk_type_value all_chunk_types false md "chunk_type" (Some "code");
  lang ← get_enum language_value all_languages true md "language" (Some "unknown");
  path ← match md !! "file_path" with
          | None => Raise (KeyError "file_path")
          | Some (VStr s) => Ok s
          | Some _ => Raise (TypeError "expected str, bytes or os.PathLike object")
          end;
  sl ← get_int md "start_line";
  el ← get_int md "end_line";
  name ← get_opt_str md "element_name";
  et ← get_enum element_type_value all_element_types true md "element_type" None;
  Ok {| content := hit_document h;
        chunk_type := default CT_code ct;
        language := lang;
        file_path := path;
        start_line := sl;
        end_line := el;
        element_name := name;
        element_type := et;
        metadata := md |}.

Definition result_of_hit (ih : Z * Hit) : result SearchResult :=
  c ← rebuild_chunk ih.2;
  Ok {| sr_chunk := c;
        similarity_score := score_of_distance (hit_distance ih.2);
        rank := ih.1 + 1 |}.

(** [search] *)
Definition search `{Backend} (cfg : VectorStoreConfig) (q : SearchQuery) (c : Collection)
  : result (list SearchResult) :=
  try_except
    (hits ← (if answers c (query_vector q)
             then collection_query (query_distance (collection_space cfg) q)
                    (n_results cfg q) (where_clause q) c
             else Raise (ExternalError "InvalidArgumentError"));
     search_results ← mapM result_of_hit (enumerate 0 hits);
     Ok (filter (fun r => Qle_bool (similarity_threshold q) (similarity_score r) = true)
                search_results))
    (fun e => Raise (VectorStoreError ("Search failed: " +:+ exn_str e))).

(** ** Deletion, and the search for similar functions *)

(** [collection.get(where={key: value}, include=["metadatas"])["ids"]] *)
Definition collection_get_where (w : string * string) (c : Collection) : list string :=
  (filter (fun row => matches_where (Some w) row.2 = true) (map_to_list c)).*1.

(** [collection.delete(ids=ids)] *)
Definition collection_delete (ids : list string) (c : Collection) : Collection :=
  foldl (fun c i => delete i c) c ids.

(** [delete_by_file]: the success flag and the collection afterwards. *)
Definition delete_by_file (file_path : string) (c : Collection) : bool * Collection :=
  match collection_get_where ("file_path", file_path) c with
  | [] => (true, c)
  | ids => (true, collection_delete ids c)
  end.

(** The [DocumentChunk(...)] that [search_similar_functions] rebuilds: chunk
    type and language are left to their defaults, the element type is
    ["function"] whatever the metadata says. *)
Definition rebuild_function_chunk (h : Hit) : result DocumentChunk :=
  let md := hit_metadata h in
  path ← match md !! "file_path" with
          | None => Raise (KeyError "file_path")
          | Some (VStr s) => Ok s
          | Some _ => Raise (TypeError "expected str, bytes or os.PathLike object")
          end;
  sl ← get_int md "start_line";
  el ← get_int md "end_line";
  name ← get_opt_str md "element_name";
  Ok {| content := hit_document h;
        chunk_type := CT_code;
        language := None;
        file_path := path;
        start_line := sl;
        end_line := el;
        element_name := name;
        element_type := Some FUNCTION;
        metadata := md |}.

Definition function_result_of_hit (ih : Z * Hit) : result SearchResult :=
  c ← rebuild_function_chunk ih.2;
  Ok {| sr_chunk := c;
        similarity_score := 1 - hit_distance ih.2;
        rank := ih.1 + 1 |}.

(** [search_similar_functions]: any failure is answered by the empty list. *)
Definition search_similar_functions `{Backend} (cfg : VectorStoreConfig)
    (function_embedding : list float) (limit : Z) (c : Collection)
  : result (list SearchResult) :=
  try_except
    (hits ← (if answers c (Some function_embedding)
             then collection_query (vector_distance (collection_space cfg) function_embedding)
                    limit (Some ("element_type", "function")) c
             else Raise (ExternalError "InvalidArgumentError"));
     mapM function_result_of_hit (enumerate 0 hits))
    (fun _ => Ok []).

End VectorStore.

(* ================================================================== *)
(** * Vocabulary of the statements *)
(* ================================================================== *)

Module Spec.
Import Chunker Embedder VectorStore.

(** The strings [add_embeddings] refuses to store. *)
Definition reserved : list string := ["null"; "[]"; "{}"; "empty"].

(** What one metadata pair leaves under its key: the value to store, if any. *)
Definition kept_value `{Builtins} (value : PyValue) : option PyValue :=
  match value with
  | VNone => None
  | VBool b => if b then Some value else None
  | VInt z => if z =? 0 then None else Some value
  | VFloat q => if Qeq_bool q 0 then None else Some value
  | VStr s => if String.eqb s "" || str_in s reserved then None else Some value
  | VList [] | VDict [] | VOther false _ => None
  | VList _ | VDict _ | VOther true _ =>
      if String.eqb (str_of value) "" || str_in (str_of value) reserved then None
      else Some (VStr (str_of value))
  end.


(** The order in which the backend returns hits: nearest first. *)
Definition nearer (a b : Hit) : Prop := (hit_distance a <= hit_distance b)%Q.

(** The same query without its language filter. *)
Definition without_language (q : SearchQuery) : SearchQuery :=
  {| query := query q; q_language := None; element_types := element_types q;
     file_patterns := file_patterns q; max_results := max_results q;
     similarity_threshold := similarity_threshold q; q_embedding := q_embedding q |}.

(** What the fallback path returns: the sliding-window chunks of the raw
    text, or nothing when the file cannot be read. *)
Definition fallback_chunks (cfg : ChunkingConfig) (w : World) (file_path : string)
  : list DocumentChunk :=
  match read_text w file_path with
  | Ok content => _sliding_window_chunking cfg content file_path
  | Raise _ => []
  end.

(** A merge group ends at a chunk that is not small. *)
Definition closes_group (cfg : ChunkingConfig) (o : option DocumentChunk) : Prop :=
  match o with
  | Some x => is_small cfg x = false
  | None => True
  end.

(** A chunk that the first loop of post-processing keeps as it is. *)
Definition kept_as_is (cfg : ChunkingConfig) (chunk : DocumentChunk) : Prop :=
  (element_type chunk = Some CLASS \/ element_type chunk = Some FUNCTION)
  /\ len (content chunk) <= max_chunk_size cfg.

(** The keys under which the store files a chunk's own fields. *)
Definition field_keys : list string :=
  ["file_path"; "start_line"; "end_line"; "element_name"; "element_type";
   "chunk_type"; "language"; "model_name"; "embedding_dimension"].

(** A chunk whose metadata uses none of those keys. *)
Definition plain_metadata (c : DocumentChunk) : Prop :=
  Forall (fun key => metadata c !! key = None) field_keys.

(** A stored record whose language or element type does not name a member of
    its enumeration: what [add_embeddings] files for a chunk without a
    language (["unknown"]) or without an element type ([""]). *)
Definition unlabelled (rec : StoredRecord) : Prop :=
  rec_metadata rec !! "language" = Some (VStr "unknown")
  \/ rec_metadata rec !! "element_type" = Some (VStr "").

(** The fields of a chunk that enter the embedder's cache key. *)
Definition same_cache_fields (a b : DocumentChunk) : Prop :=
  file_path a = file_path b
  /\ start_line a = start_line b
  /\ end_line a = end_line b
  /\ str_or (element_name a) "" = str_or (element_name b) ""
  /\ content a = content b.

(** What the embedder writes into each result it builds. *)
Definition well_formed (self : CodeEmbedder) (r : EmbeddingResult) : Prop :=
  model_name r = self_model_name self
  /\ embedding_dimension r = llen (embedding r).

(** The invariant of the embedder's cache: every entry was built by this
    embedder and is filed under the key of its own chunk. *)
Definition cache_sound `{Builtins} (self : CodeEmbedder) : Prop :=
  map_Forall (fun key r => well_formed self r /\ key = _get_cache_key self (chunk r))
             (_cache self).

(** Line [k] lies in the line range of a chunk. *)
Definition covers (k : Z) (c : DocumentChunk) : Prop :=
  start_line c <= k <= end_line c.

(** What holds of the sliding window once [i] lines have been read: the
    window is not empty and starts at or before line [i]; every chunk cut so
    far has a line range within [1..i] that is not inverted, and the chunks
    cut so far cover every line before the start of the window. *)
Definition window_invariant (file_path0 : string) (i : Z) (w : Window) : Prop :=
  chunk_start_line w <= Z.max 1 i
  /\ (1 <= i -> current_chunk w <> [])
  /\ Forall (fun c => start_line c <= end_line c <= i /\ file_path c = file_path0) (chunks w)
  /\ (forall k, 1 <= k < chunk_start_line w -> Exists (covers k) (chunks w)).

(** How a chunk of the merged list comes from a group of consecutive chunks
    of the list that was handed in: the group is that chunk alone, or it is a
    run of two or more small chunks and the chunk is their merge. *)
Definition merged_from `{Builtins} (cfg : ChunkingConfig) (group : list DocumentChunk)
    (c : DocumentChunk) : Prop :=
  group = [c]
  \/ ((2 <= length group)%nat
      /\ Forall (fun x => is_small cfg x = true) group
      /\ _create_merged_chunk group = Ok c).

(** The line range of [c] lies within the line range of [o]. *)
Definition within (c o : DocumentChunk) : Prop :=
  start_line o <= start_line c /\ end_line c <= end_line o.

(** What is left of a result after it has been saved and loaded again by an
    embedder: the content, the language, the chunk type and the element type
    of its chunk are gone, and the model name and the dimension are the
    embedder's. *)
(** A path of the walk that [chunk_repository] chunks: a file, as far as
    [is_file] tells, that the parser factory supports. *)
Definition visited (is_file : string -> result bool) (is_supported_file : string -> bool)
    (p : string) : bool :=
  match is_file p with
  | Ok true => is_supported_file p
  | _ => false
  end.

(** [is_file] answers on the path. *)
Definition answered (is_file : string -> result bool) (p : string) : Prop :=
  exists a_file, is_file p = Ok a_file.

Definition reloaded (self : CodeEmbedder) (r : EmbeddingResult) : EmbeddingResult :=
  {| chunk := {| content := "";
                 chunk_type := CT_code;
                 language := None;
                 file_path := file_path (chunk r);
                 start_line := start_line (chunk r);
                 end_line := end_line (chunk r);
                 element_name := element_name (chunk r);
                 element_type := None;
                 metadata := metadata (chunk r) |};
     embedding := embedding r;
     model_name := self_model_name self;
     embedding_dimension := self_embedding_dimension self |}.

End Spec.
Export Spec.

(* ================================================================== *)
(** * Sample data *)
(* ================================================================== *)

Module Samples.

(** A rendering of values in the manner of Python's [repr], and stand-ins for
    the two hash functions: an instance of [Builtins] on which the examples
    below are evaluated. *)
Fixpoint show (v : PyValue) : string :=
  match v with
  | VNone => "None"
  | VBool b => if b then "True" else "False"
  | VInt z => pretty z
  | VFloat q => pretty (Qnum q) +:+ "/" +:+ pretty (Z.pos (Qden q))
  | VStr s => "'" +:+ s +:+ "'"
  | VList l => "[" +:+ join ", " (map show l) +:+ "]"
  | VDict d =>
      "{" +:+ join ", " (map (fun kv => match kv with
                                        | (k, x) => "'" +:+ k +:+ "': " +:+ show x
                                        end) d) +:+ "}"
  | VOther _ shown => shown
  end.

Definition builtins : Builtins :=
  {| py_str := show; uuid5 := fun name => "uuid5:" +:+ name; py_hash := len;
     list_of_set := remove_dups |}.

Definition chunk_of (path : string) (first last : Z) (name : option string)
    (kind : option CodeElementType) (text : string)
    (md : gmap string PyValue) : DocumentChunk :=
  {| content := text; chunk_type := CT_code; language := Some PYTHON;
     file_path := path; start_line := first; end_line := last;
     element_name := name; element_type := kind; metadata := md |}.

(** A vector of the 384 dimensions of the model [all-MiniLM-L6-v2]. *)
Definition vector : list float := replicate 384 0x1p-4%float.

Definition embedded (c : DocumentChunk) : EmbeddingResult :=
  {| chunk := c; embedding := vector; model_name := "all-MiniLM-L6-v2";
     embedding_dimension := 384 |}.

(** The same function chunk before and after an edit of its body. *)
Definition add_v1 : EmbeddingResult :=
  embedded (chunk_of "calc.py" 1 3 (Some "add") (Some FUNCTION) "def add(a, b): return a+b" ∅).

(** A chunk whose metadata holds a zero complexity score and a decorator list. *)
Definition scored : EmbeddingResult :=
  embedded (chunk_of "calc.py" 5 9 (Some "sub") (Some FUNCTION) "def sub(a, b): return a-b"
              (<["complexity_score" := VFloat 0]>
               (<["decorators" := VList [VStr "staticmethod"]]> ∅))).

End Samples.

Module SearchSamples.
Import VectorStore.

(** A backend that holds no collection yet, whose distance to a query text
    grows with the difference in length between the text and the stored
    document, and which answers the queries of 384 dimensions (those of its
    own embedding function). *)
Definition backend : Backend :=
  {| existing_collection := None;
     text_distance := fun _ text r => Z.abs (len text - len (rec_document r)) # 20;
     vector_distance := fun _ _ _ => 0%Q;
     accepts := fun _ _ => true;
     answers := fun _ v => match v with
                           | Some v => Nat.eqb (length v) 384
                           | None => true
                           end |}.

Definition function_chunk (lang : LanguageType) (path name text : string) : EmbeddingResult :=
  {| chunk := {| content := text; chunk_type := CT_code; language := Some lang;
                 file_path := path; start_line := 1; end_line := 3;
                 element_name := Some name; element_type := Some FUNCTION;
                 metadata := ∅ |};
     embedding := Samples.vector; model_name := "all-MiniLM-L6-v2";
     embedding_dimension := 384 |}.

(** Three indexed functions: two in Python, one in JavaScript. *)
Definition index : Collection :=
  (@add_embeddings Samples.builtins backend
     [function_chunk PYTHON "calc.py" "add" "def add(a, b): return a + b";
      function_chunk JAVASCRIPT "calc.js" "add" "function add(a, b) { return a + b; }";
      function_chunk PYTHON "calc.py" "negate" "def negate(a): return -a"] ∅).2.

Definition ask (lang : option LanguageType) (kinds : list CodeElementType)
    (limit : Z) (threshold : Q) : SearchQuery :=
  {| query := "def add(x, y): return x + y"; q_language := lang;
     element_types := kinds; file_patterns := []; max_results := limit;
     similarity_threshold := threshold; q_embedding := None |}.

(** The answer to a query for functions, at most two, scoring 0.8 or more. *)
Definition answer : list SearchResult :=
  match @search backend default_config (ask None [FUNCTION] 2 (8#10)) index with
  | Ok rs => rs
  | Raise _ => []
  end.

(** The answers to a query for two element kinds in Python, with and without
    its language filter. *)
Definition answers_by_language : list (list SearchResult) :=
  (fun q => match @search backend default_config q index with
            | Ok rs => rs
            | Raise _ => []
            end)
  <$> [ask (Some PYTHON) [FUNCTION; CLASS] 10 0; ask None [FUNCTION; CLASS] 10 0].

(** A chunk of a text file, as the sliding window cuts it: it has neither a
    language nor an element type. *)
Definition text_window : EmbeddingResult :=
  Samples.embedded (Chunker.window_chunk "notes.txt" ["first line"; "second line"] 1 2).

End SearchSamples.

Module ChunkSamples.
Import Chunker.

(** A file of one line of 1000 characters, as in minified code. *)
Definition long_line : string := string_of_list_ascii (replicate 1000 "x"%char).

(** A one-line sliding-window chunk of a text file. *)
Definition note (first : Z) (text : string) : DocumentChunk :=
  window_chunk "notes.txt" [text] first first.

(** A world without any parser, holding one short text file. *)
Definition text_only : World :=
  {| create_parser_from_file := fun _ => None;
     read_text := fun path => if String.eqb path "notes.txt" then Ok "x = 1"
                              else Raise (ExternalError "FileNotFoundError") |}.

Definition small_element (kind : CodeElementType) (name : string) (first last : Z)
    (text : string) : DocumentChunk :=
  {| content := text; chunk_type := CT_code; language := Some PYTHON;
     file_path := "calc.py"; start_line := first; end_line := last;
     element_name := Some name; element_type := Some kind; metadata := ∅ |}.

(** A small Python file and what a parser reports for it. *)
Definition calc_py : string :=
  join nl ["import math"; ""; "def add(a, b):"; "    return a + b"; "";
           "class Calculator:"; "    def __init__(self):"; "        self.total = 0";
           "    def add(self, x):"; "        self.total += x";
           "        return self.total"; ""].

Definition element (name : string) (kind : CodeElementType) (first last : Z)
    (parent : option string) (score : option Q) : CodeElement :=
  {| ce_name := name; ce_element_type := kind; ce_language := PYTHON;
     ce_file_path := "calc.py"; ce_start_line := first; ce_end_line := last;
     ce_content := ""; ce_docstring := None; ce_parameters := [];
     ce_return_type := None; ce_decorators := []; ce_parent_element := parent;
     ce_children := []; ce_dependencies := []; ce_complexity_score := score |}.

Definition calc_py_parsed : AnalysisResult :=
  {| file_info_language := Some PYTHON; success := true; error_message := None;
     code_elements :=
       [element "math" IMPORT 1 1 None None;
        element "add" FUNCTION 3 4 None (Some 1%Q);
        element "Calculator" CLASS 6 11 None (Some 15%Q);
        element "__init__" METHOD 7 8 (Some "Calculator") (Some 1%Q);
        element "add" METHOD 9 11 (Some "Calculator") (Some 1%Q)] |}.

(** A configuration with a window of ten characters and one line of overlap. *)
Definition narrow : ChunkingConfig :=
  {| strategy := SLIDING_WINDOW; max_chunk_size := 10; min_chunk_size := 1;
     overlap_size := 50; include_context := true; preserve_functions := true;
     preserve_classes := true; include_imports := true; include_docstrings := true;
     merge_small_functions := true |}.

(** Three short accessor methods. *)
Definition methods : list DocumentChunk :=
  [small_element METHOD "get_x" 3 4 "def get_x(self): return self.x";
   small_element METHOD "get_y" 6 7 "def get_y(self): return self.y";
   small_element METHOD "get_z" 9 10 "def get_z(self): return self.z"].

(** [is_file] where one path, ["private"], may not be examined. *)
Definition guarded_is_file (path : string) : result bool :=
  if String.eqb path "private" then Raise (ExternalError "PermissionError")
  else Ok true.

(** A configuration that trims to two lines. *)
Definition two_lines : ChunkingConfig :=
  {| strategy := HYBRID; max_chunk_size := 100; min_chunk_size := 10;
     overlap_size := 50; include_context := true; preserve_functions := true;
     preserve_classes := true; include_imports := true; include_docstrings := true;
     merge_small_functions := false |}.

(** The class of the sample file as a chunk of six lines. *)
Definition calculator : DocumentChunk :=
  small_element CLASS "Calculator" 6 11
    (join nl ["class Calculator:"; "    def __init__(self):"; "        self.total = 0";
              "    def add(self, x):"; "        self.total += x";
              "        return self.total"]).

End ChunkSamples.

Module EmbedSamples.
Import Embedder.

(** An embedding service that is down. *)
Definition unavailable : ModelService :=
  {| genai_embed_content := fun _ => Raise (ExternalError "503 Service Unavailable");
     transformer_encode := fun _ => Raise (ExternalError "model not loaded") |}.

Definition fresh : CodeEmbedder := _initialize_model default_config false.

(** The default configuration without normalisation, on which the samples
    can be evaluated. *)
Definition unnormalized : EmbeddingConfig :=
  {| model := GOOGLE_EMBEDDING; batch_size := 32; max_retries := 3; retry_delay := 1;
     normalize_embeddings := false; include_metadata := true; cache_embeddings := true;
     context_window := 512 |}.

(** The same with no attempt allowed. *)
Definition no_attempts : EmbeddingConfig :=
  {| model := GOOGLE_EMBEDDING; batch_size := 32; max_retries := 0; retry_delay := 1;
     normalize_embeddings := false; include_metadata := true; cache_embeddings := true;
     context_window := 512 |}.

(** A service that answers every text with the same vector. *)
Definition constant : ModelService :=
  {| genai_embed_content := fun _ => Ok [1%float; 0%float];
     transformer_encode := fun _ => Ok [1%float; 0%float] |}.

(** A remote service that answers every call and counts the calls. *)
Definition counting : RemoteService nat :=
  {| embed_content := fun calls _ => (Ok [1%float; 0%float], S calls) |}.

(** Two attempts per chunk, with a negative delay between them. *)
Definition hasty : EmbeddingConfig :=
  {| model := GOOGLE_EMBEDDING; batch_size := 32; max_retries := 2; retry_delay := -1;
     normalize_embeddings := false; include_metadata := true; cache_embeddings := true;
     context_window := 512 |}.

(** A remote service that is down, and counts the calls. *)
Definition down : RemoteService nat :=
  {| embed_content := fun calls _ =>
       (Raise (ExternalError "503 Service Unavailable"), S calls) |}.

(** The sample chunk with other metadata. *)
Definition add_v1_annotated : DocumentChunk :=
  Samples.chunk_of "calc.py" 1 3 (Some "add") (Some FUNCTION) "def add(a, b): return a+b"
    (<["return_type" := VStr "int"]> ∅).

End EmbedSamples.


(* ================================================================== *)
(** * The embedding at work *)
(* ================================================================== *)

(** Sequences behave as Python's do. *)
Example split_lines_examples :
  split_lines ("a" +:+ nl +:+ "b") = ["a"; "b"]
  /\ split_lines "" = [""]
  /\ split_lines ("a" +:+ nl) = ["a"; ""].
Proof. repeat split; reflexivity. Qed.

Example slice_examples :
  slice_from [1; 2; 3; 4; 5] (-2) = [4; 5]
  /\ slice [1; 2; 3; 4; 5] 1 (-1) = [2; 3; 4]
  /\ slice [1; 2; 3; 4; 5] 3 1 = []
  /\ slice [1; 2; 3; 4; 5] (-7) 2 = [1; 2]
  /\ slice [1; 2; 3; 4; 5] 2 99 = [3; 4; 5]
  /\ str_prefix "ab" 3 = "ab"
  /\ str_prefix "abc" (-1) = "ab".
Proof. repeat split; reflexivity. Qed.

(** The sliding window on five short lines: each chunk restarts one line
    before the end of the previous one. *)
Example sliding_window_on_five_lines :
  (fun c => (element_name c, content c))
    <$> Chunker._sliding_window_chunking ChunkSamples.narrow
          (join nl ["abcd"; "efgh"; "ij"; "klmnopqrstuvw"; "x"]) "f.txt"
  = [(Some "chunk_1_2", join nl ["abcd"; "efgh"]);
     (Some "chunk_2_4", join nl ["efgh"; "ij"; "klmnopqrstuvw"]);
     (Some "chunk_4_5", join nl ["klmnopqrstuvw"; "x"]);
     (Some "chunk_5_5", "x")].
Proof. vm_compute. reflexivity. Qed.

(** The hybrid strategy on the sample file: a chunk per function and method,
    one for the complex class, one for the imports. *)
Example hybrid_on_calc_py :
  (fun c => (element_name c, element_type c, start_line c, end_line c))
    <$> Chunker._hybrid_chunking Chunker.default_config ChunkSamples.calc_py_parsed
          ChunkSamples.calc_py "calc.py"
  = [(Some "add", Some FUNCTION, 3, 4);
     (Some "__init__", Some METHOD, 7, 8);
     (Some "add", Some METHOD, 9, 11);
     (Some "Calculator", Some CLASS, 6, 11);
     (Some "imports", Some IMPORT, 1, 1)].
Proof. vm_compute. reflexivity. Qed.

(** [chunk_repository] on the sample world: the text file is chunked, and a
    path that may not be examined makes the whole walk raise. *)
Example chunk_repository_on_sample_world :
  @Chunker.chunk_repository Samples.builtins Chunker.default_config
    ChunkSamples.text_only ["notes.txt"] None ChunkSamples.guarded_is_file (fun _ => true)
  = Ok [ChunkSamples.note 1 "x = 1"]
  /\ @Chunker.chunk_repository Samples.builtins Chunker.default_config
       ChunkSamples.text_only ["notes.txt"; "private"] None ChunkSamples.guarded_is_file
       (fun _ => true)
     = Raise (ExternalError "PermissionError").
Proof. split; vm_compute; reflexivity. Qed.

(** A negative retry delay: the first attempt fails, the pause before the
    second raises, and [_process_google_batch] raises with it after one call
    to the service; with a delay of one second and three attempts the chunk
    is left out after three calls. *)
Example google_batch_negative_delay :
  @Embedder._process_google_batch Samples.builtins nat EmbedSamples.hasty
    EmbedSamples.fresh EmbedSamples.down 0%nat [chunk Samples.add_v1]
  = (Raise (ValueError "sleep length must be non-negative"), 1%nat)
  /\ @Embedder._process_google_batch Samples.builtins nat EmbedSamples.unnormalized
       EmbedSamples.fresh EmbedSamples.down 0%nat [chunk Samples.add_v1]
     = (Ok [], 3%nat).
Proof. split; vm_compute; reflexivity. Qed.

(** A stored record is updated by merging: the keys of the update replace
    their stored values, the other stored keys stay. *)
Example collection_update_merges_metadata :
  VectorStore.rec_metadata <$>
    (match @VectorStore.collection_update SearchSamples.backend "id"
             {| VectorStore.rec_embedding := Samples.vector;
                VectorStore.rec_metadata := <["a" := VInt 2]> ∅;
                VectorStore.rec_document := "new" |}
             (<["id" := {| VectorStore.rec_embedding := Samples.vector;
                           VectorStore.rec_metadata :=
                             <["a" := VInt 1]> (<["b" := VInt 1]> ∅);
                           VectorStore.rec_document := "old" |}]> ∅) with
     | Ok c => c !! "id"
     | Raise _ => None
     end)
  = Some (<["a" := VInt 2]> (<["b" := VInt 1]> ∅)).
Proof. vm_compute. reflexivity. Qed.

(** The backend refuses an empty vector: nothing is stored. *)
Example add_embeddings_refuses_empty_vector :
  @VectorStore.add_embeddings Samples.builtins SearchSamples.backend
    [{| chunk := chunk Samples.add_v1; embedding := [];
        model_name := "none"; embedding_dimension := 0 |}] ∅
  = (false, ∅).
Proof. vm_compute. reflexivity. Qed.

(* ================================================================== *)
(** * Properties of the vector store *)
(* ================================================================== *)

Section MetadataFacts.
Context `{Builtins}.
Import VectorStore.

(** Replaces a boolean test on constants by its value. *)
Ltac decide_closed t :=
  let v := eval vm_compute in t in
  lazymatch v with
  | true => change t with true
  | false => change t with false
  end.

Lemma store_entry_kept key value md :
  store_entry key value md =
  match kept_value value with
  | Some v => <[key := v]> md
  | None => md
  end.
Proof.
  unfold store_entry.
  destruct (str_in key _);
    destruct value as [|b|z|q|s|l|d|t shown];
    try destruct b; try destruct l; try destruct d; try destruct t;
    cbv [_sanitize_metadata_value truthy not_reserved kept_value reserved];
    repeat match goal with
           | |- context [String.eqb ?a ?b] => decide_closed (String.eqb a b)
           | |- context [str_in ?a ?b] => decide_closed (str_in a b)
           end;
    cbv [negb andb orb];
    repeat match goal with
           | |- context [Z.eqb ?a ?b] => destruct (Z.eqb a b)
           | |- context [Qeq_bool ?a ?b] => destruct (Qeq_bool a b)
           | |- context [String.eqb ?a ?b] => destruct (String.eqb a b)
           | |- context [str_in ?a ?b] => destruct (str_in a b)
           end;
    reflexivity.
Qed.

Lemma kept_value_scalar value v : kept_value value = Some v -> is_scalar v = true.
Proof.
  destruct value as [|b|z|q|s|l|d|t shown]; simpl; try discriminate.
  - destruct b; [intros [= <-]; reflexivity | discriminate].
  - destruct (z =? 0); [discriminate | intros [= <-]; reflexivity].
  - destruct (Qeq_bool q 0); [discriminate | intros [= <-]; reflexivity].
  - destruct (_ || _); [discriminate | intros [= <-]; reflexivity].
  - destruct l; [discriminate|].
    destruct (_ || _); [discriminate | intros [= <-]; reflexivity].
  - destruct d; [discriminate|].
    destruct (_ || _); [discriminate | intros [= <-]; reflexivity].
  - destruct t; [|discriminate].
    destruct (_ || _); [discriminate | intros [= <-]; reflexivity].
Qed.

Lemma base_metadata_scalar result :
  map_Forall (fun _ v => is_scalar v = true) (base_metadata result).
Proof.
  unfold base_metadata.
  repeat (apply map_Forall_insert_2; [reflexivity|]).
  apply map_Forall_empty.
Qed.

(** The loop over the chunk's metadata, read key by key. *)
Lemma add_metadata_lookup result key :
  add_metadata result !! key =
  match metadata (chunk result) !! key ≫= kept_value with
  | Some v => Some v
  | None => base_metadata result !! key
  end.
Proof.
  unfold add_metadata. revert key.
  apply (map_fold_weak_ind
           (fun r (m : gmap string PyValue) =>
              forall key, r !! key = match m !! key ≫= kept_value with
                                     | Some v => Some v
                                     | None => base_metadata result !! key
                                     end)).
  - intros key. rewrite lookup_empty. reflexivity.
  - intros i x m r Hi IH key. rewrite store_entry_kept.
    destruct (decide (i = key)) as [->|Hne].
    + rewrite lookup_insert_eq. simpl.
      specialize (IH key). rewrite Hi in IH. simpl in IH.
      destruct (kept_value x); [apply lookup_insert_eq | exact IH].
    + rewrite (lookup_insert_ne m) by exact Hne. rewrite <- IH.
      destruct (kept_value x); [apply lookup_insert_ne; exact Hne | reflexivity].
Qed.

Lemma add_metadata_scalar result :
  map_Forall (fun _ v => is_scalar v = true) (add_metadata result).
Proof.
  intros key v. rewrite add_metadata_lookup.
  destruct (metadata (chunk result) !! key) as [value|] eqn:Hk; simpl.
  - destruct (kept_value value) as [v'|] eqn:Hv.
    + intros [= <-]. eapply kept_value_scalar; eassumption.
    + apply base_metadata_scalar.
  - apply base_metadata_scalar.
Qed.

End MetadataFacts.

(** C7 (amended).  A metadata pair [key: value] of a chunk handled by the add
    operation ends up as follows.  A string, number or boolean that is truthy
    and is not one of the reserved strings ["null"], ["[]"], ["{}"],
    ["empty"] is stored unchanged under [key]; a non-empty list or mapping
    (or a truthy object of another class) is stored as its string form
    [str(value)], unless that string is empty or reserved.  Everything else
    is dropped: [None], the falsy scalars [False], [0], [0.0], [""], the
    reserved strings, empty lists and mappings; the key then keeps what the
    record's own fields put under it, if anything.  And whatever the
    operation stores, under any key, is a scalar: no nested value is stored. *)
Theorem metadata_pair_stored `{Builtins} (result : EmbeddingResult)
    (key : string) (value : PyValue) :
  metadata (chunk result) !! key = Some value ->
  VectorStore.add_metadata result !! key =
    match kept_value value with
    | Some v => Some v
    | None => VectorStore.base_metadata result !! key
    end
  /\ map_Forall (fun _ v => is_scalar v = true) (VectorStore.add_metadata result).
Proof.
  intros Hkey. split.
  - rewrite add_metadata_lookup, Hkey. reflexivity.
  - apply add_metadata_scalar.
Qed.

Lemma metadata_pair_stored_witness :
  @VectorStore.add_metadata Samples.builtins Samples.scored !! "decorators"
  = Some (VStr "['staticmethod']")
  /\ map_Forall (fun _ v => is_scalar v = true)
                (@VectorStore.add_metadata Samples.builtins Samples.scored).
Proof.
  exact (@metadata_pair_stored Samples.builtins Samples.scored "decorators"
           (VList [VStr "staticmethod"]) eq_refl).
Defined.

(** C7 as stated fails: a number is a scalar, yet the zero complexity score of
    the sample chunk is not stored under its key. *)
Lemma falsy_scalar_is_dropped :
  metadata (chunk Samples.scored) !! "complexity_score" = Some (VFloat 0)
  /\ is_scalar (VFloat 0) = true
  /\ @VectorStore.add_metadata Samples.builtins Samples.scored !! "complexity_score" = None.
Proof. vm_compute. auto. Qed.

Section AddFacts.
Context `{Builtins} `{VectorStore.Backend}.
Import VectorStore.


Lemma collection_add_single row (c : Collection) :
  collection_add [row] c
  = if takes c [row] then Ok (add_row c row)
    else Raise (ExternalError "InvalidArgumentError").
Proof.
  unfold collection_add. destruct (takes c [row]); [|reflexivity].
  cbn [negb]. rewrite bool_decide_eq_true_2 by apply NoDup_singleton. reflexivity.
Qed.

Lemma add_embeddings_single r (c : Collection) :
  add_embeddings [r] c
  = if takes c [add_row_of r] then (true, add_row c (add_row_of r)) else (false, c).
Proof.
  unfold add_embeddings. cbn [map]. rewrite collection_add_single.
  destruct (takes c [add_row_of r]); reflexivity.
Qed.


Lemma add_row_lookup (c : Collection) row :
  add_row c row !! row.1 = Some (default row.2 (c !! row.1)).
Proof.
  unfold add_row. destruct (c !! row.1) as [old|] eqn:Hold; simpl.
  - exact Hold.
  - apply lookup_insert_eq.
Qed.

Lemma add_row_keeps (c : Collection) row i old :
  c !! i = Some old -> add_row c row !! i = Some old.
Proof.
  intros Hi. unfold add_row. destruct (c !! row.1) eqn:Hrow; [exact Hi|].
  rewrite lookup_insert_ne; [exact Hi|]. intros Heq. rewrite Heq in Hrow. congruence.
Qed.

Lemma foldl_add_row_keeps rows (c : Collection) i old :
  c !! i = Some old -> foldl add_row c rows !! i = Some old.
Proof.
  revert c. induction rows as [|row rows IH]; intros c Hi; simpl; [exact Hi|].
  apply IH, add_row_keeps, Hi.
Qed.

Lemma foldl_add_row_present rows (c : Collection) row :
  row ∈ rows -> is_Some (foldl add_row c rows !! row.1).
Proof.
  revert c. induction rows as [|row' rows IH]; intros c Hin; simpl.
  - inversion Hin.
  - apply elem_of_cons in Hin as [->|Hin]; [|apply IH, Hin].
    rewrite (foldl_add_row_keeps rows _ _ _ (add_row_lookup c row')). eauto.
Qed.




End AddFacts.




(* ------------------------------------------------------------------ *)
(** ** Search *)

Section SearchFacts.
Context `{VectorStore.Backend}.
Import VectorStore.

Lemma insert_hit_Forall (P : Hit -> Prop) h l :
  P h -> Forall P l -> Forall P (insert_hit h l).
Proof.
  intros Hh Hl. induction Hl as [|x xs Hx Hxs IH]; simpl.
  - constructor; [exact Hh | constructor].
  - destruct (Qle_bool _ _); repeat constructor; assumption.
Qed.

Lemma insert_hit_sorted h l :
  StronglySorted nearer l -> StronglySorted nearer (insert_hit h l).
Proof.
  induction 1 as [|x xs Hsorted IH Hx]; simpl.
  - repeat constructor.
  - destruct (Qle_bool (hit_distance h) (hit_distance x)) eqn:Hle.
    + apply Qle_bool_iff in Hle. constructor.
      * constructor; assumption.
      * constructor; [exact Hle|].
        eapply Forall_impl; [exact Hx|].
        intros y Hy. unfold nearer in *. eapply Qle_trans; eassumption.
    + constructor; [exact IH|].
      apply insert_hit_Forall; [|exact Hx].
      unfold nearer. destruct (Qlt_le_dec (hit_distance x) (hit_distance h)) as [Hlt|Hge].
      * apply Qlt_le_weak. exact Hlt.
      * apply Qle_bool_iff in Hge. congruence.
Qed.

Lemma sort_hits_sorted l : StronglySorted nearer (sort_hits l).
Proof.
  induction l as [|h l IH]; simpl.
  - constructor.
  - apply insert_hit_sorted. exact IH.
Qed.

Lemma insert_hit_length h l : length (insert_hit h l) = S (length l).
Proof.
  induction l as [|x xs IH]; simpl; [reflexivity|].
  destruct (Qle_bool _ _); simpl; [reflexivity | rewrite IH; reflexivity].
Qed.

Lemma StronglySorted_take {A} (R : relation A) n l :
  StronglySorted R l -> StronglySorted R (take n l).
Proof.
  intros Hl. revert n. induction Hl as [|x xs Hxs IH Hx]; intros [|n]; simpl;
    try constructor.
  - apply IH.
  - apply Forall_take. exact Hx.
Qed.

Lemma StronglySorted_Forall2 {A B} (R : relation A) (R' : relation B)
    (Q : A -> B -> Prop) l l' :
  (forall a1 a2 b1 b2, Q a1 b1 -> Q a2 b2 -> R a1 a2 -> R' b1 b2) ->
  Forall2 Q l l' -> StronglySorted R l -> StronglySorted R' l'.
Proof.
  intros Hrel HQ. induction HQ as [|a b l l' Hab Hl IH]; intros Hs.
  - constructor.
  - apply StronglySorted_inv in Hs as [Hs Ha]. constructor; [apply IH; exact Hs|].
    clear IH Hs. induction Hl as [|a2 b2 l l' Hab2 Hl IH]; constructor.
    + inversion Ha; subst. eapply Hrel; eassumption.
    + apply IH. inversion Ha; subst. assumption.
Qed.

(** A filter whose predicate can only get lost along a sorted list keeps a
    prefix of it. *)
Lemma filter_sorted_prefix {A} (R : relation A) (P : A -> Prop)
    `{forall x, Decision (P x)} (l : list A) :
  (forall a b, R a b -> P b -> P a) ->
  StronglySorted R l ->
  filter P l = take (length (filter P l)) l
  /\ Forall (fun x => ~ P x) (drop (length (filter P l)) l).
Proof.
  intros Hdown. induction 1 as [|a l Hl IH Ha].
  - split; [reflexivity | constructor].
  - destruct (decide (P a)) as [Hp|Hn].
    + rewrite (filter_cons_True P a l Hp). simpl. destruct IH as [IH1 IH2].
      split; [f_equal; exact IH1 | exact IH2].
    + assert (Hnone : Forall (fun x => ~ P x) l).
      { eapply Forall_impl; [exact Ha|]. intros b Hab Hb. apply Hn. eauto. }
      assert (Hnil : filter P l = []).
      { clear -Hnone. induction Hnone as [|b l Hb Hl IH]; [reflexivity|].
        rewrite filter_cons_False by exact Hb. exact IH. }
      rewrite (filter_cons_False P a l Hn), Hnil. simpl.
      split; [reflexivity | constructor; assumption].
Qed.

Lemma mapM_Ok_Forall2 {A B} (f : A -> result B) l l' :
  mapM f l = Ok l' -> Forall2 (fun x y => f x = Ok y) l l'.
Proof.
  revert l'. induction l as [|x xs IH]; simpl; intros l' Hl.
  - injection Hl as <-. constructor.
  - destruct (f x) as [y|e] eqn:Hx; simpl in Hl; [|discriminate].
    destruct (mapM f xs) as [ys|e]; simpl in Hl; [|discriminate].
    injection Hl as <-. constructor; [exact Hx | apply IH; reflexivity].
Qed.

Lemma score_of_distance_eq d : (score_of_distance d == 1 - d)%Q.
Proof.
  unfold score_of_distance. destruct (Qeq_bool d 0) eqn:Hd; simpl.
  - apply Qeq_bool_eq in Hd. rewrite Hd. reflexivity.
  - reflexivity.
Qed.

Lemma result_of_hit_Ok i h r :
  result_of_hit (i, h) = Ok r ->
  similarity_score r = score_of_distance (hit_distance h) /\ rank r = i + 1.
Proof.
  unfold result_of_hit. simpl.
  destruct (rebuild_chunk h) as [c|e]; simpl; [|discriminate].
  intros [= <-]. split; reflexivity.
Qed.

(** The results built from the hits, before the threshold is applied. *)
Lemma results_of_hits k hits srs :
  mapM result_of_hit (enumerate k hits) = Ok srs ->
  Forall2 (fun h r => similarity_score r = score_of_distance (hit_distance h)) hits srs
  /\ rank <$> srs = (fun i => k + Z.of_nat i) <$> seq 1 (length hits).
Proof.
  revert k srs. induction hits as [|h hits IH]; simpl; intros k srs Hm.
  - injection Hm as <-. split; [constructor | reflexivity].
  - destruct (result_of_hit (k, h)) as [r|e] eqn:Hr; simpl in Hm; [|discriminate].
    destruct (mapM result_of_hit (enumerate (k + 1) hits)) as [rs|e] eqn:Hrs;
      simpl in Hm; [|discriminate].
    injection Hm as <-.
    apply result_of_hit_Ok in Hr as [Hscore Hrank].
    destruct (IH _ _ Hrs) as [IH1 IH2].
    split; [constructor; assumption|].
    change (seq 1 (S (length hits))) with (1%nat :: seq 2 (length hits)).
    rewrite !fmap_cons, Hrank, IH2. f_equal.
    rewrite <- (fmap_S_seq 1), <- list_fmap_compose.
    apply list_fmap_ext. intros _ i _. simpl. lia.
Qed.

Lemma search_Ok cfg q (c : Collection) rs :
  search cfg q c = Ok rs ->
  exists hits srs,
    answers c (query_vector q) = true
    /\ collection_query (query_distance (collection_space cfg) q)
         (n_results cfg q) (where_clause q) c = Ok hits
    /\ mapM result_of_hit (enumerate 0 hits) = Ok srs
    /\ rs = filter (fun r => Qle_bool (similarity_threshold q) (similarity_score r) = true) srs.
Proof.
  unfold search, try_except.
  destruct (answers c (query_vector q)) eqn:Ha; simpl; [|discriminate].
  destruct (collection_query _ _ _ c) as [hits|e] eqn:Hq; simpl; [|discriminate].
  destruct (mapM result_of_hit (enumerate 0 hits)) as [srs|e] eqn:Hm; simpl; [|discriminate].
  intros [= <-]. eauto 10.
Qed.

Lemma created_metadata_space cfg : created_metadata cfg !! "hnsw:space" = None.
Proof. reflexivity. Qed.

Lemma collection_space_created cfg :
  existing_collection = None -> collection_space cfg = "l2".
Proof.
  intros Hnone. unfold collection_space, _initialize_client. rewrite Hnone. reflexivity.
Qed.

Lemma collection_query_Ok dist n w (c : Collection) hits :
  collection_query dist n w c = Ok hits ->
  (length hits <= Z.to_nat n)%nat /\ StronglySorted nearer hits.
Proof.
  unfold collection_query. destruct (n <=? 0); [discriminate|].
  intros [= <-]. split.
  - rewrite length_take. lia.
  - apply StronglySorted_take, sort_hits_sorted.
Qed.

End SearchFacts.

Lemma Forall2_Forall_back {A B} (Q : A -> B -> Prop) (P : A -> Prop) (P' : B -> Prop) l l' :
  (forall a b, Q a b -> P' b -> P a) -> Forall2 Q l l' -> Forall P' l' -> Forall P l.
Proof.
  intros Himp HQ. induction HQ as [|a b l l' Hab Hl IH]; intros HP'.
  - constructor.
  - inversion HP'; subst. constructor; eauto.
Qed.

(** The results of a search, from the backend's hits: at most
    [min(query.max_results, index.max_results)] hits, nearest first, in the
    collection's space; every result carries the score [1 - distance] of its
    hit; the results are the hits before the first one whose score is below
    the query's threshold, and their ranks are 1, 2, ..., k. *)
Lemma search_results_of_hits `{VectorStore.Backend}
    (cfg : VectorStore.VectorStoreConfig) (q : SearchQuery)
    (c : gmap string VectorStore.StoredRecord) (rs : list SearchResult) :
  VectorStore.search cfg q c = Ok rs ->
  exists hits : list VectorStore.Hit,
    VectorStore.collection_query (VectorStore.query_distance (VectorStore.collection_space cfg) q)
      (Z.min (max_results q) (VectorStore.vs_max_results cfg))
      (VectorStore.where_clause q) c = Ok hits
    /\ (length hits <= Z.to_nat (Z.min (max_results q) (VectorStore.vs_max_results cfg)))%nat
    /\ StronglySorted nearer hits
    /\ Forall2 (fun r h => (similarity_score r == 1 - VectorStore.hit_distance h)%Q)
               rs (take (length rs) hits)
    /\ Forall (fun r => (similarity_threshold q <= similarity_score r)%Q) rs
    /\ Forall (fun h => ~ (similarity_threshold q <= 1 - VectorStore.hit_distance h)%Q)
              (drop (length rs) hits)
    /\ rank <$> rs = Z.of_nat <$> seq 1 (length rs).
Proof.
  intros Hs. apply search_Ok in Hs as (hits & srs & _ & Hq & Hm & ->).
  exists hits. split; [exact Hq|].
  destruct (collection_query_Ok _ _ _ _ _ Hq) as [Hlen Hsorted].
  split; [exact Hlen|]. split; [exact Hsorted|].
  destruct (results_of_hits _ _ _ Hm) as [Hscores Hranks].
  set (P := fun r : SearchResult =>
              Qle_bool (similarity_threshold q) (similarity_score r) = true).
  assert (Hdesc : StronglySorted
                    (fun a b => (similarity_score b <= similarity_score a)%Q) srs).
  { eapply StronglySorted_Forall2; [|exact Hscores|exact Hsorted].
    intros h1 h2 r1 r2 -> -> Hn. unfold nearer in Hn.
    rewrite !score_of_distance_eq. unfold Qminus.
    apply Qplus_le_r, Qopp_le_compat. exact Hn. }
  assert (Hdown : forall a b : SearchResult,
             (similarity_score b <= similarity_score a)%Q -> P b -> P a).
  { intros a b Hab Hb. unfold P in *. apply Qle_bool_iff in Hb. apply Qle_bool_iff.
    eapply Qle_trans; eassumption. }
  destruct (filter_sorted_prefix _ P srs Hdown Hdesc) as [Hpre Hrest].
  assert (Hm_le : (length (filter P srs) <= length hits)%nat).
  { rewrite (Forall2_length _ _ _ Hscores). apply length_filter. }
  set (m := length (filter P srs)) in *.
  split; [|split; [|split]].
  - rewrite Hpre. apply Forall2_flip.
    eapply Forall2_impl; [apply Forall2_take; exact Hscores|].
    intros h r Heq. unfold flip. rewrite Heq. apply score_of_distance_eq.
  - apply Forall_forall. intros r Hr. apply list_elem_of_filter in Hr as [Hr _].
    apply Qle_bool_iff. exact Hr.
  - eapply Forall2_Forall_back; [|apply Forall2_drop; exact Hscores|exact Hrest].
    intros h r Heq Hn Hle. apply Hn. unfold P. apply Qle_bool_iff.
    rewrite Heq, score_of_distance_eq. exact Hle.
  - rewrite Hpre, fmap_take, Hranks, <- fmap_take, take_seq.
    rewrite Nat.min_l by exact Hm_le.
    apply list_fmap_ext. intros _ i _. reflexivity.
Qed.

(** C2.  The store hands the configured metric to the backend under the key
    "distance_metric", which the backend does not read; the key it reads,
    "hnsw:space", is absent from the collection the store creates.  So,
    whatever metric is configured ("cosine" by default), the collection the
    store creates measures in the backend's default space "l2", and when a
    search returns results every score is 1 minus the distance of its hit in
    that space, not 1 minus a cosine distance.  The rest of the claim holds
    of these distances: the backend is asked for at most
    [min(query.max_results, index.max_results)] hits and returns them nearest
    first; the results are the hits before the first one whose score is below
    the query's threshold, in the backend's order: each of them is at or
    above the threshold, each hit left out is below it, and the results'
    ranks are 1, 2, ..., k. *)
Theorem search_scores_are_not_cosine `{VectorStore.Backend}
    (cfg : VectorStore.VectorStoreConfig) (q : SearchQuery)
    (c : gmap string VectorStore.StoredRecord) (rs : list SearchResult) :
  VectorStore.existing_collection = None ->
  VectorStore.search cfg q c = Ok rs ->
  VectorStore.distance_metric VectorStore.default_config = "cosine"
  /\ VectorStore._initialize_client cfg !! "distance_metric"
     = Some (VStr (VectorStore.distance_metric cfg))
  /\ VectorStore._initialize_client cfg !! "hnsw:space" = None
  /\ VectorStore.collection_space cfg = "l2"
  /\ exists hits : list VectorStore.Hit,
    VectorStore.collection_query (VectorStore.query_distance "l2" q)
      (Z.min (max_results q) (VectorStore.vs_max_results cfg))
      (VectorStore.where_clause q) c = Ok hits
    /\ (length hits <= Z.to_nat (Z.min (max_results q) (VectorStore.vs_max_results cfg)))%nat
    /\ StronglySorted nearer hits
    /\ Forall2 (fun r h => (similarity_score r == 1 - VectorStore.hit_distance h)%Q)
               rs (take (length rs) hits)
    /\ Forall (fun r => (similarity_threshold q <= similarity_score r)%Q) rs
    /\ Forall (fun h => ~ (similarity_threshold q <= 1 - VectorStore.hit_distance h)%Q)
              (drop (length rs) hits)
    /\ rank <$> rs = Z.of_nat <$> seq 1 (length rs).
Proof.
  intros Hnone Hs.
  assert (Hinit : VectorStore._initialize_client cfg = VectorStore.created_metadata cfg).
  { unfold VectorStore._initialize_client. rewrite Hnone. reflexivity. }
  split; [reflexivity|]. rewrite Hinit.
  split; [reflexivity|]. split; [reflexivity|].
  pose proof (collection_space_created cfg Hnone) as Hspace.
  split; [exact Hspace|].
  rewrite <- Hspace. apply search_results_of_hits. exact Hs.
Qed.

Lemma search_scores_are_not_cosine_witness :
  VectorStore.distance_metric VectorStore.default_config = "cosine"
  /\ @VectorStore._initialize_client SearchSamples.backend VectorStore.default_config
       !! "distance_metric" = Some (VStr "cosine")
  /\ @VectorStore._initialize_client SearchSamples.backend VectorStore.default_config
       !! "hnsw:space" = None
  /\ @VectorStore.collection_space SearchSamples.backend VectorStore.default_config = "l2"
  /\ exists hits : list VectorStore.Hit,
    VectorStore.collection_query
      (@VectorStore.query_distance SearchSamples.backend "l2"
         (SearchSamples.ask None [FUNCTION] 2 (8#10)))
      (Z.min (max_results (SearchSamples.ask None [FUNCTION] 2 (8#10)))
             (VectorStore.vs_max_results VectorStore.default_config))
      (VectorStore.where_clause (SearchSamples.ask None [FUNCTION] 2 (8#10)))
      SearchSamples.index = Ok hits
    /\ (length hits
        <= Z.to_nat (Z.min (max_results (SearchSamples.ask None [FUNCTION] 2 (8#10)))
                           (VectorStore.vs_max_results VectorStore.default_config)))%nat
    /\ StronglySorted nearer hits
    /\ Forall2 (fun r h => (similarity_score r == 1 - VectorStore.hit_distance h)%Q)
               SearchSamples.answer (take (length SearchSamples.answer) hits)
    /\ Forall (fun r => (similarity_threshold (SearchSamples.ask None [FUNCTION] 2 (8#10))
                         <= similarity_score r)%Q) SearchSamples.answer
    /\ Forall (fun h => ~ (similarity_threshold (SearchSamples.ask None [FUNCTION] 2 (8#10))
                           <= 1 - VectorStore.hit_distance h)%Q)
              (drop (length SearchSamples.answer) hits)
    /\ rank <$> SearchSamples.answer = Z.of_nat <$> seq 1 (length SearchSamples.answer).
Proof.
  apply (@search_scores_are_not_cosine SearchSamples.backend VectorStore.default_config
           (SearchSamples.ask None [FUNCTION] 2 (8#10)) SearchSamples.index
           SearchSamples.answer).
  - reflexivity.
  - vm_compute. reflexivity.
Defined.

(** C4 (amended).  When a query names exactly one element kind and also a
    language, exactly one predicate is sent to the backend, the one on the
    element kind, and the query is answered as the same query without its
    language filter. *)
Theorem element_kind_filter_takes_precedence `{VectorStore.Backend}
    (cfg : VectorStore.VectorStoreConfig) (q : SearchQuery)
    (c : gmap string VectorStore.StoredRecord) (t : CodeElementType) (l : LanguageType) :
  element_types q = [t] ->
  q_language q = Some l ->
  VectorStore.where_clause q = Some ("element_type", element_type_value t)
  /\ VectorStore.search cfg q c = VectorStore.search cfg (without_language q) c.
Proof.
  intros Ht Hl.
  assert (Hw : VectorStore.where_clause q = Some ("element_type", element_type_value t)).
  { unfold VectorStore.where_clause. rewrite Ht. reflexivity. }
  split; [exact Hw|].
  unfold VectorStore.search, VectorStore.n_results, VectorStore.query_distance.
  rewrite Hw.
  replace (VectorStore.where_clause (without_language q))
    with (Some ("element_type", element_type_value t))
    by (unfold VectorStore.where_clause; simpl; rewrite Ht; reflexivity).
  reflexivity.
Qed.

Lemma element_kind_filter_takes_precedence_witness :
  VectorStore.where_clause (SearchSamples.ask (Some PYTHON) [FUNCTION] 10 0)
  = Some ("element_type", element_type_value FUNCTION)
  /\ @VectorStore.search SearchSamples.backend VectorStore.default_config
       (SearchSamples.ask (Some PYTHON) [FUNCTION] 10 0) SearchSamples.index
     = @VectorStore.search SearchSamples.backend VectorStore.default_config
         (without_language (SearchSamples.ask (Some PYTHON) [FUNCTION] 10 0))
         SearchSamples.index.
Proof.
  apply (@element_kind_filter_takes_precedence SearchSamples.backend
           VectorStore.default_config (SearchSamples.ask (Some PYTHON) [FUNCTION] 10 0)
           SearchSamples.index FUNCTION PYTHON); reflexivity.
Defined.

(** C4 as stated fails: a query that names two element kinds and a language
    has its language predicate sent to the backend, and its answer differs
    from the answer to the same query without the language filter (which
    also returns the JavaScript function). *)
Lemma two_kinds_defer_to_language :
  element_types (SearchSamples.ask (Some PYTHON) [FUNCTION; CLASS] 10 0) = [FUNCTION; CLASS]
  /\ q_language (SearchSamples.ask (Some PYTHON) [FUNCTION; CLASS] 10 0) = Some PYTHON
  /\ VectorStore.where_clause (SearchSamples.ask (Some PYTHON) [FUNCTION; CLASS] 10 0)
     = Some ("language", "python")
  /\ length <$> SearchSamples.answers_by_language = [2%nat; 3%nat].
Proof. vm_compute. auto. Qed.

(* ================================================================== *)
(** * Properties of the chunker *)
(* ================================================================== *)

Section ChunkFileFacts.
Context `{Builtins}.
Import Chunker.

Lemma _fallback_chunking_Ok cfg w file_path :
  _fallback_chunking cfg w file_path = Ok (fallback_chunks cfg w file_path).
Proof.
  unfold _fallback_chunking, fallback_chunks.
  destruct (read_text w file_path); reflexivity.
Qed.

Lemma flush_group_total merged group : exists cs, flush_group merged group = Ok cs.
Proof. destruct group as [|a [|b g]]; simpl; eauto. Qed.

Lemma merge_loop_total cfg chunks merged group :
  exists cs, merge_loop cfg chunks merged group = Ok cs.
Proof.
  revert merged group. induction chunks as [|x xs IH]; intros merged group; simpl.
  - apply flush_group_total.
  - destruct (is_small cfg x); [apply IH|].
    destruct (flush_group_total merged group) as [m ->]. simpl. apply IH.
Qed.

Lemma _post_process_chunks_total cfg chunks :
  exists cs, _post_process_chunks cfg chunks = Ok cs.
Proof.
  unfold _post_process_chunks, _merge_small_chunks.
  destruct (merge_small_functions cfg); [apply merge_loop_total | eauto].
Qed.

(** [chunk_file], path by path. *)
Lemma chunk_file_cases cfg w file_path :
  chunk_file cfg w file_path =
  match create_parser_from_file w file_path with
  | None => Ok (fallback_chunks cfg w file_path)
  | Some parser =>
      match parse_file parser file_path with
      | Raise _ => Ok (fallback_chunks cfg w file_path)
      | Ok result =>
          if success result then
            match read_file_content parser file_path with
            | Raise _ => Ok (fallback_chunks cfg w file_path)
            | Ok content =>
                _post_process_chunks cfg (apply_strategy cfg result content file_path)
            end
          else Ok (fallback_chunks cfg w file_path)
      end
  end.
Proof.
  unfold chunk_file. rewrite !_fallback_chunking_Ok.
  destruct (create_parser_from_file w file_path) as [parser|]; [|reflexivity].
  destruct (parse_file parser file_path) as [result|e]; simpl; [|reflexivity].
  destruct (success result); simpl; [|reflexivity].
  destruct (read_file_content parser file_path) as [content|e]; simpl; [|reflexivity].
  destruct (_post_process_chunks_total cfg (apply_strategy cfg result content file_path))
    as [cs ->]. reflexivity.
Qed.

End ChunkFileFacts.

(** C5.  [chunk_file] never raises: for every configuration, parser factory,
    file system and path it returns a list of chunks.  If no parser is
    available for the file, or parsing raises or reports failure, the list
    is the sliding-window chunking of the raw file text, and it is empty if
    the file cannot be read either. *)
Theorem chunk_file_never_raises `{Builtins} (cfg : Chunker.ChunkingConfig)
    (w : Chunker.World) (file_path : string) :
  (exists chunks, Chunker.chunk_file cfg w file_path = Ok chunks)
  /\ match Chunker.create_parser_from_file w file_path with
     | None => Chunker.chunk_file cfg w file_path = Ok (fallback_chunks cfg w file_path)
     | Some parser =>
         match Chunker.parse_file parser file_path with
         | Raise _ => Chunker.chunk_file cfg w file_path = Ok (fallback_chunks cfg w file_path)
         | Ok result =>
             if Types.success result then True
             else Chunker.chunk_file cfg w file_path = Ok (fallback_chunks cfg w file_path)
         end
     end
  /\ match Chunker.read_text w file_path with
     | Ok content =>
         fallback_chunks cfg w file_path
         = Chunker._sliding_window_chunking cfg content file_path
     | Raise _ => fallback_chunks cfg w file_path = []
     end.
Proof.
  rewrite chunk_file_cases. split; [|split].
  - destruct (Chunker.create_parser_from_file w file_path) as [parser|]; [|eauto].
    destruct (Chunker.parse_file parser file_path) as [result|e]; [|eauto].
    destruct (Types.success result); [|eauto].
    destruct (Chunker.read_file_content parser file_path) as [content|e]; [|eauto].
    apply _post_process_chunks_total.
  - destruct (Chunker.create_parser_from_file w file_path) as [parser|]; [|reflexivity].
    destruct (Chunker.parse_file parser file_path) as [result|e]; [|reflexivity].
    destruct (Types.success result); [exact I | reflexivity].
  - unfold fallback_chunks. destruct (Chunker.read_text w file_path); reflexivity.
Qed.

(** C10.  Whenever no parser is available for a file, or parsing raises or
    reports failure, [chunk_file] returns the fallback's chunks exactly as
    the sliding window produced them (or none for an unreadable file): no
    chunk is dropped, trimmed or merged on that path.  After a successful
    parse whose file content can be read, what [chunk_file] returns is the
    result of post-processing the chunks of the configured strategy, and
    post-processing always yields a result. *)
Theorem fallback_bypasses_post_processing `{Builtins} (cfg : Chunker.ChunkingConfig)
    (w : Chunker.World) (file_path : string) :
  match Chunker.create_parser_from_file w file_path with
  | None => Chunker.chunk_file cfg w file_path = Ok (fallback_chunks cfg w file_path)
  | Some parser =>
      match Chunker.parse_file parser file_path with
      | Raise _ => Chunker.chunk_file cfg w file_path = Ok (fallback_chunks cfg w file_path)
      | Ok result =>
          if Types.success result then
            match Chunker.read_file_content parser file_path with
            | Ok content =>
                exists chunks,
                  Chunker._post_process_chunks cfg
                    (Chunker.apply_strategy cfg result content file_path) = Ok chunks
                  /\ Chunker.chunk_file cfg w file_path = Ok chunks
            | Raise _ =>
                Chunker.chunk_file cfg w file_path = Ok (fallback_chunks cfg w file_path)
            end
          else Chunker.chunk_file cfg w file_path = Ok (fallback_chunks cfg w file_path)
      end
  end.
Proof.
  rewrite chunk_file_cases.
  destruct (Chunker.create_parser_from_file w file_path) as [parser|]; [|reflexivity].
  destruct (Chunker.parse_file parser file_path) as [result|e]; [|reflexivity].
  destruct (Types.success result); [|reflexivity].
  destruct (Chunker.read_file_content parser file_path) as [content|e]; [|reflexivity].
  destruct (_post_process_chunks_total cfg
              (Chunker.apply_strategy cfg result content file_path)) as [cs Hcs].
  exists cs. split; [exact Hcs | exact Hcs].
Qed.

(** The bypass is observable: the short text file of the sample world comes
    back as one chunk of five characters, which post-processing would have
    dropped for being under the minimum size. *)
Example fallback_keeps_a_tiny_chunk :
  @Chunker.chunk_file Samples.builtins Chunker.default_config ChunkSamples.text_only
    "notes.txt"
  = Ok [ChunkSamples.note 1 "x = 1"]
  /\ @Chunker._post_process_chunks Samples.builtins Chunker.default_config
       [ChunkSamples.note 1 "x = 1"]
     = Ok [].
Proof. split; vm_compute; reflexivity. Qed.

(** C6 fails on the sliding window.  With the default configuration, a file
    that consists of one line of 1000 characters is cut into a chunk for
    line 1 and a second chunk whose [start_line] is 0: the window restarts
    at [i - overlap_lines + 1] although the chunk just emitted had fewer
    than [overlap_lines] lines. *)
Lemma sliding_window_start_line_zero :
  (fun c => (start_line c, end_line c))
    <$> Chunker._sliding_window_chunking Chunker.default_config
          ChunkSamples.long_line "bundle.min.js"
  = [(1, 1); (0, 1)].
Proof. vm_compute. reflexivity. Qed.

Section MergeFacts.
Context `{Builtins}.
Import Chunker.
Variable cfg : ChunkingConfig.

Lemma flush_group_merged merged group :
  flush_group merged group = r ← flush_group [] group; Ok (merged ++ r).
Proof.
  destruct group as [|a [|b g]]; simpl; try reflexivity.
  rewrite app_nil_r. reflexivity.
Qed.

Lemma bind_Ok_app {A} (m : result (list A)) (xs ys : list A) :
  (r ← (r' ← m; Ok (ys ++ r')); Ok (xs ++ r)) = (r' ← m; Ok ((xs ++ ys) ++ r')).
Proof. destruct m; simpl; [rewrite app_assoc|]; reflexivity. Qed.

(** The chunks merged so far are a prefix of the outcome. *)
Lemma merge_loop_merged chunks merged group :
  merge_loop cfg chunks merged group
  = r ← merge_loop cfg chunks [] group; Ok (merged ++ r).
Proof.
  revert merged group. induction chunks as [|x xs IH]; intros merged group; simpl.
  - apply flush_group_merged.
  - destruct (is_small cfg x); [apply IH|].
    rewrite (flush_group_merged merged group).
    destruct (flush_group [] group) as [m|e]; simpl; [|reflexivity].
    rewrite (IH ((merged ++ m) ++ [x])), (IH (m ++ [x])).
    rewrite bind_Ok_app. rewrite <- !app_assoc. reflexivity.
Qed.

(** Merging splits at a chunk that is not small and starts the rest. *)
Lemma merge_loop_split_before xs y ys merged group :
  is_small cfg y = false ->
  merge_loop cfg (xs ++ y :: ys) merged group
  = m1 ← merge_loop cfg xs merged group; m2 ← merge_loop cfg (y :: ys) [] []; Ok (m1 ++ m2).
Proof.
  intros Hy. revert merged group.
  induction xs as [|x xs IH]; intros merged group; simpl.
  - rewrite Hy. simpl.
    destruct (flush_group merged group) as [m|e]; simpl; [|reflexivity].
    rewrite (merge_loop_merged ys (m ++ [y])), (merge_loop_merged ys ([] ++ [y])).
    rewrite bind_Ok_app. reflexivity.
  - destruct (is_small cfg x); [apply IH|].
    destruct (flush_group merged group) as [m|e]; simpl; [apply IH | reflexivity].
Qed.

(** Merging splits after a chunk that is not small and ends the first part. *)
Lemma merge_loop_split_after xs x ys merged group :
  is_small cfg x = false ->
  merge_loop cfg ((xs ++ [x]) ++ ys) merged group
  = m1 ← merge_loop cfg (xs ++ [x]) merged group; m2 ← merge_loop cfg ys [] []; Ok (m1 ++ m2).
Proof.
  intros Hx. revert merged group.
  induction xs as [|x' xs IH]; intros merged group; simpl.
  - rewrite Hx. simpl.
    destruct (flush_group merged group) as [m|e]; simpl; [|reflexivity].
    apply merge_loop_merged.
  - destruct (is_small cfg x'); [apply IH|].
    destruct (flush_group merged group) as [m|e]; simpl; [apply IH | reflexivity].
Qed.

Lemma last_closes_split (xs : list DocumentChunk) :
  closes_group cfg (last xs) ->
  xs = [] \/ exists xs' x, xs = xs' ++ [x] /\ is_small cfg x = false.
Proof.
  destruct xs as [|x0 xs'] using rev_ind; [left; reflexivity|].
  rewrite last_snoc. simpl. intros Hx. right. eauto.
Qed.

(** A maximal run of small chunks is merged on its own. *)
Lemma _merge_small_chunks_run before run after :
  closes_group cfg (last before) -> closes_group cfg (head after) ->
  _merge_small_chunks cfg (before ++ run ++ after)
  = m1 ← _merge_small_chunks cfg before;
    m2 ← _merge_small_chunks cfg run;
    m3 ← _merge_small_chunks cfg after;
    Ok (m1 ++ m2 ++ m3).
Proof.
  intros Hb Ha. unfold _merge_small_chunks.
  assert (Hright : merge_loop cfg (run ++ after) [] []
                   = m2 ← merge_loop cfg run [] [];
                     m3 ← merge_loop cfg after [] []; Ok (m2 ++ m3)).
  { destruct after as [|y ys].
    - rewrite app_nil_r. simpl.
      destruct (merge_loop cfg run [] []); simpl; [rewrite app_nil_r|]; reflexivity.
    - apply merge_loop_split_before. exact Ha. }
  destruct (last_closes_split before Hb) as [->|(xs & x & -> & Hx)].
  - simpl. rewrite Hright.
    destruct (merge_loop cfg run [] []) as [m2|e]; simpl; [|reflexivity].
    destruct (merge_loop cfg after [] []); reflexivity.
  - rewrite merge_loop_split_after by exact Hx. rewrite Hright.
    destruct (merge_loop cfg (xs ++ [x]) [] []) as [m1|e]; simpl; [|reflexivity].
    destruct (merge_loop cfg run [] []) as [m2|e]; simpl; [|reflexivity].
    destruct (merge_loop cfg after [] []); reflexivity.
Qed.

Lemma size_stage_kept chunk : kept_as_is cfg chunk -> size_stage cfg chunk = [chunk].
Proof.
  intros [Ht Hmax]. unfold size_stage.
  rewrite (bool_decide_eq_true_2 (element_type chunk ∈ [Some CLASS; Some FUNCTION])).
  - rewrite andb_false_r.
    destruct (len (content chunk) >? max_chunk_size cfg) eqn:Hgt; [lia | reflexivity].
  - destruct Ht as [-> | ->].
    + apply list_elem_of_here.
    + apply list_elem_of_further, list_elem_of_here.
Qed.

Lemma below_min_is_small chunk :
  len (content chunk) < min_chunk_size cfg -> is_small cfg chunk = true.
Proof. unfold is_small, len. intros Hlt. apply Z.ltb_lt. lia. Qed.

End MergeFacts.

(** C3 (amended).  Post-processing with merging enabled, applied to a
    sequence that contains three consecutive chunks, each of element type
    function or class, each with content shorter than [min_chunk_size] and
    not longer than [max_chunk_size], where the chunk kept before the three
    (if any) and the chunk kept after them (if any) are at or above twice
    [min_chunk_size], yields exactly one merged chunk in their place: the
    result is the post-processed chunks before, the merged chunk, and the
    post-processed chunks after.  The merged chunk's [start_line] is the
    minimum and its [end_line] the maximum over the three, its content is
    their contents joined by a blank line, and its metadata has
    [merged_chunk = True] and [original_chunks = 3]. *)
Theorem three_small_chunks_merge `{Builtins} (cfg : Chunker.ChunkingConfig)
    (pre post : list DocumentChunk) (a b c : DocumentChunk) :
  Chunker.merge_small_functions cfg = true ->
  Forall (fun x => kept_as_is cfg x /\ len (content x) < Chunker.min_chunk_size cfg)
         [a; b; c] ->
  closes_group cfg (last (flat_map (Chunker.size_stage cfg) pre)) ->
  closes_group cfg (head (flat_map (Chunker.size_stage cfg) post)) ->
  exists before merged after,
    Chunker._post_process_chunks cfg pre = Ok before
    /\ Chunker._post_process_chunks cfg post = Ok after
    /\ Chunker._post_process_chunks cfg (pre ++ [a; b; c] ++ post)
       = Ok (before ++ [merged] ++ after)
    /\ start_line merged = Z.min (Z.min (start_line a) (start_line b)) (start_line c)
    /\ end_line merged = Z.max (Z.max (end_line a) (end_line b)) (end_line c)
    /\ content merged
       = content a +:+ (nl +:+ nl) +:+ content b +:+ (nl +:+ nl) +:+ content c
    /\ metadata merged !! "merged_chunk" = Some (VBool true)
    /\ metadata merged !! "original_chunks" = Some (VInt 3).
Proof.
  intros Hmerge Habc Hpre Hpost.
  apply Forall_cons in Habc as [[Ha Ha'] Habc].
  apply Forall_cons in Habc as [[Hb Hb'] Habc].
  apply Forall_cons in Habc as [[Hc Hc'] _].
  unfold Chunker._post_process_chunks. rewrite Hmerge.
  assert (Hmid : flat_map (Chunker.size_stage cfg) [a; b; c] = [a; b; c]).
  { cbn [flat_map]. rewrite !size_stage_kept by assumption. reflexivity. }
  rewrite !flat_map_app, Hmid.
  rewrite _merge_small_chunks_run by assumption.
  destruct (merge_loop_total cfg (flat_map (Chunker.size_stage cfg) pre) [] [])
    as [before Hbefore].
  destruct (merge_loop_total cfg (flat_map (Chunker.size_stage cfg) post) [] [])
    as [after Hafter].
  unfold Chunker._merge_small_chunks. rewrite Hbefore, Hafter.
  exists before. eexists. exists after.
  split; [reflexivity|]. split; [reflexivity|]. split.
  - cbn [Chunker.merge_loop].
    rewrite !below_min_is_small by assumption. reflexivity.
  - repeat split; reflexivity.
Qed.

Lemma three_small_chunks_merge_witness :
  exists before merged after,
    @Chunker._post_process_chunks Samples.builtins Chunker.default_config [] = Ok before
    /\ @Chunker._post_process_chunks Samples.builtins Chunker.default_config [] = Ok after
    /\ @Chunker._post_process_chunks Samples.builtins Chunker.default_config
         ([] ++ [ChunkSamples.small_element FUNCTION "add" 1 2 "def add(a, b): return a + b";
                 ChunkSamples.small_element FUNCTION "sub" 4 5 "def sub(a, b): return a - b";
                 ChunkSamples.small_element FUNCTION "neg" 7 8 "def neg(a): return -a"] ++ [])
       = Ok (before ++ [merged] ++ after)
    /\ start_line merged = Z.min (Z.min 1 4) 7
    /\ end_line merged = Z.max (Z.max 2 5) 8
    /\ content merged
       = "def add(a, b): return a + b" +:+ (nl +:+ nl)
         +:+ "def sub(a, b): return a - b" +:+ (nl +:+ nl) +:+ "def neg(a): return -a"
    /\ metadata merged !! "merged_chunk" = Some (VBool true)
    /\ metadata merged !! "original_chunks" = Some (VInt 3).
Proof.
  apply (@three_small_chunks_merge Samples.builtins Chunker.default_config [] []
           (ChunkSamples.small_element FUNCTION "add" 1 2 "def add(a, b): return a + b")
           (ChunkSamples.small_element FUNCTION "sub" 4 5 "def sub(a, b): return a - b")
           (ChunkSamples.small_element FUNCTION "neg" 7 8 "def neg(a): return -a")).
  - reflexivity.
  - repeat constructor; vm_compute; auto; discriminate.
  - exact I.
  - exact I.
Defined.

(** C3 as stated fails: three consecutive method chunks, each below the
    minimum size, are all dropped by the first step of post-processing, which
    keeps an undersized chunk only when its element type is function or
    class; no merged chunk is produced. *)
Lemma three_small_methods_vanish :
  length ChunkSamples.methods = 3%nat
  /\ Forall (fun x => len (content x) < Chunker.min_chunk_size Chunker.default_config)
            ChunkSamples.methods
  /\ @Chunker._post_process_chunks Samples.builtins Chunker.default_config ChunkSamples.methods = Ok [].
Proof.
  split; [reflexivity|].
  split; [repeat constructor; vm_compute; reflexivity | vm_compute; reflexivity].
Qed.

(* ================================================================== *)
(** * Properties of the embedder *)
(* ================================================================== *)


(** Where nothing overflows the function does normalise: the vector
    [[3; 4]], of norm 5, becomes [[0.6; 0.8]] (as rounded), and the zero
    vector is returned as it is. *)
Example normalize_3_4 :
  Embedder._normalize_embedding [3; 4]%float = [3 / 5; 4 / 5]%float
  /\ Embedder._normalize_embedding [0; 0]%float = [0; 0]%float.
Proof. vm_compute. split; reflexivity. Qed.

Section EmbedFacts.
Context `{Builtins}.
Import Embedder.

(** The [try] block leaves the embedder as it is when it fails. *)
Lemma embed_chunk_body_failure cfg svc self chunk e self' :
  embed_chunk_body cfg svc self chunk = (Raise e, self') -> self' = self.
Proof.
  unfold embed_chunk_body.
  destruct (if cache_embeddings cfg then _ else _) as [cached|]; [discriminate|].
  destruct (_ ≫= _) as [embedding|e']; [discriminate|].
  intros [= _ <-]. reflexivity.
Qed.

End EmbedFacts.

(** C9 fails in [embed_chunk].  The outcome of embedding a chunk is either a
    result or an exception, but the exception is never an [EmbeddingError]:
    the handler passes the keyword [chunk_info], which the constructor of
    [EmbeddingError] does not accept, so what propagates is the [TypeError]
    of that call, naming neither the chunk nor its file path.  (On failure
    the embedder, and with it the cache, is left as it was.) *)
Theorem embed_chunk_raises_type_error `{Builtins} (cfg : Embedder.EmbeddingConfig)
    (svc : Embedder.ModelService) (self : Embedder.CodeEmbedder) (chunk : DocumentChunk) :
  match Embedder.embed_chunk cfg svc self chunk with
  | (Ok _, _) => True
  | (Raise e, self') =>
      e = TypeError "EmbeddingError.__init__() got an unexpected keyword argument 'chunk_info'"
      /\ self' = self
  end.
Proof.
  unfold Embedder.embed_chunk.
  destruct (Embedder.embed_chunk_body cfg svc self chunk) as [[r|e] self'] eqn:Hbody.
  - exact I.
  - simpl. split; [reflexivity|].
    eapply embed_chunk_body_failure. exact Hbody.
Qed.

(** With the embedding service down, embedding the sample chunk raises that
    [TypeError]. *)
Example embed_chunk_service_down :
  @Embedder.embed_chunk Samples.builtins Embedder.default_config EmbedSamples.unavailable
    EmbedSamples.fresh (chunk Samples.add_v1)
  = (Raise (TypeError "EmbeddingError.__init__() got an unexpected keyword argument 'chunk_info'"),
     EmbedSamples.fresh).
Proof. vm_compute. reflexivity. Qed.

(* ================================================================== *)
(** * Further properties of the vector store *)
(* ================================================================== *)

Section StoreFacts.
Context `{Builtins}.
Import VectorStore.

Lemma collection_delete_lookup ids (c : Collection) i :
  collection_delete ids c !! i = if bool_decide (i ∈ ids) then None else c !! i.
Proof.
  unfold collection_delete. revert c. induction ids as [|j ids IH]; intros c; cbn [foldl].
  - rewrite bool_decide_eq_false_2 by apply not_elem_of_nil. reflexivity.
  - rewrite IH. destruct (decide (i = j)) as [->|Hne].
    + rewrite (bool_decide_eq_true_2 (j ∈ j :: ids)) by apply list_elem_of_here.
      rewrite lookup_delete_eq. destruct (bool_decide _); reflexivity.
    + rewrite lookup_delete_ne by congruence.
      destruct (decide (i ∈ ids)) as [Hin|Hout].
      * rewrite !bool_decide_eq_true_2;
          [reflexivity | apply list_elem_of_further; exact Hin | exact Hin].
      * rewrite !bool_decide_eq_false_2; [reflexivity | | exact Hout].
        rewrite elem_of_cons. tauto.
Qed.

Lemma collection_get_where_elem w (c : Collection) i :
  i ∈ collection_get_where w c
  <-> exists r, c !! i = Some r /\ matches_where (Some w) r = true.
Proof.
  unfold collection_get_where. rewrite list_elem_of_fmap. split.
  - intros ([j r] & -> & Hin). apply list_elem_of_filter in Hin as [Hm Hin].
    apply elem_of_map_to_list in Hin. eauto.
  - intros (r & Hr & Hm). exists (i, r). split; [reflexivity|].
    apply list_elem_of_filter. split; [exact Hm | apply elem_of_map_to_list; exact Hr].
Qed.

Lemma delete_by_file_lookup path (c : Collection) i :
  (delete_by_file path c).2 !! i =
  match c !! i with
  | Some r => if matches_where (Some ("file_path", path)) r then None else Some r
  | None => None
  end.
Proof.
  assert (Hdel : (delete_by_file path c).2
                 = collection_delete (collection_get_where ("file_path", path) c) c).
  { unfold delete_by_file. destruct (collection_get_where _ c); reflexivity. }
  rewrite Hdel, collection_delete_lookup.
  destruct (c !! i) as [r|] eqn:Hi.
  - destruct (matches_where _ r) eqn:Hm.
    + rewrite bool_decide_eq_true_2; [reflexivity|].
      apply collection_get_where_elem. eauto.
    + rewrite bool_decide_eq_false_2; [reflexivity|].
      intros Hin. apply collection_get_where_elem in Hin as (r' & Hr' & Hm'). congruence.
  - destruct (bool_decide _); reflexivity.
Qed.

Lemma base_metadata_fields r :
  base_metadata r !! "file_path" = Some (VStr (file_path (chunk r)))
  /\ base_metadata r !! "start_line" = Some (VInt (start_line (chunk r)))
  /\ base_metadata r !! "end_line" = Some (VInt (end_line (chunk r)))
  /\ base_metadata r !! "element_name" = Some (VStr (str_or (element_name (chunk r)) ""))
  /\ base_metadata r !! "element_type"
     = Some (VStr (match element_type (chunk r) with
                   | Some t => element_type_value t
                   | None => ""
                   end))
  /\ base_metadata r !! "chunk_type" = Some (VStr (chunk_type_value (chunk_type (chunk r))))
  /\ base_metadata r !! "language" = Some (VStr (_get_language_value (language (chunk r)))).
Proof.
  unfold base_metadata.
  repeat split; repeat (rewrite lookup_insert_ne by discriminate); apply lookup_insert_eq.
Qed.

Lemma add_metadata_plain r key :
  plain_metadata (chunk r) -> key ∈ field_keys ->
  add_metadata r !! key = base_metadata r !! key.
Proof.
  intros Hp Hk. rewrite add_metadata_lookup.
  unfold plain_metadata in Hp. rewrite Forall_forall in Hp.
  rewrite (Hp key Hk). reflexivity.
Qed.

End StoreFacts.

(** X1.  With a backend that answers its calls, [delete_by_file] reports
    success and removes exactly the records whose stored ["file_path"] is the
    given path: such a record is gone afterwards, every other record is still
    there, unchanged, and no record appears. *)
Theorem delete_by_file_removes_the_files_records (path : string)
    (c : gmap string VectorStore.StoredRecord) (i : string) :
  (VectorStore.delete_by_file path c).1 = true
  /\ (VectorStore.delete_by_file path c).2 !! i =
     match c !! i with
     | Some r =>
         match VectorStore.rec_metadata r !! "file_path" with
         | Some (VStr s) => if String.eqb s path then None else Some r
         | _ => Some r
         end
     | None => None
     end.
Proof.
  split.
  - unfold VectorStore.delete_by_file.
    destruct (VectorStore.collection_get_where _ c); reflexivity.
  - rewrite delete_by_file_lookup. destruct (c !! i) as [r|]; [|reflexivity].
    unfold VectorStore.matches_where.
    destruct (VectorStore.rec_metadata r !! "file_path") as [[| | | |s| | |]|];
      try reflexivity.
Qed.

(** X2.  Adding a chunk and then deleting its file gives back the collection
    as it was, provided no record of the collection is filed under that path
    and the chunk's metadata has no entry of its own that is stored under
    ["file_path"]. *)
Theorem delete_by_file_undoes_add `{Builtins} `{VectorStore.Backend}
    (r : EmbeddingResult) (c : gmap string VectorStore.StoredRecord) :
  map_Forall (fun _ r' =>
                VectorStore.matches_where (Some ("file_path", file_path (chunk r))) r' = false) c ->
  metadata (chunk r) !! "file_path" ≫= kept_value = None ->
  VectorStore.delete_by_file (file_path (chunk r)) (VectorStore.add_embeddings [r] c).2
  = (true, c).
Proof.
  intros Hnone Hplain.
  assert (Hflag : forall p c', (VectorStore.delete_by_file p c').1 = true).
  { intros p c'. unfold VectorStore.delete_by_file.
    destruct (VectorStore.collection_get_where _ c'); reflexivity. }
  rewrite (surjective_pairing (VectorStore.delete_by_file _ _)), Hflag. f_equal.
  apply map_eq. intros i. rewrite delete_by_file_lookup, add_embeddings_single.
  assert (Hkeep : forall j r', c !! j = Some r' ->
            (if VectorStore.matches_where (Some ("file_path", file_path (chunk r))) r'
             then None else Some r') = Some r').
  { intros j r' Hj. rewrite (Hnone j r' Hj). reflexivity. }
  destruct (VectorStore.takes c [VectorStore.add_row_of r]); cbn [snd];
    [|destruct (c !! i) as [r'|] eqn:Hi; [apply (Hkeep i); exact Hi | reflexivity]].
  unfold VectorStore.add_row, VectorStore.add_row_of. cbn [fst snd].
  destruct (c !! VectorStore._generate_chunk_id (chunk r)) as [old|] eqn:Hid.
  - destruct (c !! i) as [r'|] eqn:Hi; [apply (Hkeep i); exact Hi | reflexivity].
  - destruct (decide (i = VectorStore._generate_chunk_id (chunk r))) as [->|Hne].
    + rewrite lookup_insert_eq, Hid. unfold VectorStore.matches_where.
      cbn [VectorStore.rec_metadata].
      rewrite add_metadata_lookup, Hplain.
      destruct (base_metadata_fields r) as [-> _].
      rewrite String.eqb_refl. reflexivity.
    + rewrite lookup_insert_ne by congruence.
      destruct (c !! i) as [r'|] eqn:Hi; [apply (Hkeep i); exact Hi | reflexivity].
Qed.

Lemma delete_by_file_undoes_add_witness :
  VectorStore.delete_by_file (file_path (chunk Samples.add_v1))
    (@VectorStore.add_embeddings Samples.builtins SearchSamples.backend
       [Samples.add_v1] ∅).2
  = (true, ∅).
Proof.
  apply (@delete_by_file_undoes_add Samples.builtins SearchSamples.backend
           Samples.add_v1 ∅).
  - apply map_Forall_empty.
  - reflexivity.
Defined.

Section BatchFacts.
Context `{Builtins} `{VectorStore.Backend}.
Import VectorStore.

Lemma add_row_other (c : Collection) row i :
  i <> row.1 -> add_row c row !! i = c !! i.
Proof.
  intros Hne. unfold add_row. destruct (c !! row.1); [reflexivity|].
  apply lookup_insert_ne. congruence.
Qed.




Lemma update_embeddings_single r (c : Collection) :
  update_embeddings [r] c =
  match c !! _generate_chunk_id (chunk r) with
  | Some old =>
      if takes c [(_generate_chunk_id (chunk r), update_row_of r)]
      then (true, <[_generate_chunk_id (chunk r) :=
                      {| rec_embedding := embedding r;
                         rec_metadata := _prepare_metadata r ∪ rec_metadata old;
                         rec_document := str_prefix (content (chunk r)) 1000 |}]> c)
      else (false, c)
  | None => (true, (add_embeddings [r] c).2)
  end.
Proof.
  unfold update_embeddings. cbn [update_loop]. unfold collection_update, update_row_of.
  destruct (c !! _generate_chunk_id (chunk r)) as [old|] eqn:Hold; [|reflexivity].
  destruct (takes c _); reflexivity.
Qed.

Lemma update_embeddings_cons r rest (c : Collection) :
  update_embeddings (r :: rest) c =
  if (update_embeddings [r] c).1
  then update_embeddings rest (update_embeddings [r] c).2
  else (false, c).
Proof.
  unfold update_embeddings. cbn [update_loop].
  destruct (c !! _generate_chunk_id (chunk r)) as [old|]; [|reflexivity].
  destruct (collection_update _ _ c); reflexivity.
Qed.

Lemma update_embeddings_other results (c : Collection) i :
  i ∉ (fun r => _generate_chunk_id (chunk r)) <$> results ->
  (update_embeddings results c).2 !! i = c !! i.
Proof.
  revert c. induction results as [|r rest IH]; intros c Hout; [reflexivity|].
  rewrite fmap_cons in Hout. apply not_elem_of_cons in Hout as [Hne Hout].
  assert (Hone : (update_embeddings [r] c).2 !! i = c !! i).
  { rewrite update_embeddings_single.
    destruct (c !! _generate_chunk_id (chunk r)) as [old|] eqn:Hold.
    - destruct (takes c _); cbn [snd]; [|reflexivity].
      apply lookup_insert_ne. congruence.
    - cbn [snd]. rewrite add_embeddings_single.
      destruct (takes c _); cbn [snd]; [|reflexivity].
      apply add_row_other. exact Hne. }
  rewrite update_embeddings_cons.
  destruct ((update_embeddings [r] c).1); [|reflexivity].
  rewrite IH by exact Hout. exact Hone.
Qed.

Lemma _sanitize_metadata_value_scalar value :
  is_scalar (_sanitize_metadata_value value) = true.
Proof.
  destruct value; simpl; try reflexivity;
    repeat match goal with |- context [match ?x with _ => _ end] => destruct x end;
    reflexivity.
Qed.

End BatchFacts.


(** X4.  What [update_embeddings] does.  For one record whose id is
    present, the backend is asked to update it: if it takes the update (the
    vector is not empty, has the collection's dimension, and the backend has
    no objection of its own), the flag is [True] and the id holds the
    record's vector and document, and the stored metadata with the record's
    update metadata merged in key by key (a key of the update takes the
    update's value, every other stored key keeps its value); if it refuses,
    the flag is [False] and the collection is unchanged.  For one record
    whose id is absent, the record goes through [add_embeddings], whose flag
    is dropped: the flag is [True].  A batch is worked through record by
    record and stops at the first refused update, with the flag [False].  An
    id that no record of the batch has is untouched in every case. *)
Theorem update_embeddings_merges `{Builtins} `{VectorStore.Backend}
    (r : EmbeddingResult) (rest : list EmbeddingResult)
    (c : gmap string VectorStore.StoredRecord) :
  VectorStore.update_embeddings [r] c =
    match c !! VectorStore._generate_chunk_id (chunk r) with
    | Some old =>
        if VectorStore.takes c
             [(VectorStore._generate_chunk_id (chunk r), VectorStore.update_row_of r)]
        then (true,
              <[VectorStore._generate_chunk_id (chunk r) :=
                  {| VectorStore.rec_embedding := embedding r;
                     VectorStore.rec_metadata :=
                       VectorStore._prepare_metadata r ∪ VectorStore.rec_metadata old;
                     VectorStore.rec_document := str_prefix (content (chunk r)) 1000 |}]> c)
        else (false, c)
    | None => (true, (VectorStore.add_embeddings [r] c).2)
    end
  /\ (forall (old : VectorStore.StoredRecord) (key : string),
        (VectorStore._prepare_metadata r ∪ VectorStore.rec_metadata old) !! key
        = match VectorStore._prepare_metadata r !! key with
          | Some value => Some value
          | None => VectorStore.rec_metadata old !! key
          end)
  /\ VectorStore.update_embeddings (r :: rest) c =
       (if (VectorStore.update_embeddings [r] c).1
        then VectorStore.update_embeddings rest (VectorStore.update_embeddings [r] c).2
        else (false, c))
  /\ (forall i, i ∉ (fun r' => VectorStore._generate_chunk_id (chunk r')) <$> (r :: rest) ->
        (VectorStore.update_embeddings (r :: rest) c).2 !! i = c !! i).
Proof.
  split; [apply update_embeddings_single|].
  split; [|split; [apply update_embeddings_cons|apply update_embeddings_other]].
  intros old key. rewrite lookup_union.
  destruct (VectorStore._prepare_metadata r !! key) as [value|];
    destruct (VectorStore.rec_metadata old !! key); reflexivity.
Qed.

(** X5.  The metadata that [update_embeddings] stores: every pair of the
    chunk's metadata is kept, its value sanitized ([None] becomes ["null"],
    an empty list ["[]"]), and shadows the record's own field of that name;
    a key the chunk's metadata does not have holds the record's field.
    Every stored value is a string, a number or a boolean. *)
Theorem prepare_metadata_keeps_every_pair `{Builtins} (result : EmbeddingResult)
    (key : string) :
  VectorStore._prepare_metadata result !! key =
    match metadata (chunk result) !! key with
    | Some value => Some (VectorStore._sanitize_metadata_value value)
    | None => VectorStore.base_metadata result !! key
    end
  /\ map_Forall (fun _ v => is_scalar v = true) (VectorStore._prepare_metadata result).
Proof.
  assert (Hlookup : forall k,
            VectorStore._prepare_metadata result !! k =
            match metadata (chunk result) !! k with
            | Some value => Some (VectorStore._sanitize_metadata_value value)
            | None => VectorStore.base_metadata result !! k
            end).
  { unfold VectorStore._prepare_metadata.
    apply (map_fold_weak_ind
             (fun r (m : gmap string PyValue) =>
                forall k, r !! k = match m !! k with
                                   | Some value =>
                                       Some (VectorStore._sanitize_metadata_value value)
                                   | None => VectorStore.base_metadata result !! k
                                   end)).
    - intros k. rewrite lookup_empty. reflexivity.
    - intros j x m r Hj IH k. destruct (decide (j = k)) as [->|Hne].
      + rewrite !lookup_insert_eq. reflexivity.
      + rewrite !lookup_insert_ne by exact Hne. apply IH. }
  split; [apply Hlookup|].
  intros k v. rewrite Hlookup.
  destruct (metadata (chunk result) !! k) as [value|].
  - intros [= <-]. apply _sanitize_metadata_value_scalar.
  - apply base_metadata_scalar.
Qed.

Section RoundTripFacts.
Context `{Builtins} `{VectorStore.Backend}.
Import VectorStore.

Lemma parse_language l : parse_enum language_value all_languages (language_value l) = Some l.
Proof. destruct l; reflexivity. Qed.

Lemma parse_element_type t :
  parse_enum element_type_value all_element_types (element_type_value t) = Some t.
Proof. destruct t; reflexivity. Qed.

Lemma parse_chunk_type t :
  parse_enum chunk_type_value all_chunk_types (chunk_type_value t) = Some t.
Proof. destruct t; reflexivity. Qed.

Lemma field_key_elem key : bool_decide (key ∈ field_keys) = true -> key ∈ field_keys.
Proof. apply bool_decide_eq_true_1. Qed.

(** The stored fields of a record added from a chunk with plain metadata. *)
Lemma add_metadata_fields r :
  plain_metadata (chunk r) ->
  add_metadata r !! "file_path" = Some (VStr (file_path (chunk r)))
  /\ add_metadata r !! "start_line" = Some (VInt (start_line (chunk r)))
  /\ add_metadata r !! "end_line" = Some (VInt (end_line (chunk r)))
  /\ add_metadata r !! "element_name" = Some (VStr (str_or (element_name (chunk r)) ""))
  /\ add_metadata r !! "element_type"
     = Some (VStr (match element_type (chunk r) with
                   | Some t => element_type_value t
                   | None => ""
                   end))
  /\ add_metadata r !! "chunk_type" = Some (VStr (chunk_type_value (chunk_type (chunk r))))
  /\ add_metadata r !! "language" = Some (VStr (_get_language_value (language (chunk r)))).
Proof.
  intros Hp.
  rewrite !(add_metadata_plain r _ Hp) by (apply field_key_elem; reflexivity).
  apply base_metadata_fields.
Qed.

Lemma rebuild_added_chunk r l t i d :
  language (chunk r) = Some l ->
  element_type (chunk r) = Some t ->
  plain_metadata (chunk r) ->
  rebuild_chunk {| hit_id := i; hit_metadata := add_metadata r;
                   hit_document := add_document (chunk r); hit_distance := d |}
  = Ok {| content := add_document (chunk r);
          chunk_type := chunk_type (chunk r);
          language := Some l;
          file_path := file_path (chunk r);
          start_line := start_line (chunk r);
          end_line := end_line (chunk r);
          element_name := Some (str_or (element_name (chunk r)) "");
          element_type := Some t;
          metadata := add_metadata r |}.
Proof.
  intros Hl Ht Hp.
  destruct (add_metadata_fields r Hp) as (Hf & Hs & He & Hn & Het & Hct & Hlang).
  unfold rebuild_chunk, get_enum, get_int, get_opt_str. cbn [hit_metadata hit_document].
  rewrite Hf, Hs, He, Hn, Het, Hct, Hlang, Hl, Ht. cbn [_get_language_value].
  rewrite parse_language, parse_element_type, parse_chunk_type. reflexivity.
Qed.

Lemma get_enum_invalid {A} (value : A -> string) all optional md key default s :
  md !! key = Some (VStr s) -> parse_enum value all s = None ->
  get_enum value all optional md key default = Raise (ValidationError key).
Proof. intros Hk Hp. unfold get_enum. rewrite Hk, Hp. reflexivity. Qed.

Lemma rebuild_unlabelled_hit h :
  hit_metadata h !! "language" = Some (VStr "unknown")
  \/ hit_metadata h !! "element_type" = Some (VStr "") ->
  exists e, rebuild_chunk h = Raise e.
Proof.
  unfold rebuild_chunk.
  destruct (get_enum chunk_type_value _ _ _ _ _) as [ct|e]; [|eauto].
  cbn [mbind result_bind Py.bind].
  intros [Hl|Ht].
  - rewrite (get_enum_invalid language_value all_languages _ _ _ _ _ Hl eq_refl). eauto.
  - rewrite (get_enum_invalid element_type_value all_element_types _ _ _ _ _ Ht eq_refl).
    destruct (get_enum language_value _ _ _ _ _) as [lang|e]; [|eauto].
    cbn [Py.bind].
    destruct (match hit_metadata h !! "file_path" with
              | Some (VStr s) => Ok s | Some _ => _ | None => _ end) as [p|e]; [|eauto].
    cbn [Py.bind].
    destruct (get_int _ "start_line") as [sl|e]; [|eauto]. cbn [Py.bind].
    destruct (get_int _ "end_line") as [el|e]; [|eauto]. cbn [Py.bind].
    destruct (get_opt_str _ _) as [name|e]; eauto.
Qed.

Lemma sort_hits_Forall (P : Hit -> Prop) l : Forall P l -> Forall P (sort_hits l).
Proof.
  induction 1 as [|h l Hh Hl IH]; simpl; [constructor|].
  apply insert_hit_Forall; assumption.
Qed.

Lemma sort_hits_length l : length (sort_hits l) = length l.
Proof.
  induction l as [|h l IH]; simpl; [reflexivity|].
  rewrite insert_hit_length, IH. reflexivity.
Qed.

(** Every hit of a query is a record of the collection that matches the
    predicate. *)
Lemma collection_query_hits dist n w (c : Collection) hits :
  collection_query dist n w c = Ok hits ->
  Forall (fun h => exists r, c !! hit_id h = Some r
                             /\ matches_where w r = true
                             /\ hit_metadata h = rec_metadata r
                             /\ hit_document h = rec_document r
                             /\ hit_distance h = dist r) hits.
Proof.
  unfold collection_query. destruct (n <=? 0); [discriminate|].
  intros [= <-]. apply Forall_take, sort_hits_Forall.
  apply List.Forall_map, Forall_forall. intros [i r] Hin.
  apply list_elem_of_filter in Hin as [Hm Hin].
  apply elem_of_map_to_list in Hin. exists r. simpl. auto.
Qed.

Lemma collection_query_single dist n w i rec :
  0 < n ->
  collection_query dist n w (<[i := rec]> ∅) =
  Ok (if matches_where w rec
      then [{| hit_id := i; hit_metadata := rec_metadata rec;
               hit_document := rec_document rec; hit_distance := dist rec |}]
      else []).
Proof.
  intros Hn. unfold collection_query.
  rewrite (proj2 (Z.leb_gt n 0)) by exact Hn.
  rewrite insert_empty, map_to_list_singleton.
  destruct (matches_where w rec) eqn:Hm.
  - rewrite filter_cons_True by exact Hm. rewrite filter_nil. simpl.
    rewrite take_ge by (simpl; lia). reflexivity.
  - rewrite filter_cons_False by (simpl; congruence). rewrite filter_nil. simpl.
    rewrite take_nil. reflexivity.
Qed.

End RoundTripFacts.

Section SearchFailureFacts.
Context `{Builtins} `{VectorStore.Backend}.
Import VectorStore.

Lemma foldl_add_row_Forall (P : StoredRecord -> Prop) rows (c : Collection) :
  map_Forall (fun _ => P) c -> Forall (fun row => P row.2) rows ->
  map_Forall (fun _ => P) (foldl add_row c rows).
Proof.
  intros Hc Hrows. revert c Hc.
  induction Hrows as [|row rows Hrow Hrows IH]; intros c Hc; simpl; [exact Hc|].
  apply IH. unfold add_row. destruct (c !! row.1); [exact Hc|].
  apply map_Forall_insert_2; assumption.
Qed.

Lemma add_row_of_unlabelled r :
  plain_metadata (chunk r) ->
  language (chunk r) = None \/ element_type (chunk r) = None ->
  unlabelled (add_row_of r).2.
Proof.
  intros Hp Hnone.
  destruct (add_metadata_fields r Hp) as (_ & _ & _ & _ & Het & _ & Hlang).
  unfold unlabelled, add_row_of. cbn [snd rec_metadata].
  destruct Hnone as [Hl|Ht].
  - left. rewrite Hlang, Hl. reflexivity.
  - right. rewrite Het, Ht. reflexivity.
Qed.

Lemma search_fails_on_unlabelled cfg q (c : Collection) :
  0 < n_results cfg q ->
  (exists i rec, c !! i = Some rec /\ matches_where (where_clause q) rec = true) ->
  map_Forall (fun _ => unlabelled) c ->
  exists msg, search cfg q c = Raise (VectorStoreError ("Search failed: " +:+ msg)).
Proof.
  intros Hn (i & rec & Hi & Hm) Hall. unfold search.
  destruct (answers c (query_vector q)); [|simpl; eauto].
  destruct (collection_query (query_distance (collection_space cfg) q)
              (n_results cfg q) (where_clause q) c)
    as [hits|e] eqn:Hq; [|simpl; eauto].
  pose proof (collection_query_hits _ _ _ _ _ Hq) as Hhits.
  assert (Hlen : (1 <= length hits)%nat).
  { revert Hq. unfold collection_query.
    rewrite (proj2 (Z.leb_gt (n_results cfg q) 0)) by exact Hn.
    intros [= <-]. rewrite length_take, sort_hits_length, length_map.
    assert (Hin : (i, rec) ∈ filter (fun row => matches_where (where_clause q) row.2 = true)
                                    (map_to_list c)).
    { apply list_elem_of_filter. split; [exact Hm | apply elem_of_map_to_list; exact Hi]. }
    destruct (filter _ (map_to_list c)); [inversion Hin | simpl; lia]. }
  destruct hits as [|h hits]; [simpl in Hlen; lia|].
  apply Forall_cons in Hhits as [(r & Hr & _ & Hmd & _) _].
  destruct (rebuild_unlabelled_hit h) as [e He].
  { rewrite Hmd. exact (Hall _ _ Hr). }
  cbn [mbind result_bind Py.bind enumerate mapM]. unfold result_of_hit at 1.
  cbn [snd mbind result_bind]. rewrite He. simpl. eauto.
Qed.

(** The results that [search_similar_functions] builds from the hits. *)
Lemma function_results_of_hits k hits srs :
  mapM function_result_of_hit (enumerate k hits) = Ok srs ->
  Forall2 (fun h r => similarity_score r = (1 - hit_distance h)%Q
                      /\ metadata (sr_chunk r) = hit_metadata h
                      /\ content (sr_chunk r) = hit_document h
                      /\ element_type (sr_chunk r) = Some FUNCTION
                      /\ language (sr_chunk r) = None) hits srs
  /\ rank <$> srs = (fun i => k + Z.of_nat i) <$> seq 1 (length hits).
Proof.
  revert k srs. induction hits as [|h hits IH]; simpl; intros k srs Hm.
  - injection Hm as <-. split; [constructor | reflexivity].
  - unfold function_result_of_hit at 1 in Hm. cbn [fst snd] in Hm.
    destruct (rebuild_function_chunk h) as [ch|e] eqn:Hc; simpl in Hm; [|discriminate].
    destruct (mapM function_result_of_hit (enumerate (k + 1) hits)) as [rs|e] eqn:Hrs;
      simpl in Hm; [|discriminate].
    injection Hm as <-.
    destruct (IH _ _ Hrs) as [IH1 IH2].
    split.
    + constructor; [|exact IH1]. cbn [similarity_score sr_chunk].
      revert Hc. unfold rebuild_function_chunk.
      destruct (match hit_metadata h !! "file_path" with
                | Some (VStr s) => Ok s | Some _ => _ | None => _ end) as [p|e];
        [|discriminate]. cbn [mbind result_bind Py.bind].
      destruct (get_int _ "start_line") as [sl|e]; [|discriminate]. cbn [Py.bind].
      destruct (get_int _ "end_line") as [el|e]; [|discriminate]. cbn [Py.bind].
      destruct (get_opt_str _ _) as [name|e]; [|discriminate]. cbn [Py.bind].
      intros [= <-]. repeat split.
    + change (seq 1 (S (length hits))) with (1%nat :: seq 2 (length hits)).
      rewrite !fmap_cons, IH2. cbn [rank]. f_equal.
      rewrite <- (fmap_S_seq 1), <- list_fmap_compose.
      apply list_fmap_ext. intros _ i _. simpl. lia.
Qed.

End SearchFailureFacts.

(** X6.  A chunk that has a language and an element type, and whose metadata
    uses none of the store's field keys, is found again, once the backend
    has taken it: when [add_embeddings] reports success on the empty
    collection and the backend answers the query, a search over the
    collection that holds just this chunk, with a query whose predicate the
    record matches, returns exactly one result when the record's score
    reaches the threshold (none otherwise).  The result has rank 1 and the
    score of the record, and its chunk has the path, the line range, the
    chunk type, the language and the element type of the chunk that was
    added; its content is the stored document (the first 1000 characters),
    its metadata the stored metadata, and its element name is the empty
    string where the chunk had none. *)
Theorem search_returns_the_added_chunk `{Builtins} `{VectorStore.Backend}
    (cfg : VectorStore.VectorStoreConfig) (q : SearchQuery) (r : EmbeddingResult)
    (l : LanguageType) (t : CodeElementType) :
  language (chunk r) = Some l ->
  element_type (chunk r) = Some t ->
  plain_metadata (chunk r) ->
  (VectorStore.add_embeddings [r] ∅).1 = true ->
  VectorStore.answers (VectorStore.add_embeddings [r] ∅).2 (VectorStore.query_vector q)
  = true ->
  VectorStore.matches_where (VectorStore.where_clause q) (VectorStore.add_row_of r).2 = true ->
  0 < VectorStore.n_results cfg q ->
  VectorStore.search cfg q (VectorStore.add_embeddings [r] ∅).2 =
  Ok (if Qle_bool (similarity_threshold q)
                  (VectorStore.score_of_distance
                     (VectorStore.query_distance (VectorStore.collection_space cfg) q
                        (VectorStore.add_row_of r).2))
      then [{| sr_chunk :=
                 {| content := VectorStore.add_document (chunk r);
                    chunk_type := chunk_type (chunk r);
                    language := Some l;
                    file_path := file_path (chunk r);
                    start_line := start_line (chunk r);
                    end_line := end_line (chunk r);
                    element_name := Some (str_or (element_name (chunk r)) "");
                    element_type := Some t;
                    metadata := VectorStore.add_metadata r |};
               similarity_score :=
                 VectorStore.score_of_distance
                   (VectorStore.query_distance (VectorStore.collection_space cfg) q
                      (VectorStore.add_row_of r).2);
               rank := 1 |}]
      else []).
Proof.
  intros Hl Ht Hp Hadded Hanswers Hm Hn.
  revert Hadded Hanswers. rewrite add_embeddings_single.
  destruct (VectorStore.takes ∅ [VectorStore.add_row_of r]); [|discriminate].
  intros _. cbn [snd].
  unfold VectorStore.add_row. rewrite lookup_empty. intros Hanswers.
  unfold VectorStore.search. rewrite Hanswers.
  rewrite collection_query_single by exact Hn. rewrite Hm.
  cbn [mbind result_bind Py.bind enumerate mapM].
  unfold VectorStore.result_of_hit, VectorStore.add_row_of.
  cbn [fst snd VectorStore.rec_metadata VectorStore.rec_document mbind result_bind].
  rewrite (rebuild_added_chunk r l t _ _ Hl Ht Hp).
  cbn [mbind result_bind Py.bind VectorStore.hit_distance try_except].
  destruct (Qle_bool _ _) eqn:Hle.
  - rewrite filter_cons_True by exact Hle. reflexivity.
  - rewrite filter_cons_False by (cbn [similarity_score]; congruence). reflexivity.
Qed.

Lemma search_returns_the_added_chunk_witness :
  @VectorStore.search SearchSamples.backend VectorStore.default_config
    (SearchSamples.ask None [FUNCTION] 10 0)
    (@VectorStore.add_embeddings Samples.builtins SearchSamples.backend
       [Samples.add_v1] ∅).2
  = Ok [{| sr_chunk :=
             {| content := "def add(a, b): return a+b";
                chunk_type := CT_code;
                language := Some PYTHON;
                file_path := "calc.py";
                start_line := 1;
                end_line := 3;
                element_name := Some "add";
                element_type := Some FUNCTION;
                metadata := @VectorStore.add_metadata Samples.builtins Samples.add_v1 |};
           similarity_score := 1 - (2 # 20);
           rank := 1 |}].
Proof.
  apply (@search_returns_the_added_chunk Samples.builtins SearchSamples.backend
           VectorStore.default_config (SearchSamples.ask None [FUNCTION] 10 0)
           Samples.add_v1 PYTHON FUNCTION).
  - reflexivity.
  - reflexivity.
  - repeat constructor.
  - vm_compute. reflexivity.
  - reflexivity.
  - vm_compute. reflexivity.
  - reflexivity.
Defined.

(** X7.  A collection filled by [add_embeddings] with chunks that have no
    language or no element type (as every chunk of the sliding window, of a
    merge and of a semantic block has) cannot be searched: the store files
    ["unknown"] and [""] for the missing fields, neither of which the chunk
    model accepts when [search] rebuilds the chunk of a hit, so a query
    without filters raises [VectorStoreError] with a message that starts
    with ["Search failed: "]. *)
Theorem search_fails_on_unlabelled_chunks `{Builtins} `{VectorStore.Backend}
    (cfg : VectorStore.VectorStoreConfig) (q : SearchQuery)
    (results : list EmbeddingResult) :
  results <> [] ->
  Forall (fun r => plain_metadata (chunk r)
                   /\ (language (chunk r) = None \/ element_type (chunk r) = None)) results ->
  (VectorStore.add_embeddings results ∅).1 = true ->
  VectorStore.where_clause q = None ->
  0 < VectorStore.n_results cfg q ->
  exists msg,
    VectorStore.search cfg q (VectorStore.add_embeddings results ∅).2
    = Raise (VectorStoreError ("Search failed: " +:+ msg)).
Proof.
  intros Hne Hall Hflag Hw Hn.
  destruct results as [|r0 rs]; [congruence|].
  revert Hflag. unfold VectorStore.add_embeddings, VectorStore.collection_add.
  destruct (VectorStore.takes ∅ _); cbn [negb]; [|discriminate].
  destruct (bool_decide (NoDup _)); [|discriminate]. intros _. cbn [snd].
  apply search_fails_on_unlabelled; [exact Hn| |].
  - destruct (foldl_add_row_present (map VectorStore.add_row_of (r0 :: rs)) ∅
                (VectorStore.add_row_of r0)) as [rec Hrec]; [apply list_elem_of_here|].
    exists (VectorStore.add_row_of r0).1, rec. split; [exact Hrec|].
    rewrite Hw. reflexivity.
  - apply foldl_add_row_Forall; [apply map_Forall_empty|].
    apply List.Forall_map. eapply Forall_impl; [exact Hall|].
    intros r [Hp Hnone]. apply add_row_of_unlabelled; assumption.
Qed.

Lemma search_fails_on_unlabelled_chunks_witness :
  exists msg,
    @VectorStore.search SearchSamples.backend VectorStore.default_config
      (SearchSamples.ask None [] 10 0)
      (@VectorStore.add_embeddings Samples.builtins SearchSamples.backend
         [SearchSamples.text_window] ∅).2
    = Raise (VectorStoreError ("Search failed: " +:+ msg)).
Proof.
  apply (@search_fails_on_unlabelled_chunks Samples.builtins SearchSamples.backend
           VectorStore.default_config (SearchSamples.ask None [] 10 0)
           [SearchSamples.text_window]).
  - discriminate.
  - repeat constructor.
  - reflexivity.
  - reflexivity.
  - reflexivity.
Defined.

(** X8.  [search_similar_functions] never raises: on any failure it answers
    with the empty list.  Its results are at most [limit], ranked 1, 2, ...
    in the order of decreasing score, each scored [1 - distance]; each one
    is a stored record filed under the element type ["function"], and its
    chunk is given the element type [FUNCTION] and no language. *)
Theorem search_similar_functions_answers `{VectorStore.Backend}
    (cfg : VectorStore.VectorStoreConfig) (function_embedding : list float) (limit : Z)
    (c : gmap string VectorStore.StoredRecord) :
  exists rs,
    VectorStore.search_similar_functions cfg function_embedding limit c = Ok rs
    /\ (length rs <= Z.to_nat limit)%nat
    /\ rank <$> rs = Z.of_nat <$> seq 1 (length rs)
    /\ StronglySorted (fun a b => (similarity_score b <= similarity_score a)%Q) rs
    /\ Forall (fun r =>
                 element_type (sr_chunk r) = Some FUNCTION
                 /\ language (sr_chunk r) = None
                 /\ metadata (sr_chunk r) !! "element_type" = Some (VStr "function")
                 /\ exists i rec,
                      c !! i = Some rec
                      /\ metadata (sr_chunk r) = VectorStore.rec_metadata rec
                      /\ content (sr_chunk r) = VectorStore.rec_document rec
                      /\ similarity_score r
                         = (1 - VectorStore.vector_distance
                                  (VectorStore.collection_space cfg)
                                  function_embedding rec)%Q) rs.
Proof.
  assert (Hempty : exists rs : list SearchResult,
            Ok [] = Ok rs
            /\ (length rs <= Z.to_nat limit)%nat
            /\ rank <$> rs = Z.of_nat <$> seq 1 (length rs)
            /\ StronglySorted (fun a b => (similarity_score b <= similarity_score a)%Q) rs
            /\ Forall (fun r =>
                 element_type (sr_chunk r) = Some FUNCTION
                 /\ language (sr_chunk r) = None
                 /\ metadata (sr_chunk r) !! "element_type" = Some (VStr "function")
                 /\ exists i rec,
                      c !! i = Some rec
                      /\ metadata (sr_chunk r) = VectorStore.rec_metadata rec
                      /\ content (sr_chunk r) = VectorStore.rec_document rec
                      /\ similarity_score r
                         = (1 - VectorStore.vector_distance
                                  (VectorStore.collection_space cfg)
                                  function_embedding rec)%Q) rs).
  { exists []. repeat split; simpl; try lia; constructor. }
  unfold VectorStore.search_similar_functions.
  destruct (VectorStore.answers c (Some function_embedding)); [|exact Hempty].
  destruct (VectorStore.collection_query _ limit _ c) as [hits|e] eqn:Hq; [|exact Hempty].
  cbn [mbind result_bind Py.bind].
  destruct (mapM VectorStore.function_result_of_hit (enumerate 0 hits)) as [rs|e] eqn:Hm;
    [|exact Hempty].
  clear Hempty. exists rs. split; [reflexivity|].
  destruct (collection_query_Ok _ _ _ _ _ Hq) as [Hlen Hsorted].
  pose proof (collection_query_hits _ _ _ _ _ Hq) as Hhits.
  destruct (function_results_of_hits _ _ _ Hm) as [Hres Hranks].
  pose proof (Forall2_length _ _ _ Hres) as Hlen2.
  split; [lia|]. split; [|split].
  - rewrite Hranks, Hlen2. apply list_fmap_ext. intros _ i _. reflexivity.
  - eapply StronglySorted_Forall2; [|exact Hres|exact Hsorted].
    intros h1 h2 r1 r2 (-> & _) (-> & _) Hn. unfold nearer in Hn.
    unfold Qminus. apply Qplus_le_r, Qopp_le_compat. exact Hn.
  - clear Hranks Hlen Hlen2 Hsorted Hm Hq.
    induction Hres as [|h r hits rs (Hs & Hmd & Hdoc & Het & Hl) Hres IH];
      [constructor|].
    apply Forall_cons in Hhits as [(rec & Hrec & Hw & Hmd' & Hdoc' & Hd) Hhits].
    constructor; [|apply IH; exact Hhits].
    split; [exact Het|]. split; [exact Hl|]. split.
    + rewrite Hmd, Hmd'. revert Hw. unfold VectorStore.matches_where.
      destruct (VectorStore.rec_metadata rec !! "element_type") as [[| | | |s| | |]|];
        try discriminate.
      intros Heq. apply String.eqb_eq in Heq. rewrite Heq. reflexivity.
    + exists (VectorStore.hit_id h), rec.
      rewrite Hmd, Hdoc, Hs, Hd. auto.
Qed.

(* ================================================================== *)
(** * Further properties of the embedder *)
(* ================================================================== *)

Section CacheFacts.
Context `{Builtins}.
Import Embedder.

Lemma same_cache_fields_key self a b :
  same_cache_fields a b -> _get_cache_key self a = _get_cache_key self b.
Proof.
  intros (Hp & Hs & He & Hn & Hc). unfold _get_cache_key.
  rewrite Hp, Hs, He, Hn, Hc. reflexivity.
Qed.

(** A successful [try] block leaves the result in the cache, when caching is
    on, and the model name as it was. *)
Lemma embed_chunk_body_cached cfg svc self chunk r self' :
  cache_embeddings cfg = true ->
  embed_chunk_body cfg svc self chunk = (Ok r, self') ->
  _cache self' !! _get_cache_key self chunk = Some r
  /\ self_model_name self' = self_model_name self.
Proof.
  intros Hc. unfold embed_chunk_body. rewrite Hc.
  destruct (_cache self !! _get_cache_key self chunk) as [cached|] eqn:Hhit.
  - intros [= <- <-]. split; [exact Hhit | reflexivity].
  - destruct (_ ≫= _) as [embedding|e]; [|discriminate].
    intros [= <- <-]. split; [apply lookup_insert_eq | reflexivity].
Qed.

Lemma embed_chunk_Ok cfg svc self chunk r self' :
  embed_chunk cfg svc self chunk = (Ok r, self') ->
  embed_chunk_body cfg svc self chunk = (Ok r, self').
Proof.
  unfold embed_chunk.
  destruct (embed_chunk_body cfg svc self chunk) as [[r0|e] s0]; [tauto|].
  simpl. discriminate.
Qed.

End CacheFacts.

(** X9.  The cache of [embed_chunk].  With caching on, once a chunk has been
    embedded, embedding any chunk with the same file path, line range,
    element name and content returns the result of the first one, chunk
    included, whatever the service does by then and whatever else differs
    between the two chunks (language, element type, metadata); the embedder
    is left unchanged.  In particular embedding the same chunk twice calls
    the service once. *)
Theorem embed_chunk_answers_from_cache `{Builtins} (cfg : Embedder.EmbeddingConfig)
    (svc svc' : Embedder.ModelService) (self self' : Embedder.CodeEmbedder)
    (chunk chunk' : DocumentChunk) (r : EmbeddingResult) :
  Embedder.cache_embeddings cfg = true ->
  Embedder.embed_chunk cfg svc self chunk = (Ok r, self') ->
  same_cache_fields chunk' chunk ->
  Embedder.embed_chunk cfg svc' self' chunk' = (Ok r, self').
Proof.
  intros Hc Hfirst Hsame. apply embed_chunk_Ok in Hfirst.
  destruct (embed_chunk_body_cached _ _ _ _ _ _ Hc Hfirst) as [Hhit Hname].
  unfold Embedder.embed_chunk, Embedder.embed_chunk_body. rewrite Hc.
  replace (Embedder._get_cache_key self' chunk') with (Embedder._get_cache_key self chunk).
  - rewrite Hhit. reflexivity.
  - rewrite (same_cache_fields_key self' _ _ Hsame).
    unfold Embedder._get_cache_key. rewrite Hname. reflexivity.
Qed.

Lemma embed_chunk_answers_from_cache_witness :
  @Embedder.embed_chunk Samples.builtins EmbedSamples.unnormalized EmbedSamples.unavailable
    (@Embedder.embed_chunk Samples.builtins EmbedSamples.unnormalized EmbedSamples.constant
       EmbedSamples.fresh (chunk Samples.add_v1)).2
    EmbedSamples.add_v1_annotated
  = (Ok {| chunk := chunk Samples.add_v1; embedding := [1%float; 0%float];
           model_name := "models/text-embedding-004"; embedding_dimension := 2 |},
     (@Embedder.embed_chunk Samples.builtins EmbedSamples.unnormalized EmbedSamples.constant
        EmbedSamples.fresh (chunk Samples.add_v1)).2).
Proof.
  apply (@embed_chunk_answers_from_cache Samples.builtins EmbedSamples.unnormalized
           EmbedSamples.constant EmbedSamples.unavailable EmbedSamples.fresh _
           (chunk Samples.add_v1) EmbedSamples.add_v1_annotated).
  - reflexivity.
  - vm_compute. reflexivity.
  - repeat split.
Defined.

(** X10.  Starting from an embedder whose cache is sound (an empty cache
    is), a successful [embed_chunk] keeps the cache sound and returns a
    result that carries the embedder's model name, whose dimension is the
    length of its vector, and whose chunk has the cache key of the chunk
    that was asked for. *)
Theorem embed_chunk_keeps_cache_sound `{Builtins} (cfg : Embedder.EmbeddingConfig)
    (svc : Embedder.ModelService) (self self' : Embedder.CodeEmbedder)
    (chunk0 : DocumentChunk) (r : EmbeddingResult) :
  cache_sound self ->
  Embedder.embed_chunk cfg svc self chunk0 = (Ok r, self') ->
  cache_sound self'
  /\ well_formed self' r
  /\ Embedder._get_cache_key self' (chunk r) = Embedder._get_cache_key self' chunk0.
Proof.
  intros Hsound Hok. apply embed_chunk_Ok in Hok. revert Hok.
  unfold Embedder.embed_chunk_body.
  destruct (if Embedder.cache_embeddings cfg then _ else _) as [cached|] eqn:Hhit.
  - intros [= <- <-]. split; [exact Hsound|].
    destruct (Embedder.cache_embeddings cfg); [|discriminate].
    destruct (Hsound _ _ Hhit) as [Hwf Hkey]. split; [exact Hwf | congruence].
  - destruct (_ ≫= _) as [embedding|e]; [|discriminate].
    intros [= <- <-].
    assert (Hnew : well_formed self
                     {| chunk := chunk0; embedding := embedding;
                        model_name := Embedder.self_model_name self;
                        embedding_dimension := llen embedding |})
      by (split; reflexivity).
    destruct (Embedder.cache_embeddings cfg).
    + split; [|split; [exact Hnew | reflexivity]].
      unfold cache_sound. cbn [Embedder._cache Embedder.with_cache].
      apply map_Forall_insert_2; [split; [exact Hnew | reflexivity]|].
      exact Hsound.
    + split; [exact Hsound|]. split; [exact Hnew | reflexivity].
Qed.

Lemma embed_chunk_keeps_cache_sound_witness :
  @cache_sound Samples.builtins
    (@Embedder.embed_chunk Samples.builtins EmbedSamples.unnormalized EmbedSamples.constant
       EmbedSamples.fresh (chunk Samples.add_v1)).2
  /\ well_formed
       (@Embedder.embed_chunk Samples.builtins EmbedSamples.unnormalized EmbedSamples.constant
          EmbedSamples.fresh (chunk Samples.add_v1)).2
       {| chunk := chunk Samples.add_v1; embedding := [1%float; 0%float];
          model_name := "models/text-embedding-004"; embedding_dimension := 2 |}
  /\ @Embedder._get_cache_key Samples.builtins
       (@Embedder.embed_chunk Samples.builtins EmbedSamples.unnormalized EmbedSamples.constant
          EmbedSamples.fresh (chunk Samples.add_v1)).2
       (chunk Samples.add_v1)
     = @Embedder._get_cache_key Samples.builtins
         (@Embedder.embed_chunk Samples.builtins EmbedSamples.unnormalized
            EmbedSamples.constant EmbedSamples.fresh (chunk Samples.add_v1)).2
         (chunk Samples.add_v1).
Proof.
  apply (@embed_chunk_keeps_cache_sound Samples.builtins EmbedSamples.unnormalized
           EmbedSamples.constant EmbedSamples.fresh _ (chunk Samples.add_v1)
           {| chunk := chunk Samples.add_v1; embedding := [1%float; 0%float];
              model_name := "models/text-embedding-004"; embedding_dimension := 2 |}).
  - apply map_Forall_empty.
  - vm_compute. reflexivity.
Defined.

Section GoogleBatchFacts.
Context `{Builtins} {S : Type}.
Import Embedder.
Variables (cfg : EmbeddingConfig) (self : CodeEmbedder) (svc : RemoteService S).






(** With a service that answers every call, one attempt is enough. *)
Lemma google_loop_healthy batch acc st :
  0 < max_retries cfg ->
  (forall st text, exists v, (embed_content svc st text).1 = Ok v) ->
  Forall (fun c => exists text, _prepare_text_for_embedding cfg c = Ok text) batch ->
  exists rs, (google_loop cfg self svc acc st batch).1 = Ok (acc ++ rs)
             /\ chunk <$> rs = batch.
Proof.
  intros Hpos Hsvc Hall. revert acc st.
  induction Hall as [|c batch [text Htext] Hall IH]; intros acc st; cbn [google_loop].
  - exists []. rewrite app_nil_r. split; reflexivity.
  - destruct (Z.to_nat (max_retries cfg)) as [|n] eqn:Hn; [lia|].
    cbn [google_retry]. unfold google_attempt. rewrite Htext.
    destruct (Hsvc st text) as [v Hv]. rewrite Hv. cbn [fst snd].
    match goal with
    | |- context [google_loop cfg self svc (acc ++ [?r]) ?st' batch] =>
        destruct (IH (acc ++ [r]) st') as (rs & Heq & Hchunks);
        exists (r :: rs)
    end.
    rewrite Heq, <- app_assoc. split; [reflexivity|].
    rewrite fmap_cons, Hchunks. reflexivity.
Qed.

End GoogleBatchFacts.


(** X12.  With at least one attempt allowed, a service that answers every
    call, and chunks whose text can be prepared, [_process_google_batch]
    returns exactly one result per chunk of the batch, in order. *)
Theorem google_batch_healthy_service `{Builtins} {S : Type} (cfg : Embedder.EmbeddingConfig)
    (self : Embedder.CodeEmbedder) (svc : Embedder.RemoteService S) (st : S)
    (batch : list DocumentChunk) :
  0 < Embedder.max_retries cfg ->
  (forall st text, exists v, (Embedder.embed_content svc st text).1 = Ok v) ->
  Forall (fun c => exists text, Embedder._prepare_text_for_embedding cfg c = Ok text) batch ->
  exists results,
    (Embedder._process_google_batch cfg self svc st batch).1 = Ok results
    /\ chunk <$> results = batch.
Proof.
  intros Hpos Hsvc Hall. unfold Embedder._process_google_batch.
  exact (google_loop_healthy cfg self svc batch [] st Hpos Hsvc Hall).
Qed.

Lemma google_batch_healthy_service_witness :
  exists results,
    (@Embedder._process_google_batch Samples.builtins nat EmbedSamples.unnormalized
       EmbedSamples.fresh EmbedSamples.counting 0%nat
       [chunk Samples.add_v1; EmbedSamples.add_v1_annotated]).1 = Ok results
    /\ chunk <$> results = [chunk Samples.add_v1; EmbedSamples.add_v1_annotated].
Proof.
  apply (@google_batch_healthy_service Samples.builtins nat EmbedSamples.unnormalized
           EmbedSamples.fresh EmbedSamples.counting 0%nat
           [chunk Samples.add_v1; EmbedSamples.add_v1_annotated]).
  - reflexivity.
  - intros st text. eexists. reflexivity.
  - constructor; [eexists; vm_compute; reflexivity|].
    constructor; [eexists; vm_compute; reflexivity|]. constructor.
Defined.

Section TextFacts.

Lemma length_append (a b : string) :
  String.length (a +:+ b) = (String.length a + String.length b)%nat.
Proof. induction a as [|c a IH]; simpl; [reflexivity | rewrite IH; reflexivity]. Qed.

Lemma length_string_of_list_ascii (l : list ascii) :
  String.length (string_of_list_ascii l) = length l.
Proof. induction l as [|c l IH]; simpl; [reflexivity | rewrite IH; reflexivity]. Qed.

Lemma length_list_ascii_of_string (s : string) :
  length (list_ascii_of_string s) = String.length s.
Proof. induction s as [|c s IH]; simpl; [reflexivity | rewrite IH; reflexivity]. Qed.

Lemma len_str_prefix (s : string) (hi : Z) :
  0 <= hi -> len (str_prefix s hi) = Z.min hi (len s).
Proof.
  intros Hhi. unfold str_prefix, len, slice, slice_bound, llen.
  rewrite length_string_of_list_ascii, length_take, length_drop,
    length_list_ascii_of_string.
  rewrite (proj2 (Z.ltb_ge 0 0)) by lia.
  rewrite (proj2 (Z.ltb_ge hi 0)) by lia.
  lia.
Qed.

End TextFacts.

(** X13.  The text prepared for embedding is bounded: with a context window
    that is not negative, a text that is returned has at most
    [context_window * 4 + 3] characters (the limit of four characters per
    token, plus the three dots that mark a truncation). *)
Theorem prepared_text_is_bounded `{Builtins} (cfg : Embedder.EmbeddingConfig)
    (chunk0 : DocumentChunk) (text : string) :
  0 <= Embedder.context_window cfg ->
  Embedder._prepare_text_for_embedding cfg chunk0 = Ok text ->
  len text <= Embedder.context_window cfg * 4 + 3.
Proof.
  intros Hcw. unfold Embedder._prepare_text_for_embedding.
  destruct (if Embedder.include_metadata cfg && _ then _ else _) as [parts|e];
    [|discriminate].
  cbn [mbind result_bind Py.bind].
  match goal with
  | |- context [len ?full >? _] => generalize full
  end.
  intros full [= <-].
  destruct (len full >? Embedder.context_window cfg * 4) eqn:Hlong.
  - unfold len at 1. rewrite length_append, Nat2Z.inj_add.
    change (Z.of_nat (String.length (str_prefix full (Embedder.context_window cfg * 4))))
      with (len (str_prefix full (Embedder.context_window cfg * 4))).
    rewrite len_str_prefix by lia. simpl String.length. lia.
  - rewrite Z.gtb_ltb in Hlong. apply Z.ltb_ge in Hlong. lia.
Qed.

Lemma prepared_text_is_bounded_witness :
  len (join nl ["Language: python"; "Type: function"; "Name: add"; "Code:";
                "def add(a, b): return a+b"])
  <= Embedder.context_window Embedder.default_config * 4 + 3.
Proof.
  apply (@prepared_text_is_bounded Samples.builtins Embedder.default_config
           (chunk Samples.add_v1)).
  - vm_compute. discriminate.
  - vm_compute. reflexivity.
Defined.

(* ================================================================== *)
(** * Further properties of the chunker *)
(* ================================================================== *)

Section WindowFacts.
Import Chunker.
Variables (cfg : ChunkingConfig) (path : string).

Lemma split_lines_nonempty s : split_lines s <> [].
Proof.
  destruct s as [|c s]; simpl; [discriminate|].
  destruct (Ascii.eqb c newline); [discriminate|].
  destruct (split_lines s); discriminate.
Qed.

Lemma llen_cons {A} (x : A) (xs : list A) : llen (x :: xs) = 1 + llen xs.
Proof. unfold llen. simpl length. lia. Qed.

Lemma llen_nonneg {A} (l : list A) : 0 <= llen l.
Proof. unfold llen. lia. Qed.

Lemma overlap_kept_nonempty (l : list string) (o : Z) :
  l <> [] -> 1 <= o -> slice_from l (- o) <> [].
Proof.
  intros Hl Ho Hnil. apply (f_equal length) in Hnil. revert Hnil.
  unfold slice_from, slice_bound, llen. rewrite length_drop.
  rewrite (proj2 (Z.ltb_lt (- o) 0)) by lia.
  destruct l as [|x l]; [congruence|]. simpl length. lia.
Qed.

Lemma window_step_invariant i w line :
  0 <= i -> window_invariant path i w ->
  window_invariant path (i + 1) (window_step cfg path w (i + 1, line)).
Proof.
  intros Hi (Hstart & Hcur & Hchunks & Hcov). unfold window_step. cbn [fst snd].
  destruct (_ >=? _).
  - unfold window_invariant. cbn [chunks current_chunk chunk_start_line].
    split; [lia|]. split; [|split].
    + intros _. apply overlap_kept_nonempty; [|lia].
      destruct (current_chunk w); discriminate.
    + apply Forall_app. split.
      * eapply Forall_impl; [exact Hchunks|]. intros c [Hc Hp]. split; [lia | exact Hp].
      * constructor; [|constructor]. cbn [window_chunk start_line end_line file_path].
        split; [lia | reflexivity].
    + intros k Hk. apply Exists_app.
      destruct (Z_lt_le_dec k (chunk_start_line w)) as [Hlt|Hge].
      * left. apply Hcov. lia.
      * right. constructor. unfold covers. cbn [window_chunk start_line end_line]. lia.
  - unfold window_invariant. cbn [chunks current_chunk chunk_start_line].
    split; [lia|]. split; [|split].
    + intros _. destruct (current_chunk w); discriminate.
    + eapply Forall_impl; [exact Hchunks|]. intros c [Hc Hp]. split; [lia | exact Hp].
    + exact Hcov.
Qed.

Lemma window_fold_invariant lines i w :
  0 <= i -> window_invariant path i w ->
  window_invariant path (i + llen lines)
    (foldl (window_step cfg path) w (enumerate (i + 1) lines)).
Proof.
  revert i w. induction lines as [|line lines IH]; intros i w Hi Hinv.
  - unfold llen. simpl. rewrite Z.add_0_r. exact Hinv.
  - cbn [enumerate foldl]. rewrite llen_cons.
    replace (i + (1 + llen lines)) with ((i + 1) + llen lines) by lia.
    apply IH; [lia|]. apply window_step_invariant; assumption.
Qed.

End WindowFacts.

Lemma _sliding_window_chunking_invariant (cfg : Chunker.ChunkingConfig)
    (content0 path : string) :
  Chunker._sliding_window_chunking cfg content0 path <> []
  /\ Forall (fun c => start_line c <= end_line c <= llen (split_lines content0)
                      /\ file_path c = path)
            (Chunker._sliding_window_chunking cfg content0 path)
  /\ end_line <$> last (Chunker._sliding_window_chunking cfg content0 path)
     = Some (llen (split_lines content0))
  /\ (forall k, 1 <= k <= llen (split_lines content0) ->
        Exists (covers k) (Chunker._sliding_window_chunking cfg content0 path)).
Proof.
  unfold Chunker._sliding_window_chunking.
  assert (Hinit : window_invariant path 0
                    {| Chunker.chunks := []; Chunker.current_chunk := [];
                       Chunker.current_size := 0; Chunker.chunk_start_line := 1 |}).
  { unfold window_invariant. cbn. split; [lia|]. split; [lia|].
    split; [constructor|]. intros k Hk. lia. }
  pose proof (window_fold_invariant cfg path (split_lines content0) 0 _ (Z.le_refl 0) Hinit)
    as (Hstart & Hcur & Hchunks & Hcov).
  cbn [Z.add] in Hstart, Hcur, Hchunks, Hcov.
  change (0 + 1) with 1 in *.
  set (w := foldl (Chunker.window_step cfg path) _ (enumerate 1 (split_lines content0))) in *.
  assert (Hn : 1 <= llen (split_lines content0)).
  { pose proof (split_lines_nonempty content0) as Hne.
    destruct (split_lines content0); [congruence|]. rewrite llen_cons.
    pose proof (llen_nonneg l). lia. }
  specialize (Hcur Hn).
  destruct (Chunker.current_chunk w) as [|x xs] eqn:Hw; [congruence|].
  split; [|split; [|split]].
  - intros Hnil. apply app_eq_nil in Hnil as [_ Hnil]. discriminate.
  - apply Forall_app. split; [exact Hchunks|].
    constructor; [|constructor]. cbn [Chunker.window_chunk start_line end_line file_path].
    split; [lia | reflexivity].
  - rewrite last_snoc. reflexivity.
  - intros k Hk. apply Exists_app.
    destruct (Z_lt_le_dec k (Chunker.chunk_start_line w)) as [Hlt|Hge].
    + left. apply Hcov. lia.
    + right. constructor. unfold covers.
      cbn [Chunker.window_chunk start_line end_line]. lia.
Qed.

(** X14.  The sliding window, for every configuration and every content:
    it returns at least one chunk (also for an empty file); every chunk
    belongs to the file and has a line range that is not inverted and ends
    within the file; the last chunk ends at the last line; and every line
    of the file lies in the line range of some chunk. *)
Theorem sliding_window_covers_every_line (cfg : Chunker.ChunkingConfig)
    (content0 path : string) :
  Chunker._sliding_window_chunking cfg content0 path <> []
  /\ Forall (fun c => start_line c <= end_line c <= llen (split_lines content0)
                      /\ file_path c = path)
            (Chunker._sliding_window_chunking cfg content0 path)
  /\ end_line <$> last (Chunker._sliding_window_chunking cfg content0 path)
     = Some (llen (split_lines content0))
  /\ (forall k, 1 <= k <= llen (split_lines content0) ->
        Exists (covers k) (Chunker._sliding_window_chunking cfg content0 path)).
Proof. apply _sliding_window_chunking_invariant. Qed.

Section SmallFileFacts.
Import Chunker.

Lemma len_nonneg s : 0 <= len s.
Proof. unfold len. lia. Qed.

Lemma lines_size_nonneg ls : 0 <= lines_size ls.
Proof.
  induction ls as [|l ls IH]; simpl; [lia|]. pose proof (len_nonneg l). lia.
Qed.

Lemma len_String c s : len (String c s) = 1 + len s.
Proof. unfold len. simpl String.length. lia. Qed.

(** The sizes the window adds up over a whole file: its length plus one. *)
Lemma lines_size_split_lines s : lines_size (split_lines s) = len s + 1.
Proof.
  induction s as [|c s IH]; [reflexivity|].
  rewrite len_String. cbn [split_lines].
  destruct (Ascii.eqb c newline).
  - cbn [lines_size foldr]. fold (lines_size (split_lines s)). rewrite IH.
    change (len "") with 0. lia.
  - destruct (split_lines s) as [|l ls].
    + simpl in IH. pose proof (len_nonneg s). lia.
    + cbn [lines_size foldr] in *. rewrite len_String. lia.
Qed.

Lemma llen_split_lines s : llen (split_lines s) = count_newlines s + 1.
Proof.
  induction s as [|c s IH]; [reflexivity|].
  cbn [split_lines count_newlines].
  destruct (Ascii.eqb c newline).
  - rewrite llen_cons, IH. lia.
  - destruct (split_lines s) as [|l ls] eqn:Hs.
    + pose proof (split_lines_nonempty s). congruence.
    + rewrite llen_cons in *. lia.
Qed.

(** Splitting into lines and joining again gives the text back. *)
Lemma join_split_lines s : join nl (split_lines s) = s.
Proof.
  unfold join. induction s as [|c s IH]; [reflexivity|].
  cbn [split_lines].
  destruct (Ascii.eqb c newline) eqn:Hc.
  - apply Ascii.eqb_eq in Hc. subst c.
    destruct (split_lines s) as [|l ls] eqn:Hs.
    + pose proof (split_lines_nonempty s). congruence.
    + rewrite <- IH. reflexivity.
  - destruct (split_lines s) as [|l ls] eqn:Hs.
    + pose proof (split_lines_nonempty s). congruence.
    + rewrite <- IH. destruct ls; reflexivity.
Qed.

(** While the size stays below the limit the window only grows. *)
Lemma window_fold_grows cfg path lines i w :
  current_size w + lines_size lines < max_chunk_size cfg ->
  foldl (window_step cfg path) w (enumerate i lines)
  = {| chunks := chunks w;
       current_chunk := current_chunk w ++ lines;
       current_size := current_size w + lines_size lines;
       chunk_start_line := chunk_start_line w |}.
Proof.
  revert i w. induction lines as [|line lines IH]; intros i w Hsize.
  - cbn [enumerate foldl lines_size foldr]. rewrite app_nil_r, Z.add_0_r.
    destruct w; reflexivity.
  - cbn [enumerate foldl]. cbn [lines_size foldr] in Hsize.
    fold (lines_size lines) in Hsize.
    pose proof (lines_size_nonneg lines) as Hrest.
    unfold window_step at 2. cbn [fst snd].
    destruct (_ >=? _) eqn:Hge.
    + rewrite Z.geb_leb in Hge. apply Z.leb_le in Hge. lia.
    + rewrite IH; cbn [chunks current_chunk current_size chunk_start_line].
      * rewrite <- app_assoc. cbn [lines_size foldr]. fold (lines_size lines).
        f_equal. lia.
      * lia.
Qed.

End SmallFileFacts.

(** X15.  A file shorter than the chunk limit is one chunk: when the
    content has fewer than [max_chunk_size - 1] characters, the sliding
    window returns a single chunk that holds the whole content and runs from
    line 1 to the last line (the number of newlines plus one). *)
Theorem sliding_window_small_file (cfg : Chunker.ChunkingConfig) (content0 path : string) :
  len content0 + 1 < Chunker.max_chunk_size cfg ->
  exists c,
    Chunker._sliding_window_chunking cfg content0 path = [c]
    /\ content c = content0
    /\ file_path c = path
    /\ start_line c = 1
    /\ end_line c = count_newlines content0 + 1.
Proof.
  intros Hsmall. unfold Chunker._sliding_window_chunking.
  rewrite window_fold_grows
    by (cbn [Chunker.current_size]; rewrite lines_size_split_lines; lia).
  cbn [Chunker.chunks Chunker.current_chunk Chunker.chunk_start_line app].
  pose proof (split_lines_nonempty content0) as Hne.
  destruct (split_lines content0) as [|l ls] eqn:Hs; [congruence|].
  eexists. split; [reflexivity|].
  cbn [Chunker.window_chunk content file_path start_line end_line].
  rewrite <- Hs, join_split_lines, llen_split_lines. auto.
Qed.

Lemma sliding_window_small_file_witness :
  exists c,
    Chunker._sliding_window_chunking Chunker.default_config ChunkSamples.calc_py "calc.py" = [c]
    /\ content c = ChunkSamples.calc_py
    /\ file_path c = "calc.py"
    /\ start_line c = 1
    /\ end_line c = count_newlines ChunkSamples.calc_py + 1.
Proof.
  apply (sliding_window_small_file Chunker.default_config ChunkSamples.calc_py "calc.py").
  vm_compute. reflexivity.
Defined.

Section RegroupFacts.
Context `{Builtins}.
Import Chunker.
Variable cfg : ChunkingConfig.

Lemma min_of_le_first x xs : min_of x xs <= x.
Proof.
  unfold min_of. revert x. induction xs as [|z xs IH]; intros x; cbn [foldl]; [lia|].
  etransitivity; [apply IH | lia].
Qed.

Lemma min_of_le x xs y : y ∈ x :: xs -> min_of x xs <= y.
Proof.
  intros Hy. apply elem_of_cons in Hy as [->|Hy]; [apply min_of_le_first|].
  unfold min_of. revert x. induction xs as [|z xs IH]; intros x; [inversion Hy|].
  cbn [foldl]. apply elem_of_cons in Hy as [->|Hy].
  - etransitivity; [apply min_of_le_first | lia].
  - apply IH, Hy.
Qed.

Lemma max_of_ge_first x xs : x <= max_of x xs.
Proof.
  unfold max_of. revert x. induction xs as [|z xs IH]; intros x; cbn [foldl]; [lia|].
  etransitivity; [|apply IH]. lia.
Qed.

Lemma max_of_ge x xs y : y ∈ x :: xs -> y <= max_of x xs.
Proof.
  intros Hy. apply elem_of_cons in Hy as [->|Hy]; [apply max_of_ge_first|].
  unfold max_of. revert x. induction xs as [|z xs IH]; intros x; [inversion Hy|].
  cbn [foldl]. apply elem_of_cons in Hy as [->|Hy].
  - etransitivity; [|apply max_of_ge_first]. lia.
  - apply IH, Hy.
Qed.

Lemma flush_group_regroups merged group :
  Forall (fun x => is_small cfg x = true) group ->
  exists out groups,
    flush_group merged group = Ok (merged ++ out)
    /\ concat groups = group
    /\ Forall2 (merged_from cfg) groups out.
Proof.
  intros Hsmall. destruct group as [|a [|b g]].
  - exists [], []. simpl. rewrite app_nil_r. repeat split; constructor.
  - exists [a], [[a]]. simpl. repeat split.
    constructor; [left; reflexivity | constructor].
  - destruct (_create_merged_chunk (a :: b :: g)) as [m|e] eqn:Hm; [|discriminate].
    exists [m], [a :: b :: g]. cbn [flush_group]. rewrite Hm. simpl.
    rewrite app_nil_r. repeat split.
    constructor; [|constructor]. right. repeat split; [simpl; lia | exact Hsmall | exact Hm].
Qed.

Lemma merge_loop_regroups chunks merged group :
  Forall (fun x => is_small cfg x = true) group ->
  exists out groups,
    merge_loop cfg chunks merged group = Ok (merged ++ out)
    /\ concat groups = group ++ chunks
    /\ Forall2 (merged_from cfg) groups out.
Proof.
  revert merged group. induction chunks as [|x xs IH]; intros merged group Hsmall.
  - cbn [merge_loop]. rewrite app_nil_r. apply flush_group_regroups. exact Hsmall.
  - cbn [merge_loop]. destruct (is_small cfg x) eqn:Hx.
    + destruct (IH merged (group ++ [x])) as (out & groups & Heq & Hcat & Hall).
      { apply Forall_app. split; [exact Hsmall | constructor; [exact Hx | constructor]]. }
      exists out, groups. rewrite <- app_assoc in Hcat. auto.
    + destruct (flush_group_regroups merged group Hsmall) as (f & gf & Hf & Hcf & Hallf).
      rewrite Hf. cbn [mbind result_bind Py.bind].
      destruct (IH ((merged ++ f) ++ [x]) []) as (out & groups & Heq & Hcat & Hall);
        [constructor|].
      exists (f ++ [x] ++ out), (gf ++ [[x]] ++ groups).
      rewrite Heq. split; [rewrite <- !app_assoc; reflexivity|]. split.
      * rewrite !concat_app, Hcf, Hcat. reflexivity.
      * apply Forall2_app; [exact Hallf|].
        apply Forall2_app; [|exact Hall].
        constructor; [left; reflexivity | constructor].
Qed.

Lemma merged_from_within group o c :
  merged_from cfg group o -> c ∈ group -> within c o.
Proof.
  intros [->|(_ & _ & Hm)] Hc.
  - apply list_elem_of_singleton in Hc as ->. unfold within. lia.
  - destruct group as [|c0 cs]; [discriminate|]. cbn [_create_merged_chunk] in Hm.
    injection Hm as <-. unfold within. cbn [start_line end_line].
    split.
    + apply min_of_le. rewrite <- fmap_cons. apply (list_elem_of_fmap_2 start_line). exact Hc.
    + apply max_of_ge. rewrite <- fmap_cons. apply (list_elem_of_fmap_2 end_line). exact Hc.
Qed.

End RegroupFacts.

(** X16.  Merging loses no chunk and keeps the order: the merged list is the
    list that was handed in, cut into groups of consecutive chunks, with one
    chunk per group.  A group is either a single chunk, which is kept as it
    is, or a run of two or more small chunks, which is replaced by their
    merge.  Hence the merged list is no longer than the list handed in, and
    the line range of every chunk handed in lies within the line range of a
    chunk of the merged list. *)
Theorem merge_small_chunks_regroups `{Builtins} (cfg : Chunker.ChunkingConfig)
    (chunks : list DocumentChunk) :
  exists out groups,
    Chunker._merge_small_chunks cfg chunks = Ok out
    /\ concat groups = chunks
    /\ Forall2 (merged_from cfg) groups out
    /\ (length out <= length chunks)%nat
    /\ Forall (fun c => Exists (within c) out) chunks.
Proof.
  destruct (merge_loop_regroups cfg chunks [] []) as (out & groups & Heq & Hcat & Hall);
    [constructor|].
  exists out, groups. split; [exact Heq|]. split; [exact Hcat|]. split; [exact Hall|].
  cbn [app] in Hcat. subst chunks. clear Heq.
  induction Hall as [|g o groups out Hgo Hall [IHlen IHin]].
  - split; [reflexivity | constructor].
  - cbn [concat]. split.
    + rewrite length_app. cbn [length].
      assert (1 <= length g)%nat; [|lia].
      destruct Hgo as [->|(Hlen & _)]; simpl; lia.
    + apply Forall_app. split.
      * apply Forall_forall. intros c Hc. apply Exists_cons_hd.
        eapply merged_from_within; eassumption.
      * eapply Forall_impl; [exact IHin|]. intros c Hc. apply Exists_cons_tl. exact Hc.
Qed.

Section GroupFacts.
Import Chunker.
Variable pool : list CodeElement.

(** The inner loop: the group grows by elements whose names are new. *)
Lemma related_fold_invariant element others (used0 : gset string)
    (st : list CodeElement * gset string) :
  Forall (fun x => x ∈ pool) others ->
  st.1 <> [] /\ NoDup (ce_name <$> st.1)
  /\ Forall (fun x => (ce_name x ∉ used0) /\ ce_name x ∈ st.2 /\ x ∈ pool) st.1
  /\ used0 ⊆ st.2 ->
  let st' := foldl (related_step element) st others in
  st'.1 <> [] /\ NoDup (ce_name <$> st'.1)
  /\ Forall (fun x => (ce_name x ∉ used0) /\ ce_name x ∈ st'.2 /\ x ∈ pool) st'.1
  /\ used0 ⊆ st'.2.
Proof.
  intros Hpool. revert st.
  induction Hpool as [|other others Hother Hpool IH]; intros st Hst; [exact Hst|].
  cbn [foldl]. apply IH. clear IH.
  destruct Hst as (Hne & Hnd & Hall & Hsub). unfold related_step.
  destruct (bool_decide (ce_name other ∈ st.2)) eqn:Hused; [auto|].
  apply bool_decide_eq_false_1 in Hused.
  destruct (_are_semantically_related element other); [|auto].
  cbn [fst snd]. split; [|split; [|split]].
  - destruct st.1; discriminate.
  - rewrite fmap_app. apply NoDup_app. split; [exact Hnd|]. split.
    + intros name Hin Hin'. apply list_elem_of_singleton in Hin'. subst name.
      apply list_elem_of_fmap in Hin as (x & Heq & Hx).
      rewrite Forall_forall in Hall. destruct (Hall x Hx) as (_ & Hu & _).
      rewrite <- Heq in Hu. contradiction.
    + apply NoDup_singleton.
  - apply Forall_app. split.
    + eapply Forall_impl; [exact Hall|]. intros x (H1 & H2 & H3).
      split; [exact H1|]. split; [set_solver | exact H3].
    + constructor; [|constructor]. split; [set_solver|]. split; [set_solver | exact Hother].
  - set_solver.
Qed.

(** The outer loop: no name occurs twice in the groups built so far. *)
Lemma group_fold_invariant elements (st : list (list CodeElement) * gset string) :
  Forall (fun x => x ∈ pool) elements ->
  Forall (fun g => g <> []) st.1 /\ NoDup (ce_name <$> concat st.1)
  /\ Forall (fun x => ce_name x ∈ st.2 /\ x ∈ pool) (concat st.1) ->
  let st' := foldl (group_step pool) st elements in
  Forall (fun g => g <> []) st'.1 /\ NoDup (ce_name <$> concat st'.1)
  /\ Forall (fun x => ce_name x ∈ st'.2 /\ x ∈ pool) (concat st'.1).
Proof.
  intros Hpool. revert st.
  induction Hpool as [|element elements Helement Hpool IH]; intros st Hst; [exact Hst|].
  cbn [foldl]. apply IH. clear IH.
  destruct Hst as (Hne & Hnd & Hall). unfold group_step.
  destruct (bool_decide (ce_name element ∈ st.2)) eqn:Hused; [auto|].
  apply bool_decide_eq_false_1 in Hused.
  destruct (related_fold_invariant element pool st.2
              ([element], {[ce_name element]} ∪ st.2))
    as (Hg & Hgnd & Hgall & Hgsub).
  { apply Forall_forall. auto. }
  { cbn [fst snd]. split; [discriminate|]. split; [apply NoDup_singleton|].
    split; [|set_solver].
    constructor; [|constructor]. split; [exact Hused|]. split; [set_solver | exact Helement]. }
  set (inner := foldl (related_step element) _ pool) in *.
  assert (Hkeep : Forall (fun x => ce_name x ∈ inner.2 /\ x ∈ pool) (concat st.1)).
  { eapply Forall_impl; [exact Hall|]. intros x [H1 H2]. split; [set_solver | exact H2]. }
  destruct (_ || _); cbn [fst snd]; [|auto].
  split; [|split].
  - apply Forall_app. split; [exact Hne | constructor; [exact Hg | constructor]].
  - rewrite concat_app, fmap_app. cbn [concat]. rewrite app_nil_r.
    apply NoDup_app. split; [exact Hnd|]. split; [|exact Hgnd].
    intros name Hin Hin'.
    apply list_elem_of_fmap in Hin as (x & -> & Hx).
    apply list_elem_of_fmap in Hin' as (y & Heq & Hy).
    rewrite Forall_forall in Hall, Hgall.
    destruct (Hall x Hx) as [Hxu _]. destruct (Hgall y Hy) as (Hyu & _).
    rewrite Heq in Hxu. contradiction.
  - rewrite concat_app. cbn [concat]. rewrite app_nil_r.
    apply Forall_app. split; [exact Hkeep|].
    eapply Forall_impl; [exact Hgall|]. intros x (_ & H2 & H3). auto.
Qed.

End GroupFacts.

(** X17.  The groups of [_group_semantic_elements]: no group is empty, every
    member is one of the elements handed in, and no name occurs twice, in a
    group or across groups.  So of several elements with the same name (two
    classes with an [__init__] method) at most one reaches a semantic
    block. *)
Theorem semantic_groups_use_each_name_once (elements : list CodeElement) :
  Forall (fun g => g <> []) (Chunker._group_semantic_elements elements)
  /\ NoDup (ce_name <$> concat (Chunker._group_semantic_elements elements))
  /\ Forall (fun x => x ∈ elements) (concat (Chunker._group_semantic_elements elements)).
Proof.
  unfold Chunker._group_semantic_elements.
  destruct (group_fold_invariant elements elements ([], ∅)) as (Hne & Hnd & Hall).
  - apply Forall_forall. auto.
  - cbn. split; [constructor|]. split; constructor.
  - split; [exact Hne|]. split; [exact Hnd|].
    eapply Forall_impl; [exact Hall|]. intros x [_ Hx]. exact Hx.
Qed.

Section LineFacts.

Lemma count_newlines_nonneg s : 0 <= count_newlines s.
Proof.
  induction s as [|c s IH]; simpl; [lia|]. destruct (Ascii.eqb c newline); lia.
Qed.

(** The lines of a text hold no newline. *)
Lemma split_lines_no_newline s : Forall (fun l => count_newlines l = 0) (split_lines s).
Proof.
  induction s as [|c s IH]; simpl; [repeat constructor|].
  destruct (Ascii.eqb c newline) eqn:Hc.
  - constructor; [reflexivity | exact IH].
  - destruct (split_lines s) as [|l ls].
    + constructor; [|constructor]. simpl. rewrite Hc. reflexivity.
    + inversion IH as [|? ? Hl Hls]; subst. constructor; [|exact Hls].
      simpl. rewrite Hc, Hl. reflexivity.
Qed.

Lemma split_lines_one_line l : count_newlines l = 0 -> split_lines l = [l].
Proof.
  induction l as [|c l IH]; simpl; [reflexivity|].
  pose proof (count_newlines_nonneg l).
  destruct (Ascii.eqb c newline); [lia|].
  intros Hl. rewrite IH by lia. reflexivity.
Qed.

Lemma split_lines_first_line l rest :
  count_newlines l = 0 ->
  split_lines (l +:+ String newline rest) = l :: split_lines rest.
Proof.
  induction l as [|c l IH]; simpl.
  - intros _. reflexivity.
  - pose proof (count_newlines_nonneg l).
    destruct (Ascii.eqb c newline); [lia|].
    intros Hl. rewrite IH by lia. reflexivity.
Qed.

(** Joining lines and splitting again gives the lines back. *)
Lemma split_lines_join ls :
  ls <> [] -> Forall (fun l => count_newlines l = 0) ls ->
  split_lines (join nl ls) = ls.
Proof.
  intros Hne Hall. unfold join.
  induction Hall as [|l ls Hl Hls IH]; [congruence|].
  destruct ls as [|l' ls].
  - simpl. apply split_lines_one_line. exact Hl.
  - change (String.concat nl (l :: l' :: ls))
      with (l +:+ String newline (String.concat nl (l' :: ls))).
    rewrite split_lines_first_line by exact Hl.
    rewrite IH by discriminate. reflexivity.
Qed.

Lemma slice_prefix {A} (l : list A) (hi : Z) :
  0 <= hi <= llen l -> slice l 0 hi = take (Z.to_nat hi) l.
Proof.
  intros Hhi. unfold slice, slice_bound.
  rewrite (proj2 (Z.ltb_ge 0 0)) by lia.
  rewrite (proj2 (Z.ltb_ge hi 0)) by lia.
  pose proof (llen_nonneg l).
  rewrite Z.min_l by lia. rewrite Z.min_l by lia.
  rewrite Z.sub_0_r. reflexivity.
Qed.

End LineFacts.

(** X18.  A chunk that [_trim_chunk] cuts keeps a line range that matches
    its content.  When the chunk has more lines than the target
    [max_chunk_size / 50], and the target is at least one, the trimmed chunk
    holds exactly the first [target] lines, starts where the chunk started
    and ends [target - 1] lines later, so the number of its lines is its line
    range; its metadata records the trimming and the original number of
    lines, and its other fields are those of the chunk. *)
Theorem trimmed_chunk_matches_its_range (cfg : Chunker.ChunkingConfig)
    (chunk0 : DocumentChunk) :
  1 <= Chunker.max_chunk_size cfg `quot` 50 ->
  Chunker.max_chunk_size cfg `quot` 50 < llen (split_lines (content chunk0)) ->
  split_lines (content (Chunker._trim_chunk cfg chunk0))
  = take (Z.to_nat (Chunker.max_chunk_size cfg `quot` 50)) (split_lines (content chunk0))
  /\ start_line (Chunker._trim_chunk cfg chunk0) = start_line chunk0
  /\ end_line (Chunker._trim_chunk cfg chunk0)
     = start_line chunk0 + Chunker.max_chunk_size cfg `quot` 50 - 1
  /\ llen (split_lines (content (Chunker._trim_chunk cfg chunk0)))
     = end_line (Chunker._trim_chunk cfg chunk0)
       - start_line (Chunker._trim_chunk cfg chunk0) + 1
  /\ metadata (Chunker._trim_chunk cfg chunk0) !! "trimmed" = Some (VBool true)
  /\ metadata (Chunker._trim_chunk cfg chunk0) !! "original_lines"
     = Some (VInt (llen (split_lines (content chunk0))))
  /\ file_path (Chunker._trim_chunk cfg chunk0) = file_path chunk0
  /\ language (Chunker._trim_chunk cfg chunk0) = language chunk0
  /\ element_name (Chunker._trim_chunk cfg chunk0) = element_name chunk0
  /\ element_type (Chunker._trim_chunk cfg chunk0) = element_type chunk0.
Proof.
  intros Ht Hlong. unfold Chunker._trim_chunk.
  set (t := Chunker.max_chunk_size cfg `quot` 50) in *.
  set (lines := split_lines (content chunk0)) in *.
  rewrite (proj2 (Z.gtb_lt (llen lines) t)) by lia.
  cbn [content start_line end_line metadata file_path language element_name element_type].
  rewrite slice_prefix by lia.
  assert (Hlen : llen (take (Z.to_nat t) lines) = t).
  { unfold llen in *. rewrite length_take. lia. }
  assert (Hsplit : split_lines (join nl (take (Z.to_nat t) lines)) = take (Z.to_nat t) lines).
  { apply split_lines_join.
    - intros Hnil. rewrite Hnil in Hlen. unfold llen in Hlen. simpl in Hlen. lia.
    - apply Forall_take, split_lines_no_newline. }
  rewrite Hsplit, Hlen.
  split; [reflexivity|]. split; [reflexivity|]. split; [reflexivity|].
  split; [lia|]. split.
  - rewrite lookup_insert_ne by discriminate. apply lookup_insert_eq.
  - split; [apply lookup_insert_eq|]. auto.
Qed.

Lemma trimmed_chunk_matches_its_range_witness :
  split_lines (content (Chunker._trim_chunk ChunkSamples.two_lines ChunkSamples.calculator))
  = take (Z.to_nat (Chunker.max_chunk_size ChunkSamples.two_lines `quot` 50))
         (split_lines (content ChunkSamples.calculator))
  /\ start_line (Chunker._trim_chunk ChunkSamples.two_lines ChunkSamples.calculator)
     = start_line ChunkSamples.calculator
  /\ end_line (Chunker._trim_chunk ChunkSamples.two_lines ChunkSamples.calculator)
     = start_line ChunkSamples.calculator
       + Chunker.max_chunk_size ChunkSamples.two_lines `quot` 50 - 1
  /\ llen (split_lines
             (content (Chunker._trim_chunk ChunkSamples.two_lines ChunkSamples.calculator)))
     = end_line (Chunker._trim_chunk ChunkSamples.two_lines ChunkSamples.calculator)
       - start_line (Chunker._trim_chunk ChunkSamples.two_lines ChunkSamples.calculator) + 1
  /\ metadata (Chunker._trim_chunk ChunkSamples.two_lines ChunkSamples.calculator)
       !! "trimmed" = Some (VBool true)
  /\ metadata (Chunker._trim_chunk ChunkSamples.two_lines ChunkSamples.calculator)
       !! "original_lines"
     = Some (VInt (llen (split_lines (content ChunkSamples.calculator))))
  /\ file_path (Chunker._trim_chunk ChunkSamples.two_lines ChunkSamples.calculator)
     = file_path ChunkSamples.calculator
  /\ language (Chunker._trim_chunk ChunkSamples.two_lines ChunkSamples.calculator)
     = language ChunkSamples.calculator
  /\ element_name (Chunker._trim_chunk ChunkSamples.two_lines ChunkSamples.calculator)
     = element_name ChunkSamples.calculator
  /\ element_type (Chunker._trim_chunk ChunkSamples.two_lines ChunkSamples.calculator)
     = element_type ChunkSamples.calculator.
Proof.
  apply (trimmed_chunk_matches_its_range ChunkSamples.two_lines ChunkSamples.calculator).
  - vm_compute. discriminate.
  - vm_compute. reflexivity.
Defined.

Section AttributionFacts.
Context `{Builtins}.
Import Chunker.
Variables (cfg : ChunkingConfig) (path : string).

Lemma Forall_flat_map_intro {A B} (P : B -> Prop) (f : A -> list B) l :
  (forall x, Forall P (f x)) -> Forall P (flat_map f l).
Proof.
  intros Hf. induction l as [|x l IH]; simpl; [constructor|].
  apply Forall_app. split; [apply Hf | exact IH].
Qed.

Lemma docstring_chunk_path result e name_key kind :
  Forall (fun c => file_path c = path) (docstring_chunk cfg result path e name_key kind).
Proof.
  unfold docstring_chunk. destruct (ce_docstring e); [|constructor].
  destruct (_ && _); repeat constructor.
Qed.

Lemma _sliding_window_chunking_path content0 :
  Forall (fun c => file_path c = path) (_sliding_window_chunking cfg content0 path).
Proof.
  destruct (_sliding_window_chunking_invariant cfg content0 path) as (_ & Hall & _).
  eapply Forall_impl; [exact Hall|]. intros c [_ Hc]. exact Hc.
Qed.

Lemma apply_strategy_path result content0 :
  Forall (fun c => file_path c = path) (apply_strategy cfg result content0 path).
Proof.
  assert (Hfun : Forall (fun c => file_path c = path)
                        (_chunk_by_functions cfg result content0 path)).
  { apply Forall_flat_map_intro. intros func.
    constructor; [reflexivity | apply docstring_chunk_path]. }
  unfold apply_strategy. destruct (strategy cfg).
  - exact Hfun.
  - apply Forall_flat_map_intro. intros cls.
    constructor; [reflexivity | apply docstring_chunk_path].
  - apply Forall_flat_map_intro. intros [|e es]; repeat constructor.
  - apply _sliding_window_chunking_path.
  - unfold _hybrid_chunking. apply Forall_app. split.
    { destruct (preserve_functions cfg); [exact Hfun | constructor]. }
    apply Forall_app. split.
    + destruct (preserve_classes cfg); [|constructor].
      apply Forall_fmap, Forall_forall. intros cls _. reflexivity.
    + destruct (include_imports cfg); [|constructor].
      unfold imports_chunk.
      destruct (filter _ (code_elements result)); [constructor|].
      destruct (flat_map _ _); repeat constructor.
Qed.

Lemma _trim_chunk_path c : file_path (_trim_chunk cfg c) = file_path c.
Proof. unfold _trim_chunk. destruct (_ >? _); reflexivity. Qed.

Lemma size_stage_path chunks :
  Forall (fun c => file_path c = path) chunks ->
  Forall (fun c => file_path c = path) (flat_map (size_stage cfg) chunks).
Proof.
  induction 1 as [|c chunks Hc Hall IH]; simpl; [constructor|].
  apply Forall_app. split; [|exact IH].
  unfold size_stage. destruct (_ && _); [constructor|].
  constructor; [|constructor].
  destruct (_ >? _); [rewrite _trim_chunk_path|]; exact Hc.
Qed.

Lemma merged_from_path group o :
  merged_from cfg group o -> Forall (fun c => file_path c = path) group ->
  file_path o = path.
Proof.
  intros [->|(_ & _ & Hm)] Hall.
  - inversion Hall; assumption.
  - destruct group as [|c0 cs]; [discriminate|]. cbn [_create_merged_chunk] in Hm.
    injection Hm as <-. cbn [file_path]. inversion Hall; assumption.
Qed.

Lemma _merge_small_chunks_path chunks out :
  Forall (fun c => file_path c = path) chunks ->
  _merge_small_chunks cfg chunks = Ok out ->
  Forall (fun c => file_path c = path) out.
Proof.
  intros Hall Hout.
  destruct (merge_loop_regroups cfg chunks [] []) as (out' & groups & Heq & Hcat & Hgroups);
    [constructor|].
  unfold _merge_small_chunks in Hout. rewrite Heq in Hout. injection Hout as <-.
  cbn [app] in *. subst chunks. clear Heq.
  induction Hgroups as [|g o groups out Hgo Hgroups IH]; [constructor|].
  cbn [concat] in Hall. apply Forall_app in Hall as [Hg Hrest].
  constructor; [eapply merged_from_path; eassumption | apply IH; exact Hrest].
Qed.

Lemma _post_process_chunks_path chunks out :
  Forall (fun c => file_path c = path) chunks ->
  _post_process_chunks cfg chunks = Ok out ->
  Forall (fun c => file_path c = path) out.
Proof.
  intros Hall. apply size_stage_path in Hall. unfold _post_process_chunks.
  destruct (merge_small_functions cfg).
  - apply _merge_small_chunks_path. exact Hall.
  - intros [= <-]. exact Hall.
Qed.

Lemma chunk_file_path w :
  exists out, chunk_file cfg w path = Ok out /\ Forall (fun c => file_path c = path) out.
Proof.
  assert (Hfall : Forall (fun c => file_path c = path) (fallback_chunks cfg w path)).
  { unfold fallback_chunks. destruct (read_text w path); [|constructor].
    apply _sliding_window_chunking_path. }
  rewrite chunk_file_cases.
  destruct (create_parser_from_file w path) as [parser|]; [|eauto].
  destruct (parse_file parser path) as [result|e]; [|eauto].
  destruct (success result); [|eauto].
  destruct (read_file_content parser path) as [content0|e]; [|eauto].
  destruct (_post_process_chunks_total cfg (apply_strategy cfg result content0 path))
    as [out Hout].
  exists out. split; [exact Hout|].
  eapply _post_process_chunks_path; [apply apply_strategy_path | exact Hout].
Qed.

End AttributionFacts.

(** X19.  Every chunk that [chunk_file] returns is attributed to the file
    that was asked for, whatever the strategy, the parser and the file
    system do, and also after trimming and merging. *)
Theorem chunk_file_attributes_chunks_to_the_file `{Builtins}
    (cfg : Chunker.ChunkingConfig) (w : Chunker.World) (path : string) :
  exists out,
    Chunker.chunk_file cfg w path = Ok out
    /\ Forall (fun c => file_path c = path) out.
Proof. apply chunk_file_path. Qed.

Section RepositoryFacts.
Context `{Builtins}.
Import Chunker.
Variables (is_file : string -> result bool) (is_supported_file : string -> bool).

Lemma find_supported_cases walk :
  match find_supported is_file is_supported_file walk with
  | Ok supported_files =>
      Forall (answered is_file) walk
      /\ supported_files
         = filter (fun p => visited is_file is_supported_file p = true) walk
  | Raise e =>
      exists before p after,
        walk = before ++ p :: after
        /\ Forall (answered is_file) before
        /\ is_file p = Raise e
  end.
Proof.
  induction walk as [|p walk IH]; cbn [find_supported].
  - split; [constructor | reflexivity].
  - destruct (is_file p) as [a_file|e] eqn:Hp; cbn [mbind result_bind Py.bind].
    + destruct (find_supported is_file is_supported_file walk) as [files|e];
        cbn [Py.bind].
      * destruct IH as [Hall ->]. split; [constructor; [eexists; exact Hp | exact Hall]|].
        destruct (a_file && is_supported_file p) eqn:Hv.
        -- rewrite filter_cons_True; [reflexivity|].
           unfold visited. rewrite Hp. destruct a_file; [exact Hv | discriminate].
        -- rewrite filter_cons_False; [reflexivity|].
           unfold visited. rewrite Hp. destruct a_file; simpl in Hv; congruence.
      * destruct IH as (before & p' & after & -> & Hall & Hraise).
        exists (p :: before), p', after. split; [reflexivity|].
        split; [constructor; [eexists; exact Hp | exact Hall] | exact Hraise].
    + exists [], p, walk. split; [reflexivity|]. split; [constructor | exact Hp].
Qed.

Lemma chunk_files_path cfg w files :
  exists per_file,
    mapM (chunk_file cfg w) files = Ok per_file
    /\ Forall2 (fun p out => chunk_file cfg w p = Ok out
                             /\ Forall (fun c => file_path c = p) out) files per_file.
Proof.
  induction files as [|p files (per_file & Heq & Hall)].
  - exists []. split; [reflexivity | constructor].
  - destruct (chunk_file_path cfg p w) as (out & Hout & Hpath).
    exists (out :: per_file). cbn [mapM]. rewrite Hout, Heq.
    split; [reflexivity|]. constructor; [split; assumption | exact Hall].
Qed.

End RepositoryFacts.

(** X20.  [chunk_repository] raises exactly what the walk raises: the error
    of [is_file] on the first path of the walk where it has one (a directory
    that may not be read, say), or else the error that ends the walk, if
    any; chunking itself never raises.  When the walk goes through, the
    function returns the chunks of the files it visits in the order of the
    walk: each chunk belongs to a path of the walk that is a file and is
    supported by the parser factory; nothing comes from any other path. *)
Theorem chunk_repository_chunks_supported_files `{Builtins}
    (cfg : Chunker.ChunkingConfig) (w : Chunker.World) (walk : list string) (walk_end : option exn)
    (is_file : string -> result bool) (is_supported_file : string -> bool) :
  match Chunker.chunk_repository cfg w walk walk_end is_file is_supported_file with
  | Ok all_chunks =>
      Forall (answered is_file) walk
      /\ walk_end = None
      /\ (exists per_file,
            all_chunks = concat per_file
            /\ Forall2 (fun p out => Chunker.chunk_file cfg w p = Ok out
                                     /\ Forall (fun c => file_path c = p) out)
                 (filter (fun p => visited is_file is_supported_file p = true) walk)
                 per_file)
      /\ Forall (fun c => file_path c ∈ walk
                          /\ is_file (file_path c) = Ok true
                          /\ is_supported_file (file_path c) = true) all_chunks
  | Raise e =>
      (exists before p after,
         walk = before ++ p :: after
         /\ Forall (answered is_file) before
         /\ is_file p = Raise e)
      \/ (Forall (answered is_file) walk /\ walk_end = Some e)
  end.
Proof.
  unfold Chunker.chunk_repository.
  pose proof (find_supported_cases is_file is_supported_file walk) as Hwalk.
  destruct (Chunker.find_supported is_file is_supported_file walk) as [files|e];
    cbn [mbind result_bind Py.bind]; [|left; exact Hwalk].
  destruct Hwalk as [Hall ->].
  destruct walk_end as [e|]; cbn [Py.bind]; [right; split; [exact Hall | reflexivity]|].
  destruct (chunk_files_path cfg w
              (filter (fun p => visited is_file is_supported_file p = true) walk))
    as (per_file & -> & Hper).
  cbn [Py.bind]. split; [exact Hall|]. split; [reflexivity|].
  split; [exists per_file; split; [reflexivity | exact Hper]|].
  assert (Hfiles : Forall (fun p => p ∈ walk /\ is_file p = Ok true
                                    /\ is_supported_file p = true)
                     (filter (fun p => visited is_file is_supported_file p = true) walk)).
  { apply Forall_forall. intros p Hp. apply list_elem_of_filter in Hp as [Hp Hin].
    split; [exact Hin|]. revert Hp. unfold visited.
    destruct (is_file p) as [[|]|]; try discriminate. auto. }
  revert Hper Hfiles.
  generalize (filter (fun p => visited is_file is_supported_file p = true) walk).
  intros files Hper. clear Hall.
  induction Hper as [|p out files' per_file [_ Hpath] Hper IH]; intros Hfiles;
    [constructor|].
  apply Forall_cons in Hfiles as [Hp Hfiles].
  cbn [concat]. apply Forall_app. split; [|apply IH; exact Hfiles].
  eapply Forall_impl; [exact Hpath|]. intros c ->. exact Hp.
Qed.

Section BatchingFacts.
Context `{Builtins} {State : Type}.
Import Embedder.
Variables (cfg : EmbeddingConfig) (self : CodeEmbedder) (svc : RemoteService State).





End BatchingFacts.


(** X22.  What survives saving and loading.  Loading the file that an
    embedder has just saved returns one result per result saved, in order,
    with the path, the line range, the element name and the metadata of its
    chunk and with its vector; the content, the language, the chunk type and
    the element type of the chunk are lost, and the model name and the
    dimension are those of the embedder that saved, not those of the result.
    Files under other paths read as before, and a path that holds no file
    loads as the empty list. *)
Theorem load_embeddings_after_save (self : Embedder.CodeEmbedder)
    (results : list EmbeddingResult) (path : string)
    (files : gmap string Embedder.EmbeddingData) :
  Embedder.load_embeddings path (Embedder.save_embeddings self results path true files)
  = reloaded self <$> results
  /\ (forall other, other <> path ->
        Embedder.load_embeddings other (Embedder.save_embeddings self results path true files)
        = Embedder.load_embeddings other files)
  /\ (files !! path = None -> Embedder.load_embeddings path files = []).
Proof.
  unfold Embedder.load_embeddings, Embedder.save_embeddings. split; [|split].
  - rewrite lookup_insert_eq. cbn [Embedder.ed_embeddings Embedder.ed_model_name
                                     Embedder.ed_embedding_dimension].
    rewrite <- list_fmap_compose. reflexivity.
  - intros other Hne. rewrite lookup_insert_ne by congruence. reflexivity.
  - intros ->. reflexivity.
Qed.

(** X23.  The content of a class chunk matches its line range.  For an
    element that lies within the file (its start line is at least 1, not
    after its end line, which is not after the last line),
    [_extract_element_content] returns exactly the lines from the start line
    to the end line, so a class chunk holds as many lines as its line range
    says. *)
Theorem class_chunk_content_matches_range (result : AnalysisResult)
    (content0 path : string) (cls : CodeElement) :
  1 <= ce_start_line cls ->
  ce_start_line cls <= ce_end_line cls ->
  ce_end_line cls <= llen (split_lines content0) ->
  split_lines (Chunker._extract_element_content cls (split_lines content0))
  = take (Z.to_nat (ce_end_line cls - ce_start_line cls + 1))
         (drop (Z.to_nat (ce_start_line cls - 1)) (split_lines content0))
  /\ content (Chunker.class_chunk result (split_lines content0) path cls)
     = Chunker._extract_element_content cls (split_lines content0)
  /\ llen (split_lines (content (Chunker.class_chunk result (split_lines content0) path cls)))
     = end_line (Chunker.class_chunk result (split_lines content0) path cls)
       - start_line (Chunker.class_chunk result (split_lines content0) path cls) + 1.
Proof.
  intros Hstart Hle Hend.
  set (lines := split_lines content0) in *.
  assert (Hslice : slice lines (Z.max 0 (ce_start_line cls - 1))
                               (Z.min (llen lines) (ce_end_line cls))
                   = take (Z.to_nat (ce_end_line cls - ce_start_line cls + 1))
                          (drop (Z.to_nat (ce_start_line cls - 1)) lines)).
  { unfold slice, slice_bound.
    rewrite (proj2 (Z.ltb_ge (Z.max 0 (ce_start_line cls - 1)) 0)) by lia.
    rewrite (proj2 (Z.ltb_ge (Z.min (llen lines) (ce_end_line cls)) 0)) by lia.
    f_equal; [|f_equal]; lia. }
  assert (Hlen : llen (take (Z.to_nat (ce_end_line cls - ce_start_line cls + 1))
                            (drop (Z.to_nat (ce_start_line cls - 1)) lines))
                 = ce_end_line cls - ce_start_line cls + 1).
  { unfold llen in *. rewrite length_take, length_drop. lia. }
  assert (Hsplit : split_lines (Chunker._extract_element_content cls lines)
                   = take (Z.to_nat (ce_end_line cls - ce_start_line cls + 1))
                          (drop (Z.to_nat (ce_start_line cls - 1)) lines)).
  { unfold Chunker._extract_element_content. rewrite Hslice.
    apply split_lines_join.
    - intros Hnil. rewrite Hnil in Hlen. unfold llen in Hlen. simpl in Hlen. lia.
    - apply Forall_take, Forall_drop, split_lines_no_newline. }
  split; [exact Hsplit|]. split; [reflexivity|].
  cbn [Chunker.class_chunk content start_line end_line].
  rewrite Hsplit, Hlen. reflexivity.
Qed.

Lemma class_chunk_content_matches_range_witness :
  split_lines (Chunker._extract_element_content
                 (ChunkSamples.element "Calculator" CLASS 6 11 None (Some 15%Q))
                 (split_lines ChunkSamples.calc_py))
  = take (Z.to_nat (11 - 6 + 1)) (drop (Z.to_nat (6 - 1)) (split_lines ChunkSamples.calc_py))
  /\ content (Chunker.class_chunk ChunkSamples.calc_py_parsed
                (split_lines ChunkSamples.calc_py) "calc.py"
                (ChunkSamples.element "Calculator" CLASS 6 11 None (Some 15%Q)))
     = Chunker._extract_element_content
         (ChunkSamples.element "Calculator" CLASS 6 11 None (Some 15%Q))
         (split_lines ChunkSamples.calc_py)
  /\ llen (split_lines
             (content (Chunker.class_chunk ChunkSamples.calc_py_parsed
                         (split_lines ChunkSamples.calc_py) "calc.py"
                         (ChunkSamples.element "Calculator" CLASS 6 11 None (Some 15%Q)))))
     = end_line (Chunker.class_chunk ChunkSamples.calc_py_parsed
                   (split_lines ChunkSamples.calc_py) "calc.py"
                   (ChunkSamples.element "Calculator" CLASS 6 11 None (Some 15%Q)))
       - start_line (Chunker.class_chunk ChunkSamples.calc_py_parsed
                       (split_lines ChunkSamples.calc_py) "calc.py"
                       (ChunkSamples.element "Calculator" CLASS 6 11 None (Some 15%Q))) + 1.
Proof.
  apply (class_chunk_content_matches_range ChunkSamples.calc_py_parsed ChunkSamples.calc_py
           "calc.py" (ChunkSamples.element "Calculator" CLASS 6 11 None (Some 15%Q))).
  - vm_compute. discriminate.
  - vm_compute. discriminate.
  - vm_compute. discriminate.
Defined.
